(** * openml.datasets.dataset: the cache / parse / convert pipeline of
    [OpenMLDataset]

    A shallow embedding of [src/openml/datasets/dataset.py].  Python values
    are modelled by inductive types, exceptions by the [result] type, and the
    object together with the file system and the logger by an explicit state
    that survives a raised exception. *)

From Stdlib Require Import ZArith QArith Ascii String.
From stdpp Require Import gmap strings list fin_maps pretty.

Local Set Warnings "-clear-no-such-hyp".
Local Open Scope string_scope.
Local Open Scope list_scope.
Local Open Scope Z_scope.

(** ** Python preliminaries *)

(** The exception classes that occur in the module.  [LibraryError] stands for
    an exception of a library (pyarrow, pickle, liac-arff, pandas) whose class is
    none of the others, so no [except] clause of the module catches it. *)
Inductive exn :=
  | EOFError
  | FileNotFoundError
  | OSError
  | TypeError
  | ValueError (msg : string)
  | IndexError
  | KeyError (key : string)
  | OverflowError
  | AttributeError
  | NotImplementedError (msg : string)
  | PyOpenMLError (msg : string)
  | LibraryError (origin : string).

Inductive result (A : Type) :=
  | Ok (a : A)
  | Err (e : exn).
Arguments Ok {A} a.
Arguments Err {A} e.

Definition rbind {A B} (r : result A) (k : A → result B) : result B :=
  match r with
  | Ok a => k a
  | Err e => Err e
  end.

Global Instance result_bind : MBind result := λ A B k r, rbind r k.
Global Instance result_ret : MRet result := λ A a, Ok a.

Definition is_Ok {A} (r : result A) : bool :=
  match r with Ok _ => true | Err _ => false end.

(** A Python float, as far as [int(x)] tells floats apart. *)
Inductive pyfloat :=
  | Fnan
  | Finf (negative : bool)
  | Ffin (q : Q).

(** The values a cell of a decoded ARFF row or of a pandas column can hold. *)
Inductive pyval :=
  | VNone
  | VBool (b : bool)
  | VInt (z : Z)
  | VFloat (f : pyfloat)
  | VStr (s : string).

(** A category label: a string of the ARFF header, or a Python bool after the
    boolean collapse. *)
Inductive label :=
  | LStr (s : string)
  | LBool (b : bool).

Global Instance label_eq_dec : EqDecision label.
Proof. solve_decision. Defined.

(** *** Strings *)

Definition ascii_lower (c : ascii) : ascii :=
  let n := nat_of_ascii c in
  if (65 <=? n)%nat && (n <=? 90)%nat then ascii_of_nat (n + 32) else c.

Definition ascii_upper (c : ascii) : ascii :=
  let n := nat_of_ascii c in
  if (97 <=? n)%nat && (n <=? 122)%nat then ascii_of_nat (n - 32) else c.

(** [str.lower()] on ASCII text. *)
Fixpoint lower (s : string) : string :=
  match s with
  | EmptyString => EmptyString
  | String c s' => String (ascii_lower c) (lower s')
  end.

(** [str.capitalize()]: first character upper case, the rest lower case. *)
Definition capitalize (s : string) : string :=
  match s with
  | EmptyString => EmptyString
  | String c s' => String (ascii_upper c) (lower s')
  end.

Fixpoint is_prefix (p s : string) : bool :=
  match p, s with
  | EmptyString, _ => true
  | String a p', String b s' => if decide (a = b) then is_prefix p' s' else false
  | String _ _, EmptyString => false
  end.

(** [s.replace(old, new)] for a non-empty [old]: occurrences are replaced from
    the left and do not overlap.  [skip] counts the characters of a matched
    occurrence that are still to be dropped. *)
Fixpoint replace_go (old new : string) (skip : nat) (s : string) : string :=
  match s with
  | EmptyString => EmptyString
  | String c s' =>
      match skip with
      | S k => replace_go old new k s'
      | O =>
          if is_prefix old s
          then new +:+ replace_go old new (String.length old - 1) s'
          else String c (replace_go old new O s')
      end
  end.

Definition replace (old new s : string) : string := replace_go old new O s.

(** [sep in s] for a one-character [sep]. *)
Fixpoint contains_char (sep : ascii) (s : string) : bool :=
  match s with
  | EmptyString => false
  | String c s' => if decide (c = sep) then true else contains_char sep s'
  end.

(** [s.split(sep)] for a one-character [sep]. *)
Fixpoint split_go (sep : ascii) (cur : string) (s : string) : list string :=
  match s with
  | EmptyString => [String.rev cur]
  | String c s' =>
      if decide (c = sep) then String.rev cur :: split_go sep EmptyString s'
      else split_go sep (String c cur) s'
  end.

Definition split (sep : ascii) (s : string) : list string :=
  split_go sep EmptyString s.

(** [s[-3:]] *)
Definition last3 (s : string) : string :=
  let n := String.length s in substring (n - 3) 3 s.

(** *** [int(x)] *)

Definition is_py_space (c : ascii) : bool :=
  let n := nat_of_ascii c in
  ((9 <=? n)%nat && (n <=? 13)%nat) || ((28 <=? n)%nat && (n <=? 32)%nat).

Fixpoint lstrip (s : string) : string :=
  match s with
  | String c s' => if is_py_space c then lstrip s' else s
  | EmptyString => EmptyString
  end.

Definition strip (s : string) : string :=
  String.rev (lstrip (String.rev (lstrip s))).

Definition digit_of (c : ascii) : option Z :=
  let n := nat_of_ascii c in
  if (48 <=? n)%nat && (n <=? 57)%nat then Some (Z.of_nat (n - 48)) else None.

(** Decimal digits, a single underscore allowed between two digits. *)
Fixpoint digits_value (acc : Z) (after_digit : bool) (s : string) : option Z :=
  match s with
  | EmptyString => if after_digit then Some acc else None
  | String c s' =>
      match digit_of c with
      | Some d => digits_value (10 * acc + d) true s'
      | None =>
          if decide (c = "_"%char)
          then (if after_digit then digits_value acc false s' else None)
          else None
      end
  end.

(** [int(s)] for an ASCII string [s]; [None] is Python's [ValueError]. *)
Definition int_of_string (s : string) : option Z :=
  match strip s with
  | String "-" s' => Z.opp <$> digits_value 0 false s'
  | String "+" s' => digits_value 0 false s'
  | s' => digits_value 0 false s'
  end.

(** [int(x)]: a float is truncated towards zero. *)
Definition py_int (x : pyval) : result Z :=
  match x with
  | VNone => Err TypeError
  | VBool b => Ok (if b then 1 else 0)
  | VInt z => Ok z
  | VFloat Fnan => Err (ValueError "cannot convert float NaN to integer")
  | VFloat (Finf _) => Err OverflowError
  | VFloat (Ffin q) => Ok (Z.quot (Qnum q) (Z.pos (Qden q)))
  | VStr s =>
      match int_of_string s with
      | Some z => Ok z
      | None => Err (ValueError "invalid literal for int() with base 10")
      end
  end.

(** [l[z]] on a Python list: a negative index counts from the end, an index
    outside [-len, len) is an [IndexError] (here [None]). *)
Definition py_index {A} (l : list A) (z : Z) : option A :=
  if decide (0 ≤ z) then l !! Z.to_nat z
  else if decide (- Z.of_nat (length l) ≤ z) then l !! Z.to_nat (Z.of_nat (length l) + z)
  else None.

(** The idiom [[a for a, k in zip(l, mask) if k]]. *)
Fixpoint mask_filter {A} (mask : list bool) (l : list A) : list A :=
  match mask, l with
  | k :: mask', a :: l' => if k then a :: mask_filter mask' l' else mask_filter mask' l'
  | _, _ => []
  end.

(** ** Data model *)

(** A [pd.Categorical]: the category list (its order is the order of the
    categorical) and one code per row, [-1] for a missing value. *)
Record Categorical := {
  cat_categories : list label;
  cat_codes : list Z;
}.

Inductive series_body :=
  | Plain (cells : list pyval)
  | Category (c : Categorical).

(** A [pd.Series]; the index is the default range index throughout. *)
Record Series := {
  s_name : string;
  s_body : series_body;
}.

(** The value a categorical holds in each row: its label, or [None] for NaN. *)
Definition cat_values (c : Categorical) : list (option label) :=
  map (λ code, if decide (0 ≤ code) then cat_categories c !! Z.to_nat code else None)
      (cat_codes c).

Definition pyval_of_label (l : label) : pyval :=
  match l with
  | LStr s => VStr s
  | LBool b => VBool b
  end.

(** [for x in series] *)
Definition series_iter (s : Series) : list pyval :=
  match s_body s with
  | Plain cells => cells
  | Category c =>
      map (λ v, match v with Some l => pyval_of_label l | None => VFloat Fnan end)
          (cat_values c)
  end.

Fixpoint index_of (l : label) (categories : list label) (i : Z) : Z :=
  match categories with
  | [] => -1
  | c :: cs => if decide (c = l) then i else index_of l cs (i + 1)
  end.

(** [pd.Categorical(col, ordered=True, categories=categories)]: pandas refuses
    a category list with a repeated entry; a value that is no category gets
    code [-1]. *)
Definition pd_Categorical (col : list (option label)) (categories : list label)
  : result Categorical :=
  if decide (NoDup categories) then
    Ok {| cat_categories := categories;
          cat_codes := map (λ v, match v with
                                 | Some l => index_of l categories 0
                                 | None => -1
                                 end) col |}
  else Err (ValueError "Categorical categories must be unique").

(** The loop of [_unpack_categories]:
    [try: col.append(categories[int(x)])
     except (TypeError, ValueError): col.append(np.nan)] *)
Fixpoint unpack_loop (xs : list pyval) (categories : list label)
  : result (list (option label)) :=
  match xs with
  | [] => Ok []
  | x :: xs' =>
      v ← match py_int x with
          | Ok z =>
              match py_index categories z with
              | Some l => Ok (Some l)
              | None => Err IndexError
              end
          | Err TypeError => Ok None
          | Err (ValueError _) => Ok None
          | Err e => Err e
          end;
      col ← unpack_loop xs' categories;
      Ok (v :: col)
  end.

Definition _unpack_categories (series : Series) (categories : list label)
  : result Series :=
  col ← unpack_loop (series_iter series) categories;
  raw_cat ← pd_Categorical col categories;
  Ok {| s_name := s_name series; s_body := Category raw_cat |}.


(** *** numpy scalars

    Floating-point arithmetic is not interpreted: an array element and the
    conversions numpy applies to one are the members of an interface, and
    every result below holds for any implementation of it. *)
Inductive target_dtype := py_int_type | py_float_type.

Class NumPy := {
  scalar : Type;
  np_zero : scalar;
  np_nan : scalar;
  np_add : scalar → scalar → scalar;
  (** one cell under [dtype=np.float32]; a non-numeric [str] is [ValueError] *)
  np_float32_of : pyval → result scalar;
  (** [cat.codes.astype(np.float32)] on one code *)
  np_float32_of_code : Z → scalar;
  (** [np.asarray(a, dtype=np.float32)] on one element of an array *)
  np_float32 : scalar → scalar;
  (** [a.astype(int)] / [a.astype(float)] on one element *)
  np_astype : target_dtype → scalar → scalar;
}.

Section dataset.
Context `{np : NumPy}.

(** A [scipy.sparse] matrix, kept column by column: the stored entries of
    each column as (row, value). *)
Record csr_matrix := {
  sp_nrows : nat;
  sp_cols : list (list (nat * scalar));
}.

(** A [numpy.ndarray] in row-major order. *)
Record ndarray := {
  nd_shape : list nat;
  nd_items : list scalar;
}.

(** The table of a dataset as it is parsed and cached: a [pd.DataFrame], a
    [scipy.sparse] matrix or, in a cache written before version 0.9, a
    [np.ndarray]. *)
Inductive pydata :=
  | Frame (df : list Series)
  | Sparse (m : csr_matrix)
  | NdArray (a : ndarray).

(** What [get_data] binds [x] and [y] to and returns: a table, a [pd.Series],
    the scalar that [squeeze] leaves of a single cell (a numpy scalar, or a
    plain Python object, which has no [ndim]), or a [pd.SparseDataFrame]. *)
Inductive pyobj :=
  | Data (d : pydata)
  | Ser (s : Series)
  | Item (numpy_scalar : bool) (c : pyval)
  | SparseFrame (m : csr_matrix) (columns : list string).

(** *** Files *)

Inductive arff_type :=
  | Primitive (tag : string)
  | Nominal (labels : list string).

Inductive arff_data :=
  | DenseData (rows : list (list pyval))
  | CooData (values : list pyval) (rows cols : list nat).

(** The dict returned by [arff.ArffDecoder().decode(..., encode_nominal=True)]:
    [data['attributes']] and [data['data']]. *)
Record arff_dict := {
  attributes : list (string * arff_type);
  arff_rows : arff_data;
}.

Inductive return_type := DENSE | COO.

(** What [pickle.load] returns on the module's cache files: the pair written
    next to a feather file, or the triple of a pickle cache. *)
Inductive pickled :=
  | Pair (categorical : list bool) (attribute_names : list string)
  | Triple (d : pydata) (categorical : list bool) (attribute_names : list string).

(** A file is described by what its reader returns.  An ARFF file holds its
    header and, for each return type of the decoder, the decoded rows (or the
    decoder's error).  [Truncated] is a pickle stream cut short, the empty file
    included.  A reader applied to a file of another kind raises an exception
    of its library. *)
Inductive file :=
  | ArffFile (header : list (string * arff_type))
             (dense : result (list (list pyval)))
             (coo : result (list pyval * list nat * list nat))
  | FeatherFile (df : list Series)
  | PickleFile (obj : pickled)
  | Truncated.

(** *** The object, the disk, and what was logged and done *)

Inductive attribute_spec :=
  | AttrStr (s : string)
  | AttrList (l : list string).

Record OpenMLDataset := {
  dataset_id : option Z;
  name : string;
  format : string;
  cache_format : string;
  data_file : option string;
  data_pickle_file : option string;
  data_feather_file : option string;
  row_id_attribute : option attribute_spec;
  ignore_attribute : option attribute_spec;
}.

(** What the module takes from its surroundings: the pointer width
    [8 * struct.calcsize("P")], [os.path.getsize], and [_get_dataset_arff] of
    [openml.datasets.functions], which fetches the ARFF file of a dataset into
    the cache directory and returns its path. *)
Class Environment := {
  bits : Z;
  getsize : file → Z;
  _get_dataset_arff : OpenMLDataset → gmap string file → result string * gmap string file;
}.
Context `{env : Environment}.

Inductive level := DEBUG | INFO | WARNING | CRITICAL.

Inductive log_arg :=
  | ArgInt (z : Z)
  | ArgStr (s : string)
  | ArgList (l : list string).

Inductive event :=
  | Logged (lvl : level) (template : string) (args : list log_arg)
  | ArffDecoded (filename : string)
  | FileWritten (filename : string).

Record state := {
  self : OpenMLDataset;
  disk : gmap string file;
  events : list event;
}.

(** *** The monad: a computation changes the state and returns or raises; the
    state reached when an exception is raised is kept. *)
Definition M (A : Type) : Type := state → result A * state.

Definition ret {A} (a : A) : M A := λ s, (Ok a, s).

Definition raise {A} (e : exn) : M A := λ s, (Err e, s).

Definition bind {A B} (m : M A) (k : A → M B) : M B :=
  λ s, match m s with
       | (Ok a, s') => k a s'
       | (Err e, s') => (Err e, s')
       end.

Definition lift {A} (r : result A) : M A := λ s, (r, s).

(** [try: m  except ...: h e]; [h e = None] when no clause matches [e]. *)
Definition try_except {A} (m : M A) (h : exn → option (M A)) : M A :=
  λ s, match m s with
       | (Ok a, s') => (Ok a, s')
       | (Err e, s') =>
           match h e with
           | Some k => k s'
           | None => (Err e, s')
           end
       end.

Global Instance M_bind : MBind M := λ A B k m, bind m k.
Global Instance M_ret : MRet M := λ A a, ret a.

Definition get_self : M OpenMLDataset := λ s, (Ok (self s), s).

Definition set_self (f : OpenMLDataset → OpenMLDataset) : M unit :=
  λ s, (Ok tt, {| self := f (self s); disk := disk s; events := events s |}).

Definition emit (e : event) : M unit :=
  λ s, (Ok tt, {| self := self s; disk := disk s; events := events s ++ [e] |}).

Definition set_data_file (path : option string) : M unit :=
  set_self (λ this, {| dataset_id := dataset_id this; name := name this;
                       format := format this; cache_format := cache_format this;
                       data_file := path;
                       data_pickle_file := data_pickle_file this;
                       data_feather_file := data_feather_file this;
                       row_id_attribute := row_id_attribute this;
                       ignore_attribute := ignore_attribute this |}).

Definition set_cache_files (pickle_file feather_file : option string) : M unit :=
  set_self (λ this, {| dataset_id := dataset_id this; name := name this;
                       format := format this; cache_format := cache_format this;
                       data_file := data_file this;
                       data_pickle_file := pickle_file;
                       data_feather_file := feather_file;
                       row_id_attribute := row_id_attribute this;
                       ignore_attribute := ignore_attribute this |}).

Definition set_cache_format (cache_format : string) : M unit :=
  set_self (λ this, {| dataset_id := dataset_id this; name := name this;
                       format := format this; cache_format := cache_format;
                       data_file := data_file this;
                       data_pickle_file := data_pickle_file this;
                       data_feather_file := data_feather_file this;
                       row_id_attribute := row_id_attribute this;
                       ignore_attribute := ignore_attribute this |}).

Definition logger (lvl : level) (template : string) (args : list log_arg) : M unit :=
  emit (Logged lvl template args).

(** [os.path.exists] *)
Definition os_path_exists (path : string) : M bool :=
  λ s, (Ok (bool_decide (is_Some (disk s !! path))), s).

(** [open(path, "rb")]: the file's content, [FileNotFoundError] if absent. *)
Definition open_rb (path : option string) : M file :=
  λ s, match path with
       | None => (Err TypeError, s)
       | Some p =>
           match disk s !! p with
           | Some f => (Ok f, s)
           | None => (Err FileNotFoundError, s)
           end
       end.

(** [open(path, "wb")] followed by the write of [f]. *)
Definition write_file (path : string) (f : file) : M unit :=
  λ s, (Ok tt, {| self := self s; disk := <[path := f]> (disk s);
                  events := events s ++ [FileWritten path] |}).

Definition pickle_load (fh : file) : result pickled :=
  match fh with
  | PickleFile obj => Ok obj
  | Truncated => Err EOFError
  | _ => Err (LibraryError "pickle.UnpicklingError")
  end.

(** [categorical, attribute_names = pickle.load(fh)] *)
Definition unpack2 (obj : pickled) : result (list bool * list string) :=
  match obj with
  | Pair c a => Ok (c, a)
  | Triple _ _ _ => Err (ValueError "too many values to unpack (expected 2)")
  end.

(** [data, categorical, attribute_names = pickle.load(fh)] *)
Definition unpack3 (obj : pickled) : result (pydata * list bool * list string) :=
  match obj with
  | Triple d c a => Ok (d, c, a)
  | Pair _ _ => Err (ValueError "not enough values to unpack (expected 3, got 2)")
  end.

Definition pickle_load_2 (fh : file) : result (list bool * list string) :=
  obj ← pickle_load fh; unpack2 obj.

Definition pickle_load_3 (fh : file) : result (pydata * list bool * list string) :=
  obj ← pickle_load fh; unpack3 obj.

(** [feather.read_feather(path)] *)
Definition feather_read_feather (path : option string) : M pydata :=
  f ← open_rb path;
  match f with
  | FeatherFile df => mret (Frame df)
  | _ => raise (LibraryError "pyarrow.ArrowInvalid")
  end.

(** [feather.write_feather(X, path)] *)
Definition feather_write_feather (X : pydata) (path : string) : M unit :=
  match X with
  | Frame df => write_file path (FeatherFile df)
  | _ => raise (LibraryError "pyarrow")
  end.

(** ** [_get_arff] *)

(** [os.path.getsize(filename)] *)
Definition os_path_getsize (filename : option string) : M Z :=
  f ← open_rb filename;
  mret (getsize f).

(** [decoder.decode(fh, encode_nominal=True, return_type=return_type)].
    liac-arff refuses a header that declares an attribute name twice. *)
Definition arff_decode (return_type : return_type) (fh : file) : result arff_dict :=
  match fh with
  | ArffFile header dense coo =>
      if decide (NoDup header.*1) then
        match return_type with
        | DENSE =>
            rows ← dense;
            Ok {| attributes := header; arff_rows := DenseData rows |}
        | COO =>
            '(values, rows, cols) ← coo;
            Ok {| attributes := header; arff_rows := CooData values rows cols |}
        end
      else Err (LibraryError "arff.BadAttributeName")
  | _ => Err (LibraryError "arff.ArffException")
  end.

(** The local function [decode_arff(fh)]; the call of the Raw Format Decoder
    is recorded. *)
Definition decode_arff (return_type : return_type) (filename : string) (fh : file)
  : M arff_dict :=
  emit (ArffDecoded filename);;
  lift (arff_decode return_type fh).

(** [gzip.open(filename)] and [io.open(filename, encoding='utf8')] both hand
    the content of the file to the decoder; compression is not modelled. *)
Definition gzip_open (filename : string) : M file := open_rb (Some filename).
Definition io_open (filename : string) : M file := open_rb (Some filename).

Definition str_of_option (o : option string) : string :=
  match o with Some s => s | None => "None" end.

Definition _get_arff (format : string) : M arff_dict :=
  this ← get_self;
  let filename := data_file this in
  (if decide (bits ≠ 64) then
     size ← os_path_getsize filename;
     if decide (120000000 < size) then
       raise (NotImplementedError
                ("File " +:+ str_of_option filename +:+ " too big for "
                 +:+ pretty size +:+ "-bit system (" +:+ pretty bits +:+ " bytes)."))
     else mret tt
   else mret tt);;
  return_type ←
    (if decide (lower format = "arff") then mret DENSE
     else if decide (lower format = "sparse_arff") then mret COO
     else raise (ValueError ("Unknown data format " +:+ format)));
  match filename with
  | None => raise TypeError
  | Some filename =>
      if decide (last3 filename = ".gz") then
        fh ← gzip_open filename;
        decode_arff return_type filename fh
      else
        fh ← io_open filename;
        decode_arff return_type filename fh
  end.

(** ** [_parse_data_from_arff] *)

Definition ARFF_DTYPES_TO_PD_DTYPE : gmap string string :=
  list_to_map [("INTEGER", "integer"); ("REAL", "floating");
               ("NUMERIC", "floating"); ("STRING", "string")].

(** The four accumulators of the loop over [data['attributes']]. *)
Record header_info := {
  attribute_dtype : gmap string string;
  attribute_names : list string;
  categories_names : gmap string (list label);
  categorical : list bool;
}.

Definition empty_header : header_info :=
  {| attribute_dtype := ∅; attribute_names := [];
     categories_names := ∅; categorical := [] |}.

Fixpoint first_index (l : string) (seen : list string) (i : Z) : option Z :=
  match seen with
  | [] => None
  | c :: cs => if decide (c = l) then Some i else first_index l cs (i + 1)
  end.

Fixpoint factorize_go (seen : list string) (values : list string)
  : list Z * list string :=
  match values with
  | [] => ([], seen)
  | v :: vs =>
      match first_index v seen 0 with
      | Some i => let '(codes, uniques) := factorize_go seen vs in (i :: codes, uniques)
      | None =>
          let '(codes, uniques) := factorize_go (seen ++ [v]) vs in
          (Z.of_nat (length seen) :: codes, uniques)
      end
  end.

(** [pd.factorize(values)] on a list of strings: every value gets the position
    of its first occurrence among the distinct values.  It encodes any strings,
    numeric or not, and raises nothing. *)
Definition pd_factorize (values : list string) : result (list Z * list string) :=
  Ok (factorize_go [] values).

(** One pass of the loop [for i, (name, type_) in enumerate(data['attributes'])]. *)
Definition infer_attribute (format : string) (acc : header_info)
    (attribute : string * arff_type) : result header_info :=
  let '(name, type_) := attribute in
  match type_ with
  | Nominal labels =>
      (if decide (lower format = "sparse_arff") then
         match pd_factorize labels with
         | Ok _ => Ok tt
         | Err (ValueError _) =>
             Err (ValueError
                    "Categorical data needs to be numeric when using sparse ARFF.")
         | Err e => Err e
         end
       else Ok tt);;
      let categorical := categorical acc ++ [true] in
      let categories_names := <[name := LStr <$> labels]> (categories_names acc) in
      if decide (length labels = 2%nat) then
        let type_norm := (λ cat, capitalize (lower cat)) <$> labels in
        if decide (list_to_set ["True"; "False"] =@{gset string} list_to_set type_norm) then
          Ok {| attribute_dtype := <[name := "boolean"]> (attribute_dtype acc);
                attribute_names := attribute_names acc ++ [name];
                categories_names :=
                  <[name := (λ cat, LBool (bool_decide (cat = "True"))) <$> type_norm]>
                    categories_names;
                categorical := categorical |}
        else
          Ok {| attribute_dtype := <[name := "categorical"]> (attribute_dtype acc);
                attribute_names := attribute_names acc ++ [name];
                categories_names := categories_names;
                categorical := categorical |}
      else
        Ok {| attribute_dtype := <[name := "categorical"]> (attribute_dtype acc);
              attribute_names := attribute_names acc ++ [name];
              categories_names := categories_names;
              categorical := categorical |}
  | Primitive tag =>
      (if decide (tag = "STRING" ∧ lower format = "sparse_arff") then
         Err (ValueError "Dataset containing strings is not supported with sparse ARFF.")
       else Ok tt);;
      match ARFF_DTYPES_TO_PD_DTYPE !! tag with
      | Some dtype =>
          Ok {| attribute_dtype := <[name := dtype]> (attribute_dtype acc);
                attribute_names := attribute_names acc ++ [name];
                categories_names := categories_names acc;
                categorical := categorical acc ++ [false] |}
      | None => Err (KeyError tag)
      end
  end.

Fixpoint infer_attributes (format : string) (acc : header_info)
    (attrs : list (string * arff_type)) : result header_info :=
  match attrs with
  | [] => Ok acc
  | a :: attrs' =>
      acc' ← infer_attribute format acc a;
      infer_attributes format acc' attrs'
  end.

Fixpoint result_map {A B} (f : A → result B) (l : list A) : result (list B) :=
  match l with
  | [] => Ok []
  | a :: l' => b ← f a; bs ← result_map f l'; Ok (b :: bs)
  end.

Fixpoint list_max (l : list nat) : option nat :=
  match l with
  | [] => None
  | n :: l' => match list_max l' with Some m => Some (n `max` m)%nat | None => Some n end
  end.

(** [max(l) + 1] *)
Definition max_plus_1 (l : list nat) : result nat :=
  match list_max l with
  | Some m => Ok (m + 1)%nat
  | None => Err (ValueError "max() arg is an empty sequence")
  end.

Fixpoint add_entry (r : nat) (v : scalar) (col : list (nat * scalar)) : list (nat * scalar) :=
  match col with
  | [] => [(r, v)]
  | (r', v') :: col' =>
      if decide (r' = r) then (r', np_add v' v) :: col' else (r', v') :: add_entry r v col'
  end.

Fixpoint zip3 {A B C} (a : list A) (b : list B) (c : list C) : list (A * B * C) :=
  match a, b, c with
  | x :: a', y :: b', z :: c' => (x, y, z) :: zip3 a' b' c'
  | _, _, _ => []
  end.

(** The entries of column [j], duplicates summed as [tocsr()] does. *)
Definition coo_column (entries : list (scalar * nat * nat)) (j : nat) : list (nat * scalar) :=
  foldl (λ col '(v, r, c), if decide (c = j) then add_entry r v col else col) [] entries.

(** [scipy.sparse.coo_matrix((X[0], (X[1], X[2])), shape=X_shape,
    dtype=np.float32).tocsr()] with [X_shape = (max(X[1]) + 1, max(X[2]) + 1)]. *)
Definition coo_to_csr (values : list pyval) (rows cols : list nat) : result csr_matrix :=
  nrows ← max_plus_1 rows;
  ncols ← max_plus_1 cols;
  if decide (length values = length rows ∧ length values = length cols) then
    data ← result_map np_float32_of values;
    Ok {| sp_nrows := nrows;
          sp_cols := coo_column (zip3 data rows cols) <$> seq 0 ncols |}
  else Err (ValueError "row, column, and data array must all be the same length").

(** [pd.DataFrame(rows, columns=names)]: column [j] collects the [j]-th value
    of every row. *)
Definition pd_DataFrame (rows : list (list pyval)) (names : list string)
  : result (list Series) :=
  if forallb (λ row, bool_decide (length row = length names)) rows then
    Ok (imap (λ j name, {| s_name := name;
                           s_body := Plain ((λ row, default VNone (row !! j)) <$> rows) |})
             names)
  else Err (ValueError "columns passed do not match the passed data").

(** [X[column_name]] *)
Fixpoint frame_getitem (X : list Series) (column_name : string) : result Series :=
  match X with
  | [] => Err (KeyError column_name)
  | s :: X' => if decide (s_name s = column_name) then Ok s else frame_getitem X' column_name
  end.

Definition dict_getitem {V} (d : gmap string V) (key : string) : result V :=
  match d !! key with
  | Some v => Ok v
  | None => Err (KeyError key)
  end.

(** [pd.concat(col, axis=1)]: the columns side by side; pandas refuses an
    empty list. *)
Definition pd_concat (col : list Series) : result (list Series) :=
  match col with
  | [] => Err (ValueError "No objects to concatenate")
  | _ => Ok col
  end.

(** [except OSError]: [FileNotFoundError] is a subclass. *)
Definition is_OSError (e : exn) : bool :=
  match e with
  | OSError | FileNotFoundError => true
  | _ => false
  end.

Definition _parse_data_from_arff (arff_file_path : option string)
  : M (pydata * list bool * list string) :=
  this ← get_self;
  data ← try_except (_get_arff (format this))
            (λ e, if is_OSError e then
                    Some (logger CRITICAL
                            "Please check that the data file {} is there and can be read."
                            [ArgStr (str_of_option arff_file_path)];;
                          raise e)
                  else None);
  h ← lift (infer_attributes (format this) empty_header (attributes data));
  if decide (lower (format this) = "sparse_arff") then
    match arff_rows data with
    | CooData values rows cols =>
        X ← lift (coo_to_csr values rows cols);
        mret (Sparse X, categorical h, attribute_names h)
    | DenseData _ => raise TypeError
    end
  else if decide (lower (format this) = "arff") then
    match arff_rows data with
    | DenseData rows =>
        X ← lift (pd_DataFrame rows (attribute_names h));
        col ← lift (result_map
                      (λ column_name,
                         dtype ← dict_getitem (attribute_dtype h) column_name;
                         if decide (dtype = "categorical" ∨ dtype = "boolean") then
                           series ← frame_getitem X column_name;
                           categories ← dict_getitem (categories_names h) column_name;
                           _unpack_categories series categories
                         else frame_getitem X column_name)
                      (s_name <$> X));
        X ← lift (pd_concat col);
        mret (Frame X, categorical h, attribute_names h)
    | CooData _ _ _ => raise TypeError
    end
  else
    raise (ValueError ("Dataset format '" +:+ format this +:+ "' is not a valid format.")).

(** ** [_create_pickle_in_cache] *)

(** [pickle.dump(obj, fh, pickle.HIGHEST_PROTOCOL)] under [open(path, "wb")] *)
Definition pickle_dump (obj : pickled) (path : string) : M unit :=
  write_file path (PickleFile obj).

(** [isinstance(data, pd.DataFrame) or scipy.sparse.issparse(data)] *)
Definition is_frame_or_sparse (data : pydata) : bool :=
  match data with
  | Frame _ | Sparse _ => true
  | NdArray _ => false
  end.

(** [type(X) != scipy.sparse.csr.csr_matrix] is [negb (is_csr X)]. *)
Definition is_csr (X : pydata) : bool :=
  match X with
  | Sparse _ => true
  | _ => false
  end.

(** [int(self.dataset_id or -1)] *)
Definition dataset_id_or_minus_1 (this : OpenMLDataset) : Z :=
  match dataset_id this with
  | Some z => if decide (z = 0) then -1 else z
  | None => -1
  end.

(** The part of [_create_pickle_in_cache] before the comment "At this point
    either the pickle file does not exist, or it had outdated formatting":
    [true] when one of its [return] statements is reached, [false] when control
    falls through to the parse. *)
Definition existing_cache_returns (data_pickle_file data_feather_file : string) : M bool :=
  this ← get_self;
  if decide (cache_format this = "feather") then
    there ← os_path_exists data_feather_file;
    if (there : bool) then
      data ← feather_read_feather (Some data_feather_file);
      fh ← open_rb (Some data_pickle_file);
      try_except
        ('(categorical, attribute_names) ← lift (pickle_load_2 fh);
         mret false)
        (λ e, match e with
              | EOFError => Some (mret true)
              | _ => None
              end)
    else mret false
  else
    there ← os_path_exists data_pickle_file;
    if (there : bool) then
      fh ← open_rb (Some data_pickle_file);
      loaded ← try_except
        (r ← lift (pickle_load_3 fh);
         mret (Some r))
        (λ e, match e with
              | EOFError => Some (mret None)
              | _ => None
              end);
      match loaded : option (pydata * list bool * list string) with
      | None => mret true
      | Some (data, categorical, attribute_names) =>
          if is_frame_or_sparse data then
            logger DEBUG "Data pickle file already exists and is up to date." [];;
            mret true
          else mret false
      end
    else mret false.

Definition _create_pickle_in_cache (data_file : string) : M (string * string) :=
  let data_pickle_file := replace ".arff" ".pkl.py3" data_file in
  let data_feather_file := replace ".arff" ".feather" data_file in
  returned ← existing_cache_returns data_pickle_file data_feather_file;
  if (returned : bool) then mret (data_pickle_file, data_feather_file)
  else
    '(X, categorical, attribute_names) ← _parse_data_from_arff (Some data_file);
    this ← get_self;
    (if bool_decide (cache_format this = "feather") && negb (is_csr X) then
       logger INFO "feather write" [];;
       feather_write_feather X data_feather_file;;
       pickle_dump (Pair categorical attribute_names) data_pickle_file
     else
       logger INFO "pickle write" [];;
       set_cache_format "pickle";;
       pickle_dump (Triple X categorical attribute_names) data_pickle_file);;
    this ← get_self;
    logger DEBUG "Saved dataset {did}: {name} to file {path}"
      [ArgInt (dataset_id_or_minus_1 this); ArgStr (name this); ArgStr data_pickle_file];;
    mret (data_pickle_file, data_feather_file).

(** ** [_load_data] *)

Definition _download_data : M unit :=
  path ← (λ s, let '(r, d) := _get_dataset_arff (self s) (disk s) in
               (r, {| self := self s; disk := d; events := events s |}));
  set_data_file (Some path).

(** The first statement of [_load_data]: [if self.data_pickle_file is None: ...] *)
Definition ensure_cache : M unit :=
  this ← get_self;
  match data_pickle_file this with
  | None =>
      (match data_file this with
       | None => _download_data
       | Some _ => mret tt
       end);;
      this ← get_self;
      match data_file this with
      | Some data_file =>
          '(pickle_file, feather_file) ← _create_pickle_in_cache data_file;
          set_cache_files (Some pickle_file) (Some feather_file)
      | None => raise AttributeError
      end
  | Some _ => mret tt
  end.

(** The body of the [try] of [_load_data]. *)
Definition read_cache : M (pydata * list bool * list string) :=
  this ← get_self;
  if decide (cache_format this = "feather") then
    logger INFO "feather load data" [];;
    data ← feather_read_feather (data_feather_file this);
    fh ← open_rb (data_pickle_file this);
    '(categorical, attribute_names) ← lift (pickle_load_2 fh);
    mret (data, categorical, attribute_names)
  else
    logger INFO "pickle load data" [];;
    fh ← open_rb (data_pickle_file this);
    lift (pickle_load_3 fh).

Definition corrupt_cache_warning : string :=
  "Detected a corrupt cache file loading dataset %d: '%s'. We will continue loading data from the arff-file, but this will be much slower for big datasets. Please manually delete the cache file if you want openml-python to attempt to reconstruct it.".

Definition _load_data : M (pydata * list bool * list string) :=
  ensure_cache;;
  try_except read_cache
    (λ e, match e with
          | EOFError =>
              Some (this ← get_self;
                    match dataset_id this with
                    | Some did =>
                        logger WARNING corrupt_cache_warning
                          [ArgInt did; ArgStr (str_of_option (data_pickle_file this))]
                    | None => raise TypeError
                    end;;
                    _parse_data_from_arff (data_file this))
          | FileNotFoundError =>
              Some (this ← get_self;
                    raise (ValueError
                             ("Cannot find a pickle file for dataset " +:+ name this
                              +:+ " at location "
                              +:+ str_of_option (data_pickle_file this) +:+ " ")))
          | _ => None
          end).

(** ** [_convert_array_format] *)

(** [scipy.sparse.issparse(data)] *)
Definition issparse (data : pyobj) : bool :=
  match data with
  | Data (Sparse _) => true
  | _ => false
  end.

(** [_encode_if_category(column)] followed by the conversion of the column
    that [np.asarray(data, dtype=np.float32)] performs: a categorical column
    becomes its codes as float32 with [-1] replaced by NaN, any other column
    is converted cell by cell. *)
Definition _encode_if_category (column : Series) : result (list scalar) :=
  match s_body column with
  | Category c =>
      Ok ((λ code, if decide (code = -1) then np_nan else np_float32_of_code code)
            <$> cat_codes c)
  | Plain cells => result_map np_float32_of cells
  end.

Definition column_length (column : Series) : nat :=
  match s_body column with
  | Category c => length (cat_codes c)
  | Plain cells => length cells
  end.

Definition frame_nrows (df : list Series) : nat :=
  match df with
  | column :: _ => column_length column
  | [] => 0
  end.

(** Row-major items of a table given by its columns. *)
Definition row_major (nrows : nat) (columns : list (list scalar)) : list scalar :=
  i ← seq 0 nrows; omap (λ column, column !! i) columns.

(** The value of a stored matrix entry, [0] where nothing is stored. *)
Definition sparse_entry (column : list (nat * scalar)) (i : nat) : scalar :=
  match snd <$> filter (λ e, fst e = i) column with
  | [] => np_zero
  | v :: vs => foldl np_add v vs
  end.

(** [np.asarray(m.todense())] *)
Definition todense (m : csr_matrix) : ndarray :=
  {| nd_shape := [sp_nrows m; length (sp_cols m)];
     nd_items := row_major (sp_nrows m)
                   ((λ column, sparse_entry column <$> seq 0 (sp_nrows m)) <$> sp_cols m) |}.

Definition ndarray_map (f : scalar → scalar) (a : ndarray) : ndarray :=
  {| nd_shape := nd_shape a; nd_items := f <$> nd_items a |}.

(** The message of the [PyOpenMLError]; the source puts [dataframe] in double
    quotes. *)
Definition unsupported_array_message : string :=
  "PyOpenML cannot handle string when returning numpy arrays. Use dataset_format='dataframe'.".

(** [np.asarray(data, dtype=np.float32)] inside [try ... except ValueError:
    raise PyOpenMLError(...)]. *)
Definition asarray_float32 (shape : list nat) (items : result (list scalar)) : M pyobj :=
  match items with
  | Ok items => mret (Data (NdArray {| nd_shape := shape; nd_items := items |}))
  | Err (ValueError _) => raise (PyOpenMLError unsupported_array_message)
  | Err e => raise e
  end.

Definition _convert_array_format (data : pyobj) (array_format : string)
    (attribute_names : list string) : M pyobj :=
  if bool_decide (array_format = "array") && negb (issparse data) then
    match data with
    | Data (Frame df) =>
        asarray_float32 [frame_nrows df; length df]
          (columns ← result_map _encode_if_category df;
           Ok (row_major (frame_nrows df) columns))
    | SparseFrame m _ =>
        mret (Data (NdArray (ndarray_map np_float32 (todense m))))
    | Ser column =>
        asarray_float32 [column_length column] (_encode_if_category column)
    | Data (NdArray a) =>
        match nd_shape a with
        | [_; _] => raise AttributeError
        | _ => mret (Data (NdArray (ndarray_map np_float32 a)))
        end
    | Item numpy_scalar c =>
        if numpy_scalar then asarray_float32 [] (v ← np_float32_of c; Ok [v])
        else raise AttributeError
    | Data (Sparse m) => mret data
    end
  else if decide (array_format = "dataframe") then
    match data with
    | Data (Sparse m) =>
        if decide (length attribute_names = length (sp_cols m)) then
          mret (SparseFrame m attribute_names)
        else raise (LibraryError "pandas")
    | _ => mret data
    end
  else
    let data_type := if issparse data then "sparse-data" else "non-sparse data" in
    logger WARNING "Cannot convert %s (%s) to '%s'. Returning input data."
      [ArgStr data_type; ArgStr "type(data)"; ArgStr array_format];;
    mret data.

(** ** [get_data] *)

Inductive target_spec :=
  | TargetStr (s : string)
  | TargetList (l : list string).

(** [hasattr(data, 'iloc')] *)
Definition has_iloc (data : pydata) : bool :=
  match data with
  | Frame _ => true
  | _ => false
  end.

(** [data.iloc[:, mask]] on a [pd.DataFrame]: the mask has one entry per column. *)
Definition iloc_columns (data : pydata) (mask : list bool) : result pydata :=
  match data with
  | Frame df =>
      if decide (length mask = length df) then Ok (Frame (mask_filter mask df))
      else Err IndexError
  | _ => Err AttributeError
  end.

(** [data[:, mask]] on a sparse matrix or a two-dimensional array. *)
Definition getitem_columns (data : pydata) (mask : list bool) : result pydata :=
  match data with
  | Sparse m =>
      if decide (length mask = length (sp_cols m)) then
        Ok (Sparse {| sp_nrows := sp_nrows m; sp_cols := mask_filter mask (sp_cols m) |})
      else Err IndexError
  | NdArray a =>
      match nd_shape a with
      | [r; c] =>
          if decide (length mask = c) then
            Ok (NdArray
                  {| nd_shape := [r; length (filter (λ k, k = true) mask)];
                     nd_items :=
                       snd <$> filter (λ e, mask !! (fst e `mod` c)%nat = Some true)
                                      (imap pair (nd_items a)) |})
          else Err IndexError
      | _ => Err IndexError
      end
  | Frame _ => Err (LibraryError "pandas")
  end.

(** [a.astype(dtype)] on a sparse matrix or an array; [get_data] applies it to
    nothing else. *)
Definition astype (data : pyobj) (dtype : target_dtype) : result pyobj :=
  match data with
  | Data (Sparse m) =>
      Ok (Data (Sparse {| sp_nrows := sp_nrows m;
                          sp_cols :=
                            (λ column : list (nat * scalar),
                               (λ e, (fst e, np_astype dtype (snd e))) <$> column)
                              <$> sp_cols m |}))
  | Data (NdArray a) => Ok (Data (NdArray (ndarray_map (np_astype dtype) a)))
  | _ => Err (LibraryError "pandas")
  end.

(** [a.flatten()] *)
Definition flatten (a : ndarray) : ndarray :=
  {| nd_shape := [length (nd_items a)]; nd_items := nd_items a |}.

(** The only cell of a one-row column: a numpy scalar when the column is
    numeric, the Python object otherwise (a label or [nan] for a categorical). *)
Definition single_cell (column : Series) (c : pyval) : pyobj :=
  match s_body column, c with
  | Plain _, (VInt _ | VFloat _ | VBool _) => Item true c
  | _, _ => Item false c
  end.

(** [y.squeeze()]: axes of length one are dropped; of a one-column frame (or
    a Series) with a single row only the cell is left. *)
Definition squeeze (y : pyobj) : result pyobj :=
  match y with
  | Data (Frame [column]) | Ser column =>
      match series_iter column with
      | [c] => Ok (single_cell column c)
      | _ => Ok (Ser column)
      end
  | Data (Frame _) => Ok y
  | Data (NdArray a) =>
      Ok (Data (NdArray {| nd_shape := filter (λ n, n ≠ 1%nat) (nd_shape a);
                           nd_items := nd_items a |}))
  | _ => Err AttributeError
  end.

Definition attribute_list (a : attribute_spec) : list string :=
  match a with
  | AttrStr s => [s]
  | AttrList l => l
  end.

Definition count_true (mask : list bool) : nat := length (filter (λ k, k = true) mask).

(** Lines 614-638 of [get_data]: the row-id and ignore attributes are removed
    from the table, the categorical mask and the attribute names.  [keep] is a
    boolean mask as long as there is an attribute name ([np.array] of an empty
    list is a float array). *)
Definition exclude_columns (include_row_id include_ignore_attribute : bool)
    (loaded : pydata * list bool * list string)
  : M (pydata * list bool * list string) :=
  let '(data, categorical, attribute_names) := loaded in
  this ← get_self;
  let to_exclude :=
    (match row_id_attribute this with
     | Some a => if negb include_row_id then attribute_list a else []
     | None => []
     end) ++
    (match ignore_attribute this with
     | Some a => if negb include_ignore_attribute then attribute_list a else []
     | None => []
     end) in
  if decide (0 < length to_exclude)%nat then
    logger INFO "Going to remove the following attributes: %s" [ArgList to_exclude];;
    let keep := (λ column, bool_decide (column ∉ to_exclude)) <$> attribute_names in
    data ← lift (if has_iloc data then iloc_columns data keep
                 else getitem_columns data keep);
    mret (data, mask_filter keep categorical, mask_filter keep attribute_names)
  else mret (data, categorical, attribute_names).

(** Lines 640-683 of [get_data]: conversion of the whole table, or the split
    into [x] and the target [y]. *)
Definition split_target (target : option target_spec) (dataset_format : string)
    (kept : pydata * list bool * list string)
  : M (pyobj * option pyobj * list bool * list string) :=
  let '(data, categorical, attribute_names) := kept in
  match target with
  | None =>
      data ← _convert_array_format (Data data) dataset_format attribute_names;
      mret (data, None, categorical, attribute_names)
  | Some target =>
      let target :=
        match target with
        | TargetStr target =>
            if contains_char "," target then split "," target else [target]
        | TargetList target => target
        end in
      let targets := (λ column, bool_decide (column ∈ target)) <$> attribute_names in
      if decide (1 < count_true targets)%nat then
        raise (NotImplementedError
                 ("Number of requested targets " +:+ pretty (count_true targets)
                  +:+ " is not implemented."))
      else
        let target_categorical :=
          fst <$> filter (λ p, snd p ∈ target) (zip categorical attribute_names) in
        target_dtype ← match target_categorical with
                       | cat :: _ => mret (if cat : bool then py_int_type else py_float_type)
                       | [] => raise IndexError
                       end;
        '(x, y) ←
          (if has_iloc data then
             x ← lift (iloc_columns data (negb <$> targets));
             y ← lift (iloc_columns data targets);
             mret (x, Data y)
           else
             x ← lift (getitem_columns data (negb <$> targets));
             y ← lift (getitem_columns data targets);
             y ← lift (astype (Data y) target_dtype);
             mret (x, y));
        let categorical := mask_filter (negb <$> targets) categorical in
        let attribute_names := mask_filter (negb <$> targets) attribute_names in
        x ← _convert_array_format (Data x) dataset_format attribute_names;
        y ← (match y with
             | Data (Sparse m) =>
                 mret (Data (NdArray (flatten (ndarray_map (np_astype target_dtype)
                                                (todense m)))))
             | _ => mret y
             end);
        y ← lift (squeeze y);
        y ← _convert_array_format y dataset_format attribute_names;
        y ← (if decide (dataset_format = "array") then lift (astype y target_dtype)
             else mret y);
        mret (x, Some y, categorical, attribute_names)
  end.

Definition get_data (target : option target_spec) (include_row_id : bool)
    (include_ignore_attribute : bool) (dataset_format : string)
  : M (pyobj * option pyobj * list bool * list string) :=
  loaded ← _load_data;
  kept ← exclude_columns include_row_id include_ignore_attribute loaded;
  split_target target dataset_format kept.

End dataset.

(** Unfolds the primitive operations of the monad in the goal. *)
Ltac unfold_monad :=
  unfold mbind, M_bind, bind, mret, M_ret, ret, raise, lift, get_self,
    set_cache_format, set_cache_files, set_data_file, set_self, logger, emit,
    pickle_dump, write_file, os_path_exists, open_rb, try_except;
  cbv beta.

Ltac run := unfold_monad; simpl.

Global Arguments infer_attribute : simpl never.
Global Arguments infer_attributes : simpl nomatch.
Global Arguments _unpack_categories : simpl never.

(** ** The constructor, the features and the qualities *)

(** A value of the dictionaries that [xmltodict] makes of a server document. *)
Inductive xmlvalue :=
  | XNone
  | XStr (s : string)
  | XList (l : list string).

Global Instance xmlvalue_eq_dec : EqDecision xmlvalue.
Proof. solve_decision. Defined.

(** [int(v)] *)
Definition xml_int (v : xmlvalue) : result Z :=
  match v with
  | XStr s => py_int (VStr s)
  | XNone | XList _ => Err TypeError
  end.

(** What the module reads of an [OpenMLDataFeature]. *)
Record OpenMLDataFeature := {
  feature_index : Z;
  feature_name : string;
  feature_data_type : string;
  feature_nominal_values : option (list string);
}.

(** What the rest of the class takes from its surroundings: the class
    [OpenMLDataFeature] of [openml.datasets.data_feature] (its constructor and
    its list of legal data types), the property [openml_url] of the base class
    [OpenMLBase], and the built-in [float] on a string. *)
Class Surroundings := {
  LEGAL_DATA_TYPES : list string;
  new_OpenMLDataFeature :
    Z → xmlvalue → xmlvalue → option xmlvalue → Z → result OpenMLDataFeature;
  openml_url : OpenMLDataset → pyval;
  float_of_string : string → result pyfloat;
}.

(** A Python dict in insertion order. *)
Fixpoint pydict_get {K V} `{EqDecision K} (d : list (K * V)) (key : K) : option V :=
  match d with
  | [] => None
  | (k, v) :: d' => if decide (k = key) then Some v else pydict_get d' key
  end.

(** [d[key] = value]: a present key keeps its place. *)
Fixpoint pydict_set {K V} `{EqDecision K} (d : list (K * V)) (key : K) (value : V)
  : list (K * V) :=
  match d with
  | [] => [(key, value)]
  | (k, v) :: d' =>
      if decide (k = key) then (k, value) :: d' else (k, v) :: pydict_set d' key value
  end.

(** The attributes of the object that the cache pipeline does not read;
    [OpenMLDataset] holds the others. *)
Record Metadata := {
  version : option Z;
  description : option string;
  citation : option string;
  upload_date : option string;
  licence : option string;
  url : option string;
  features : option (list (Z * OpenMLDataFeature));
  qualities : option (list (xmlvalue * pyfloat));
}.

Section metadata.
Context `{env : Environment} `{surroundings : Surroundings}.

(** *** [_check_qualities] *)

(** The value of one quality: NaN when the entry has no value or the value
    'null', [float(value)] otherwise. *)
Definition quality_value (xmlquality : gmap string xmlvalue) : result pyfloat :=
  match xmlquality !! "oml:value" with
  | None | Some XNone => Ok Fnan
  | Some (XStr value) =>
      if decide (value = "null") then Ok Fnan else float_of_string value
  | Some (XList _) => Err TypeError
  end.

Fixpoint qualities_loop (xmlqualities : list (gmap string xmlvalue))
    (qualities_ : list (xmlvalue * pyfloat)) : result (list (xmlvalue * pyfloat)) :=
  match xmlqualities with
  | [] => Ok qualities_
  | xmlquality :: rest =>
      name ← dict_getitem xmlquality "oml:name";
      value ← quality_value xmlquality;
      match name with
      | XList _ => Err TypeError
      | _ => qualities_loop rest (pydict_set qualities_ name value)
      end
  end.

Definition _check_qualities (xmlqualities : option (list (gmap string xmlvalue)))
  : result (option (list (xmlvalue * pyfloat))) :=
  match xmlqualities with
  | Some xmlqualities => qualities_ ← qualities_loop xmlqualities []; Ok (Some qualities_)
  | None => Ok None
  end.

(** *** [__init__] *)

(** The loop [for idx, xmlfeature in enumerate(features['oml:feature'])]. *)
Fixpoint features_loop (idx : Z) (xmlfeatures : list (gmap string xmlvalue))
    (features : list (Z * OpenMLDataFeature)) : result (list (Z * OpenMLDataFeature)) :=
  match xmlfeatures with
  | [] => Ok features
  | xmlfeature :: rest =>
      let nr_missing := xmlfeature !! "oml:number_of_missing_values" in
      index ← dict_getitem xmlfeature "oml:index";
      index ← xml_int index;
      name ← dict_getitem xmlfeature "oml:name";
      data_type ← dict_getitem xmlfeature "oml:data_type";
      nr_missing ← match nr_missing with
                   | Some v => xml_int v
                   | None => Ok 0
                   end;
      feature ← new_OpenMLDataFeature index name data_type
                  (xmlfeature !! "oml:nominal_value") nr_missing;
      if decide (idx ≠ feature_index feature) then
        Err (ValueError "Data features not provided in right order")
      else features_loop (idx + 1) rest (pydict_set features (feature_index feature) feature)
  end.

Fixpoint all_chars (p : ascii → bool) (s : string) : bool :=
  match s with
  | EmptyString => true
  | String c s' => p c && all_chars p s'
  end.

(** [re.match("^[\x00-\x7F]*$", s)] *)
Definition matches_basic_latin (s : string) : bool :=
  all_chars (λ c, (nat_of_ascii c <? 128)%nat) s.

Definition is_name_char (c : ascii) : bool :=
  let n := nat_of_ascii c in
  ((97 <=? n)%nat && (n <=? 122)%nat) || ((65 <=? n)%nat && (n <=? 90)%nat)
  || ((48 <=? n)%nat && (n <=? 57)%nat)
  || bool_decide (c ∈ ["_"; "-"; "."; "("; ")"; ","]%char).

(** The string without the newline that ends it, if one does. *)
Fixpoint without_final_newline (s : string) : string :=
  match s with
  | EmptyString => EmptyString
  | String c EmptyString => if decide (c = "010"%char) then EmptyString else s
  | String c s' => String c (without_final_newline s')
  end.

(** [re.match("^[a-zA-Z0-9_\\-\\.\\(\\),]+$", name)]: [$] matches at the end
    of the string and before a newline that ends it. *)
Definition matches_name (name : string) : bool :=
  let body := without_final_newline name in
  negb (bool_decide (body = "")) && all_chars is_name_char body.

Inductive ignore_arg :=
  | IgnoreStr (s : string)
  | IgnoreList (l : list string)
  | IgnoreOther.

(** The arguments of the constructor that reach the attributes modelled
    here; the remaining ones are assigned to attributes of their name and
    read by no method but [_to_dict]. *)
Record init_args := {
  arg_name : string;
  arg_description : option string;
  arg_format : option string;
  arg_data_format : string;
  arg_cache_format : string;
  arg_dataset_id : option pyval;
  arg_version : option pyval;
  arg_upload_date : option string;
  arg_licence : option string;
  arg_url : option string;
  arg_row_id_attribute : option attribute_spec;
  arg_ignore_attribute : option ignore_arg;
  arg_citation : option string;
  arg_data_file : option string;
  arg_features : option (list (gmap string xmlvalue));
  arg_qualities : option (list (gmap string xmlvalue));
}.

(** [if text and not re.match("^[\x00-\x7F]*$", text): raise ValueError(...)] *)
Definition check_basic_latin (what : string) (text : option string) : M unit :=
  match text with
  | Some text =>
      if negb (bool_decide (text = "")) && negb (matches_basic_latin text) then
        raise (ValueError ("Invalid symbols in " +:+ what +:+ ": " +:+ text))
      else mret tt
  | None => mret tt
  end.

(** [int(x) if x is not None else None] *)
Definition optional_int (x : option pyval) : result (option Z) :=
  match x with
  | Some x => z ← py_int x; Ok (Some z)
  | None => Ok None
  end.

(** Lines 116-127: a dataset that has no id yet is checked against the
    rules of the server. *)
Definition check_local_dataset (a : init_args) : M unit :=
  match arg_dataset_id a with
  | None =>
      check_basic_latin "description" (arg_description a);;
      check_basic_latin "citation" (arg_citation a);;
      if matches_name (arg_name a) then mret tt
      else raise (ValueError ("Invalid symbols in name: " +:+ arg_name a))
  | Some _ => mret tt
  end.

(** Lines 135-141; [warn(..., DeprecationWarning)] is recorded among the
    events. *)
Definition init_format (a : init_args) : M string :=
  match arg_format a with
  | None => mret (arg_data_format a)
  | Some format =>
      logger WARNING
        "The format parameter in the init will be deprecated in the future.Please use data_format instead"
        [];;
      mret format
  end.

(** Lines 151-157 *)
Definition init_ignore_attribute (ignore_attribute : option ignore_arg)
  : result (option attribute_spec) :=
  match ignore_attribute with
  | Some (IgnoreStr ignore_attribute) => Ok (Some (AttrList [ignore_attribute]))
  | Some (IgnoreList ignore_attribute) => Ok (Some (AttrList ignore_attribute))
  | None => Ok None
  | Some IgnoreOther => Err (ValueError "Wrong data type for ignore_attribute. Should be list.")
  end.

(** Lines 171-183 *)
Definition init_features (xmlfeatures : option (list (gmap string xmlvalue)))
  : result (option (list (Z * OpenMLDataFeature))) :=
  match xmlfeatures with
  | Some xmlfeatures => features ← features_loop 0 xmlfeatures []; Ok (Some features)
  | None => Ok None
  end.

(** Lines 187-191 *)
Definition init_cache_files (data_file : option string) : M unit :=
  match data_file with
  | Some data_file =>
      '(pickle_file, feather_file) ← _create_pickle_in_cache data_file;
      set_cache_files (Some pickle_file) (Some feather_file)
  | None => set_cache_files None None
  end.

(** The constructor.  It runs on a state whose disk and events are those of
    the moment of the call; the object of the state is the one it sets up. *)
Definition __init__ (a : init_args) : M Metadata :=
  check_local_dataset a;;
  dataset_id ← lift (optional_int (arg_dataset_id a));
  version ← lift (optional_int (arg_version a));
  format ← init_format a;
  ignore_attribute ← lift (init_ignore_attribute (arg_ignore_attribute a));
  set_self (λ _, {| dataset_id := dataset_id; name := arg_name a; format := format;
                    cache_format := arg_cache_format a;
                    data_file := arg_data_file a;
                    data_pickle_file := None; data_feather_file := None;
                    row_id_attribute := arg_row_id_attribute a;
                    ignore_attribute := ignore_attribute |});;
  features ← lift (init_features (arg_features a));
  qualities ← lift (_check_qualities (arg_qualities a));
  init_cache_files (arg_data_file a);;
  mret {| version := version; description := arg_description a;
          citation := arg_citation a; upload_date := arg_upload_date a;
          licence := arg_licence a; url := arg_url a;
          features := features; qualities := qualities |}.

(** *** [_get_repr_body_fields] *)

Definition pyval_of_option_str (o : option string) : pyval :=
  match o with Some s => VStr s | None => VNone end.

Definition repr_order : list string :=
  ["Name"; "Version"; "Format"; "Upload Date"; "Licence"; "Download URL";
   "OpenML URL"; "Data File"; "Pickle File"; "# of features"; "# of instances"].

(** The dict [fields] before the number of instances is added. *)
Definition repr_fields (this : OpenMLDataset) (meta : Metadata) : gmap string pyval :=
  let fields : gmap string pyval :=
    list_to_map
      [("Name", VStr (name this));
       ("Version", match version meta with Some v => VInt v | None => VNone end);
       ("Format", VStr (format this));
       ("Licence", pyval_of_option_str (licence meta));
       ("Download URL", pyval_of_option_str (url meta));
       ("Data file", pyval_of_option_str (data_file this));
       ("Pickle file", pyval_of_option_str (data_pickle_file this));
       ("# of features", match features meta with
                         | Some features => VInt (Z.of_nat (length features))
                         | None => VNone
                         end)] in
  let fields :=
    match upload_date meta with
    | Some upload_date => <["Upload Date" := VStr (replace "T" " " upload_date)]> fields
    | None => fields
    end in
  match dataset_id this with
  | Some _ => <["OpenML URL" := openml_url this]> fields
  | None => fields
  end.

Definition _get_repr_body_fields (this : OpenMLDataset) (meta : Metadata)
  : result (list (string * pyval)) :=
  fields ← match qualities meta with
           | Some qualities =>
               match pydict_get qualities (XStr "NumberOfInstances") with
               | Some instances =>
                   n ← py_int (VFloat instances);
                   Ok (<["# of instances" := VInt n]> (repr_fields this meta))
               | None => Err (KeyError "NumberOfInstances")
               end
           | None => Ok (repr_fields this meta)
           end;
  Ok (omap (λ key, (λ value, (key, value)) <$> (fields : gmap string pyval) !! key)
        repr_order).

(** *** [retrieve_class_labels] *)

Definition retrieve_class_labels (meta : Metadata) (target_name : string)
  : result (option (list string)) :=
  match features meta with
  | None => Err AttributeError
  | Some features =>
      Ok (match list_find (λ feature, feature_name feature = target_name
                                      ∧ feature_data_type feature = "nominal")
                  features.*2 with
          | Some (_, feature) => feature_nominal_values feature
          | None => None
          end)
  end.

(** *** [get_features_by_type] *)

Inductive exclude_arg :=
  | ExcludeList (l : list pyval)
  | ExcludeOther.

(** [name in to_exclude] for a string [name]: only an equal string is equal
    to it. *)
Definition name_in (name : string) (to_exclude : list pyval) : bool :=
  existsb (λ v, match v with VStr s => bool_decide (s = name) | _ => false end) to_exclude.

(** The loop [for idx in self.features]; [self.features[idx]] is the value
    kept under the key. *)
Fixpoint by_type_loop (to_exclude : list pyval) (data_type : string)
    (items : list (Z * OpenMLDataFeature)) (offset : Z) : list Z :=
  match items with
  | [] => []
  | (idx, feature) :: items' =>
      if name_in (feature_name feature) to_exclude then
        by_type_loop to_exclude data_type items' (offset + 1)
      else if decide (feature_data_type feature = data_type) then
        (idx - offset) :: by_type_loop to_exclude data_type items' offset
      else by_type_loop to_exclude data_type items' offset
  end.

Definition get_features_by_type (this : OpenMLDataset) (meta : Metadata)
    (data_type : string) (exclude : option exclude_arg)
    (exclude_ignore_attribute exclude_row_id_attribute : bool) : result (list Z) :=
  if decide (data_type ∉ LEGAL_DATA_TYPES) then Err TypeError
  else
    match ignore_attribute this with
    | Some (AttrStr _) => Err TypeError
    | _ =>
        match row_id_attribute this with
        | Some (AttrList _) => Err TypeError
        | _ =>
            match exclude with
            | Some ExcludeOther => Err TypeError
            | _ =>
                let to_exclude :=
                  (match exclude with
                   | Some (ExcludeList exclude) => exclude
                   | _ => []
                   end)
                  ++ (match ignore_attribute this with
                      | Some (AttrList ignore_attribute) =>
                          if exclude_ignore_attribute then VStr <$> ignore_attribute else []
                      | _ => []
                      end)
                  ++ (match row_id_attribute this with
                      | Some (AttrStr row_id_attribute) =>
                          if exclude_row_id_attribute then [VStr row_id_attribute] else []
                      | _ => []
                      end) in
                match features meta with
                | Some features => Ok (by_type_loop to_exclude data_type features 0)
                | None => Err TypeError
                end
            end
        end
    end.

End metadata.

(** ** A concrete instance, for evaluating the definitions

    Array elements as exact rationals, [None] for NaN; the float32 conversion
    rounds nothing. *)
Definition q_of_pyval (x : pyval) : result (option Q) :=
  match x with
  | VNone => Ok None
  | VBool b => Ok (Some (if b then 1%Q else 0%Q))
  | VInt z => Ok (Some (inject_Z z))
  | VFloat (Ffin q) => Ok (Some q)
  | VFloat _ => Ok None
  | VStr s =>
      match int_of_string s with
      | Some z => Ok (Some (inject_Z z))
      | None => Err (ValueError "could not convert string to float")
      end
  end.

Definition q_astype (dtype : target_dtype) (x : option Q) : option Q :=
  match dtype, x with
  | py_int_type, Some q => Some (inject_Z (Z.quot (Qnum q) (Z.pos (Qden q))))
  | _, _ => x
  end.

Definition exact_numpy : NumPy :=
  {| scalar := option Q;
     np_zero := Some 0%Q;
     np_nan := None;
     np_add := λ a b, match a, b with Some x, Some y => Some (x + y)%Q | _, _ => None end;
     np_float32_of := q_of_pyval;
     np_float32_of_code := λ z, Some (inject_Z z);
     np_float32 := id;
     np_astype := q_astype |}.

(** A 64-bit system without network access. *)
Definition offline : @Environment exact_numpy :=
  {| bits := 64;
     getsize := λ _, 4096;
     _get_dataset_arff := λ _ d, (Err OSError, d) |}.

Definition ex_dataset : OpenMLDataset :=
  {| dataset_id := Some 61; name := "iris"; format := "arff"; cache_format := "feather";
     data_file := Some "iris.arff"; data_pickle_file := None; data_feather_file := None;
     row_id_attribute := Some (AttrStr "id"); ignore_attribute := Some (AttrList ["foo"]) |}.

Definition ex_arff : @file exact_numpy :=
  ArffFile [("id", Primitive "INTEGER"); ("foo", Primitive "STRING");
            ("width", Primitive "REAL"); ("flag", Nominal ["True"; "False"]);
            ("class", Nominal ["a"; "b"; "c"])]
    (Ok [[VInt 1; VStr "x"; VFloat (Ffin 1.5); VInt 0; VInt 2];
         [VInt 2; VStr "y"; VFloat (Ffin 2.5); VInt 1; VNone]])
    (Err (LibraryError "arff.BadLayout")).

Definition ex_state : @state exact_numpy :=
  {| self := ex_dataset; disk := {[ "iris.arff" := ex_arff ]}; events := [] |}.


Definition ex_frame : list Series :=
  [{| s_name := "id"; s_body := Plain [VInt 1; VInt 2] |};
   {| s_name := "foo"; s_body := Plain [VStr "x"; VStr "y"] |};
   {| s_name := "width"; s_body := Plain [VFloat (Ffin 1.5); VFloat (Ffin 2.5)] |};
   {| s_name := "flag";
      s_body := Category {| cat_categories := [LBool true; LBool false];
                            cat_codes := [0; 1] |} |};
   {| s_name := "class";
      s_body := Category {| cat_categories := [LStr "a"; LStr "b"; LStr "c"];
                            cat_codes := [2; -1] |} |}].

Definition ex_categorical : list bool := [false; false; false; true; true].
Definition ex_names : list string := ["id"; "foo"; "width"; "flag"; "class"].

(** The dataset with a valid feather cache on disk. *)
Definition ex_cached_state : @state exact_numpy :=
  {| self := ex_dataset;
     disk := {[ "iris.arff" := ex_arff;
                "iris.feather" := FeatherFile ex_frame;
                "iris.pkl.py3" := PickleFile (Pair ex_categorical ex_names) ]};
     events := [] |}.

(** A dataset created locally (no id yet) whose cache was built and whose
    metadata file was then truncated to zero length. *)
Definition ex_unpublished : OpenMLDataset :=
  {| dataset_id := None; name := "iris"; format := "arff"; cache_format := "feather";
     data_file := Some "iris.arff"; data_pickle_file := Some "iris.pkl.py3";
     data_feather_file := Some "iris.feather";
     row_id_attribute := None; ignore_attribute := None |}.

Definition ex_corrupt_state : @state exact_numpy :=
  {| self := ex_unpublished;
     disk := {[ "iris.arff" := ex_arff;
                "iris.feather" := FeatherFile ex_frame;
                "iris.pkl.py3" := Truncated ]};
     events := [] |}.

(** The same corrupt cache under a dataset that has an id. *)
Definition ex_published : OpenMLDataset :=
  {| dataset_id := Some 61; name := "iris"; format := "arff"; cache_format := "feather";
     data_file := Some "iris.arff"; data_pickle_file := Some "iris.pkl.py3";
     data_feather_file := Some "iris.feather";
     row_id_attribute := None; ignore_attribute := None |}.

Definition ex_corrupt_published_state : @state exact_numpy :=
  {| self := ex_published; disk := disk ex_corrupt_state; events := [] |}.

(** A sparse dataset with a categorical column whose labels are not numeric;
    no cache yet. *)
Definition ex_sparse_dataset : OpenMLDataset :=
  {| dataset_id := Some 7; name := "sparse"; format := "sparse_arff";
     cache_format := "feather";
     data_file := Some "s.arff"; data_pickle_file := None; data_feather_file := None;
     row_id_attribute := None; ignore_attribute := None |}.

Definition ex_sparse_arff : @file exact_numpy :=
  ArffFile [("x", Primitive "NUMERIC"); ("c", Nominal ["a"; "b"])]
    (Err (LibraryError "arff.BadLayout"))
    (Ok ([VFloat (Ffin 1.5); VInt 1], [0%nat; 1%nat], [0%nat; 1%nat])).

Definition ex_sparse_state : @state exact_numpy :=
  {| self := ex_sparse_dataset; disk := {[ "s.arff" := ex_sparse_arff ]}; events := [] |}.

Definition ex_sparse_matrix : @csr_matrix exact_numpy :=
  {| sp_nrows := 2;
     sp_cols := [[(0%nat, Some 1.5%Q : @scalar exact_numpy)];
                 [(1%nat, Some (inject_Z 1) : @scalar exact_numpy)]] |}.







(** A sparse dataset whose last attribute has no stored entry: four
    attributes, stored entries in the columns 0 and 2 only. *)
Definition ex_narrow_dataset : OpenMLDataset :=
  {| dataset_id := Some 8; name := "narrow"; format := "sparse_arff";
     cache_format := "pickle";
     data_file := Some "n.arff"; data_pickle_file := None; data_feather_file := None;
     row_id_attribute := Some (AttrStr "id"); ignore_attribute := Some (AttrList ["foo"]) |}.

Definition ex_narrow_arff : @file exact_numpy :=
  ArffFile [("id", Primitive "NUMERIC"); ("foo", Primitive "NUMERIC");
            ("w", Primitive "NUMERIC"); ("c", Primitive "NUMERIC")]
    (Err (LibraryError "arff.BadLayout"))
    (Ok ([VInt 1; VFloat (Ffin 1.5); VInt 2], [0%nat; 0%nat; 1%nat], [0%nat; 2%nat; 2%nat])).

Definition ex_narrow_state : @state exact_numpy :=
  {| self := ex_narrow_dataset; disk := {[ "n.arff" := ex_narrow_arff ]}; events := [] |}.

Definition ex_narrow_matrix : @csr_matrix exact_numpy :=
  {| sp_nrows := 2;
     sp_cols := [[(0%nat, Some (inject_Z 1) : @scalar exact_numpy)];
                 [];
                 [(0%nat, Some 1.5%Q : @scalar exact_numpy);
                  (1%nat, Some (inject_Z 2) : @scalar exact_numpy)]] |}.

(** ** Vocabulary of the properties *)

(** An entry that [_unpack_categories] handles without raising: [int(x)] is a
    valid index of the label list, or [int(x)] raises [TypeError] or
    [ValueError]. *)
Definition maps_or_missing (categories : list label) (x : pyval) : Prop :=
  match py_int x with
  | Ok z => - Z.of_nat (length categories) ≤ z < Z.of_nat (length categories)
  | Err TypeError | Err (ValueError _) => True
  | Err _ => False
  end.

(** The label of an entry, [None] for the missing-value sentinel. *)
Definition unpacked_value (categories : list label) (x : pyval) : option label :=
  match py_int x with
  | Ok z => py_index categories z
  | Err _ => None
  end.

Definition is_nominal (type_ : arff_type) : bool :=
  match type_ with
  | Nominal _ => true
  | Primitive _ => false
  end.


(** The names a [target] argument stands for. *)
Definition target_names (target : target_spec) : list string :=
  match target with
  | TargetStr target => if contains_char "," target then split "," target else [target]
  | TargetList target => target
  end.

Section vocabulary.
Context `{env : Environment}.

(** A computation respects a relation on states when every run, returning or
    raising, takes a state to a related one. *)
Definition respects {A} (R : relation state) (m : M A) : Prop :=
  ∀ s, R s (m s).2.

(** The object and the disk are as before; only events were added. *)
Definition unchanged (s s' : state) : Prop :=
  self s' = self s ∧ disk s' = disk s.

(** The row-id and ignore attributes of the object are as before. *)
Definition same_attributes (s s' : state) : Prop :=
  row_id_attribute (self s') = row_id_attribute (self s)
  ∧ ignore_attribute (self s') = ignore_attribute (self s).

(** The object with another cache format tag. *)
Definition with_cache_format (cache_format : string) (this : OpenMLDataset) : OpenMLDataset :=
  {| dataset_id := dataset_id this; name := name this;
     format := format this; cache_format := cache_format;
     data_file := data_file this;
     data_pickle_file := data_pickle_file this;
     data_feather_file := data_feather_file this;
     row_id_attribute := row_id_attribute this;
     ignore_attribute := ignore_attribute this |}.

(** The state in which the fallback parse of [_load_data] runs. *)
Definition after_warning (s : state) (did : Z) : state :=
  {| self := self s; disk := disk s;
     events := events s ++
               [Logged WARNING corrupt_cache_warning
                  [ArgInt did; ArgStr (str_of_option (data_pickle_file (self s)))]] |}.

(** The number of columns of a table. *)
Definition width (data : pydata) : option nat :=
  match data with
  | Frame df => Some (length df)
  | Sparse m => Some (length (sp_cols m))
  | NdArray a =>
      match nd_shape a with
      | [_; c] => Some c
      | _ => None
      end
  end.

(** [data.iloc[:, keep] if hasattr(data, 'iloc') else data[:, keep]] *)
Definition select_columns (data : pydata) (keep : list bool) : result pydata :=
  if has_iloc data then iloc_columns data keep else getitem_columns data keep.

(** The exclusion set of a call: the row-id attribute unless [include_row_id],
    and the ignore attributes unless [include_ignore_attribute]. *)
Definition excluded_attributes (this : OpenMLDataset)
    (include_row_id include_ignore_attribute : bool) : list string :=
  (match row_id_attribute this with
   | Some a => if include_row_id then [] else attribute_list a
   | None => []
   end) ++
  (match ignore_attribute this with
   | Some a => if include_ignore_attribute then [] else attribute_list a
   | None => []
   end).

End vocabulary.

(** ** Further instances *)

(** A 32-bit system on which every file is 200 MB large. *)
Definition small_system : @Environment exact_numpy :=
  {| bits := 32;
     getsize := λ _, 200000000;
     _get_dataset_arff := λ _ d, (Err OSError, d) |}.



(** A sparse dataset with a string attribute; no cache yet. *)
Definition ex_sparse_string_arff : @file exact_numpy :=
  ArffFile [("x", Primitive "NUMERIC"); ("s", Primitive "STRING")]
    (Err (LibraryError "arff.BadLayout"))
    (Ok ([VFloat (Ffin 1.5)], [0%nat], [0%nat])).

Definition ex_sparse_string_state : @state exact_numpy :=
  {| self := ex_sparse_dataset; disk := {[ "s.arff" := ex_sparse_string_arff ]};
     events := [] |}.

Definition ex_legacy_array : @ndarray exact_numpy :=
  {| nd_shape := [2%nat; 1%nat];
     nd_items := [Some 1%Q : @scalar exact_numpy; Some 2%Q : @scalar exact_numpy] |}.

(** The dataset under the pickle format with a cache of a version before 0.9:
    the blob holds an array. *)
Definition ex_legacy_state : @state exact_numpy :=
  {| self := with_cache_format "pickle" ex_dataset;
     disk := {[ "iris.arff" := ex_arff;
                "iris.pkl.py3" :=
                  PickleFile (Triple (NdArray ex_legacy_array) [false] ["id"]) ]};
     events := [] |}.

(** The cache paths are set but the metadata file is gone. *)
Definition ex_missing_state : @state exact_numpy :=
  {| self := ex_published;
     disk := {[ "iris.arff" := ex_arff; "iris.feather" := FeatherFile ex_frame ]};
     events := [] |}.

(** The dataset with its cache paths and a valid feather cache. *)
Definition ex_loaded_state : @state exact_numpy :=
  {| self := ex_published; disk := disk ex_cached_state; events := [] |}.

(** The dataset under the pickle format with a valid blob. *)
Definition ex_pickle_state : @state exact_numpy :=
  {| self := with_cache_format "pickle" ex_published;
     disk := {[ "iris.arff" := ex_arff;
                "iris.pkl.py3" :=
                  PickleFile (Triple (Frame ex_frame) ex_categorical ex_names) ]};
     events := [] |}.

Definition ex_class_column : Series :=
  {| s_name := "class";
     s_body := Category {| cat_categories := [LStr "a"; LStr "b"; LStr "c"];
                           cat_codes := [2; -1] |} |}.



(** The data types of [OpenMLDataFeature], a constructor that checks
    nothing, the URL of the public server, and [float] on integer literals. *)
Definition ex_surroundings : Surroundings :=
  {| LEGAL_DATA_TYPES := ["nominal"; "numeric"; "string"; "date"];
     new_OpenMLDataFeature := λ index name data_type nominal_values _,
       match name, data_type with
       | XStr name, XStr data_type =>
           Ok {| feature_index := index; feature_name := name;
                 feature_data_type := data_type;
                 feature_nominal_values :=
                   match nominal_values with
                   | Some (XList values) => Some values
                   | _ => None
                   end |}
       | _, _ => Err TypeError
       end;
     openml_url := λ this,
       match dataset_id this with
       | Some did => VStr ("https://www.openml.org/d/" +:+ pretty did)
       | None => VNone
       end;
     float_of_string := λ s,
       match int_of_string s with
       | Some z => Ok (Ffin (inject_Z z))
       | None => Err (ValueError "could not convert string to float")
       end |}.

Definition ex_xmlfeature (index name data_type : string) : gmap string xmlvalue :=
  {[ "oml:index" := XStr index; "oml:name" := XStr name; "oml:data_type" := XStr data_type ]}.

Definition ex_xmlfeatures : list (gmap string xmlvalue) :=
  [ex_xmlfeature "0" "id" "numeric"; ex_xmlfeature "1" "foo" "string";
   ex_xmlfeature "2" "width" "numeric"; ex_xmlfeature "3" "flag" "nominal";
   ex_xmlfeature "4" "class" "nominal"].

Definition ex_feature (index : Z) (name data_type : string) : Z * OpenMLDataFeature :=
  (index, {| feature_index := index; feature_name := name;
             feature_data_type := data_type; feature_nominal_values := None |}).

Definition ex_features : list (Z * OpenMLDataFeature) :=
  [ex_feature 0 "id" "numeric"; ex_feature 1 "foo" "string";
   ex_feature 2 "width" "numeric"; ex_feature 3 "flag" "nominal";
   ex_feature 4 "class" "nominal"].

Definition ex_xmlquality (name value : string) : gmap string xmlvalue :=
  {[ "oml:name" := XStr name; "oml:value" := XStr value ]}.

(** The number of instances is listed twice, the second time as null. *)
Definition ex_xmlqualities : list (gmap string xmlvalue) :=
  [ex_xmlquality "NumberOfInstances" "150"; ex_xmlquality "NumberOfFeatures" "5";
   ex_xmlquality "NumberOfInstances" "null"].

Definition ex_metadata_with (qualities : option (list (xmlvalue * pyfloat))) : Metadata :=
  {| version := Some 1; description := Some "Iris"; citation := None;
     upload_date := Some "2014-04-06T23:23:39"; licence := Some "Public";
     url := Some "https://www.openml.org/data/download/61/dataset_61_iris.arff";
     features := Some ex_features;
     qualities := qualities |}.

Definition ex_metadata : Metadata :=
  ex_metadata_with (Some [(XStr "NumberOfInstances", Fnan);
                          (XStr "NumberOfFeatures", Ffin (inject_Z 5))]).

(** What the summary of the example shows when it has 150 instances. *)
Definition ex_shown : list (string * pyval) :=
  [("Name", VStr "iris"); ("Version", VInt 1); ("Format", VStr "arff");
   ("Upload Date", VStr "2014-04-06 23:23:39"); ("Licence", VStr "Public");
   ("Download URL", VStr "https://www.openml.org/data/download/61/dataset_61_iris.arff");
   ("OpenML URL", VStr "https://www.openml.org/d/61");
   ("# of features", VInt 5); ("# of instances", VInt 150)].

(** The arguments of a dataset made locally from the example file. *)
Definition ex_init_args : init_args :=
  {| arg_name := "iris"; arg_description := Some "Iris"; arg_format := None;
     arg_data_format := "arff"; arg_cache_format := "feather";
     arg_dataset_id := None; arg_version := None; arg_upload_date := None;
     arg_licence := None; arg_url := None;
     arg_row_id_attribute := Some (AttrStr "id");
     arg_ignore_attribute := Some (IgnoreStr "foo");
     arg_citation := None; arg_data_file := Some "iris.arff";
     arg_features := Some ex_xmlfeatures; arg_qualities := Some ex_xmlqualities |}.

(** The metadata that the constructor makes of them. *)
Definition ex_init_metadata : Metadata :=
  {| version := None; description := Some "Iris"; citation := None;
     upload_date := None; licence := None; url := None;
     features := Some ex_features;
     qualities := Some [(XStr "NumberOfInstances", Fnan);
                        (XStr "NumberOfFeatures", Ffin (inject_Z 5))] |}.

(** The arguments of a local dataset whose name ends in a newline. *)
Definition ex_newline_args : init_args :=
  {| arg_name := "iris" +:+ String "010" ""; arg_description := None; arg_format := None;
     arg_data_format := "arff"; arg_cache_format := "feather";
     arg_dataset_id := None; arg_version := None; arg_upload_date := None;
     arg_licence := None; arg_url := None;
     arg_row_id_attribute := None; arg_ignore_attribute := None;
     arg_citation := None; arg_data_file := None;
     arg_features := None; arg_qualities := None |}.

(** ** Further vocabulary *)

(** An entry of a raw column that the decoder produces for a nominal
    attribute: a position of the label list, or a missing marker on which
    [int()] raises [TypeError] or [ValueError]. *)
Definition code_or_missing (categories : list label) (x : pyval) : Prop :=
  match py_int x with
  | Ok z => 0 ≤ z < Z.of_nat (length categories)
  | Err TypeError | Err (ValueError _) => True
  | Err _ => False
  end.

(** [old in s] *)
Fixpoint occurs (old s : string) : bool :=
  match s with
  | EmptyString => is_prefix old EmptyString
  | String _ s' => is_prefix old s || occurs old s'
  end.

(** The positions, counted from [i], of the entries that satisfy [p]. *)
Fixpoint positions {A} (p : A → bool) (l : list A) (i : Z) : list Z :=
  match l with
  | [] => []
  | a :: l' => if p a then i :: positions p l' (i + 1) else positions p l' (i + 1)
  end.

(** The names that a call of [get_features_by_type] excludes. *)
Definition feature_exclusion (this : OpenMLDataset) (exclude : list pyval)
    (exclude_ignore_attribute exclude_row_id_attribute : bool) : list pyval :=
  exclude
  ++ (match ignore_attribute this with
      | Some ignore_attribute =>
          if exclude_ignore_attribute then VStr <$> attribute_list ignore_attribute else []
      | None => []
      end)
  ++ (match row_id_attribute this with
      | Some row_id_attribute =>
          if exclude_row_id_attribute then VStr <$> attribute_list row_id_attribute else []
      | None => []
      end).

(** The keys of a dict made by the constructor from [n] features. *)
Definition in_order (features : list (Z * OpenMLDataFeature)) : Prop :=
  features.*1 = Z.of_nat <$> seq 0 (length features)
  ∧ Forall (λ item, feature_index item.2 = item.1) features.

(** * Properties *)

(** ** Categorical Unpacker *)

Lemma py_index_in_range {A} (l : list A) (z : Z) :
  - Z.of_nat (length l) ≤ z < Z.of_nat (length l) → is_Some (py_index l z).
Proof.
  intros Hz. unfold py_index.
  destruct (decide (0 ≤ z)) as [Hpos | Hneg].
  - apply lookup_lt_is_Some. lia.
  - rewrite decide_True by lia. apply lookup_lt_is_Some. lia.
Qed.

Lemma py_index_elem_of {A} (l : list A) (z : Z) (a : A) :
  py_index l z = Some a → a ∈ l.
Proof.
  unfold py_index. intros Hl.
  repeat case_decide; try discriminate; by eapply list_elem_of_lookup_2.
Qed.

Lemma index_of_lookup (categories : list label) (l : label) (k : nat) (i : Z) :
  NoDup categories → categories !! k = Some l →
  index_of l categories i = i + Z.of_nat k.
Proof.
  intros Hnd. revert k i. induction Hnd as [| c cs Hc Hnd IH]; intros k i Hk.
  - discriminate.
  - destruct k as [| k]; simpl in *.
    + injection Hk as ->. rewrite decide_True by done. lia.
    + rewrite decide_False.
      * rewrite (IH k) by done. lia.
      * intros ->. apply Hc. by eapply list_elem_of_lookup_2.
Qed.

Lemma unpack_loop_ok (xs : list pyval) (categories : list label) :
  Forall (maps_or_missing categories) xs →
  unpack_loop xs categories = Ok (unpacked_value categories <$> xs).
Proof.
  induction 1 as [| x xs Hx _ IH]; [done |].
  simpl. rewrite IH. unfold maps_or_missing, unpacked_value in *.
  destruct (py_int x) as [z | e].
  - destruct (py_index_in_range categories z Hx) as [l ->]. done.
  - destruct e; done.
Qed.

Lemma unpacked_value_elem_of (categories : list label) (x : pyval) (l : label) :
  unpacked_value categories x = Some l → l ∈ categories.
Proof.
  unfold unpacked_value. destruct (py_int x); [| done]. apply py_index_elem_of.
Qed.

Lemma code_roundtrip (categories : list label) (v : option label) :
  NoDup categories →
  (∀ l, v = Some l → l ∈ categories) →
  (let code := match v with Some l => index_of l categories 0 | None => -1 end in
   if decide (0 ≤ code) then categories !! Z.to_nat code else None) = v.
Proof.
  intros Hnd Hv. destruct v as [l |]; simpl; [| done].
  destruct (proj1 (list_elem_of_lookup _ _) (Hv l eq_refl)) as [k Hk].
  rewrite (index_of_lookup _ _ k 0 Hnd Hk).
  rewrite decide_True by lia. by replace (Z.to_nat (0 + Z.of_nat k)) with k by lia.
Qed.

(** C3, as the code has it: the entries whose integer is a valid (Python)
    index of the label list are replaced by their label, the entries on which
    [int()] raises [TypeError] or [ValueError] (missing marker, NaN,
    non-numeric string) become the missing-value sentinel, and for a label
    list without repetition and a column of such entries the operation
    returns. *)
Theorem unpack_categories_in_range (series : Series) (categories : list label) :
  NoDup categories →
  Forall (maps_or_missing categories) (series_iter series) →
  ∃ c, _unpack_categories series categories
       = Ok {| s_name := s_name series; s_body := Category c |}
     ∧ cat_categories c = categories
     ∧ cat_values c = unpacked_value categories <$> series_iter series.
Proof.
  intros Hnd Hxs. unfold _unpack_categories.
  rewrite (unpack_loop_ok _ _ Hxs). simpl.
  unfold pd_Categorical. rewrite decide_True by done. simpl.
  eexists. split; [reflexivity |]. split; [done |].
  unfold cat_values. simpl. rewrite <- list_fmap_compose.
  rewrite <- list_fmap_compose.
  apply list_fmap_ext. intros i x _. simpl.
  apply (code_roundtrip categories (unpacked_value categories x) Hnd).
  apply unpacked_value_elem_of.
Qed.

(** C3 on a column with a missing marker, a NaN, a non-numeric string, a
    negative index and a float. *)
Lemma unpack_categories_in_range_witness :
  ∃ c, _unpack_categories
         {| s_name := "class";
            s_body := Plain [VInt 1; VNone; VFloat Fnan; VStr "?"; VInt (-1); VFloat (Ffin 0.5)] |}
         [LStr "a"; LStr "b"]
       = Ok {| s_name := "class"; s_body := Category c |}
     ∧ cat_categories c = [LStr "a"; LStr "b"]
     ∧ cat_values c = [Some (LStr "b"); None; None; None; Some (LStr "b"); Some (LStr "a")].
Proof.
  apply (unpack_categories_in_range
           {| s_name := "class";
              s_body := Plain [VInt 1; VNone; VFloat Fnan; VStr "?"; VInt (-1); VFloat (Ffin 0.5)] |}
           [LStr "a"; LStr "b"]).
  - apply (bool_decide_unpack (NoDup [LStr "a"; LStr "b"])). reflexivity.
  - repeat (apply Forall_cons; split; [unfold maps_or_missing; simpl; first [exact I | lia | vm_compute; split; easy] |]).
    apply Forall_nil_2.
Defined.

(** C3, against the claim as stated: an index outside the label list raises
    [IndexError]; it does not become the missing-value sentinel. *)
Lemma unpack_categories_out_of_range :
  _unpack_categories {| s_name := "class"; s_body := Plain [VInt 0; VInt 5] |}
                     [LStr "a"; LStr "b"]
  = Err IndexError.
Proof. reflexivity. Qed.

(** Whatever the column, the first entry that is neither mappable nor caught
    decides the outcome: with an out-of-range index among the entries the
    operation does not return. *)
Lemma unpack_loop_out_of_range (xs : list pyval) (categories : list label) (x : pyval) (z : Z) :
  x ∈ xs → py_int x = Ok z → py_index categories z = None →
  is_Ok (unpack_loop xs categories) = false.
Proof.
  intros Hin Hz Hidx. induction xs as [| y ys IH]; [by apply elem_of_nil in Hin |].
  apply elem_of_cons in Hin as [<- | Hin]; simpl.
  - rewrite Hz, Hidx. done.
  - specialize (IH Hin).
    destruct (py_int y) as [zy | e].
    + destruct (py_index categories zy); [| done]. simpl.
      destruct (unpack_loop ys categories); done.
    + destruct e; try done; simpl; destruct (unpack_loop ys categories); done.
Qed.

(** ** Column Type Inference *)

Lemma ascii_lower_idemp (c : ascii) : ascii_lower (ascii_lower c) = ascii_lower c.
Proof. destruct c as [[] [] [] [] [] [] [] []]; reflexivity. Qed.

Lemma lower_idemp (s : string) : lower (lower s) = lower s.
Proof. induction s as [| c s IH]; simpl; [done |]. by rewrite ascii_lower_idemp, IH. Qed.

Lemma ascii_upper_lower_T (c : ascii) :
  ascii_upper (ascii_lower c) = "T"%char ↔ ascii_lower c = "t"%char.
Proof. destruct c as [[] [] [] [] [] [] [] []]; vm_compute; split; congruence. Qed.

Lemma ascii_upper_lower_F (c : ascii) :
  ascii_upper (ascii_lower c) = "F"%char ↔ ascii_lower c = "f"%char.
Proof. destruct c as [[] [] [] [] [] [] [] []]; vm_compute; split; congruence. Qed.

Lemma capitalize_lower_True (s : string) :
  capitalize (lower s) = "True" ↔ lower s = "true".
Proof.
  destruct s as [| c s]; simpl; [done |]. rewrite lower_idemp.
  split; intros [= Hc Hs]; f_equal; try done; by apply ascii_upper_lower_T.
Qed.

Lemma capitalize_lower_False (s : string) :
  capitalize (lower s) = "False" ↔ lower s = "false".
Proof.
  destruct s as [| c s]; simpl; [done |]. rewrite lower_idemp.
  split; intros [= Hc Hs]; f_equal; try done; by apply ascii_upper_lower_F.
Qed.

Lemma pair_set_eq (a b x y : string) :
  x ≠ y →
  list_to_set [x; y] =@{gset string} list_to_set [a; b] ↔
  (a = x ∧ b = y) ∨ (a = y ∧ b = x).
Proof.
  intros Hxy. split.
  - intros Heq.
    assert (Hx : x ∈@{gset string} list_to_set [a; b]) by (rewrite <- Heq; set_solver).
    assert (Hy : y ∈@{gset string} list_to_set [a; b]) by (rewrite <- Heq; set_solver).
    set_unfold. naive_solver.
  - intros [[-> ->] | [-> ->]]; set_solver.
Qed.

Lemma infer_attribute_step (format : string) (acc h : header_info)
    (name : string) (type_ : arff_type) :
  infer_attribute format acc (name, type_) = Ok h →
  categorical h = categorical acc ++ [is_nominal type_]
  ∧ attribute_names h = attribute_names acc ++ [name]
  ∧ (∀ other, other ≠ name →
       attribute_dtype h !! other = attribute_dtype acc !! other
       ∧ categories_names h !! other = categories_names acc !! other).
Proof.
  unfold infer_attribute. destruct type_ as [tag | labels].
  - case_decide; [done |]. simpl.
    destruct (ARFF_DTYPES_TO_PD_DTYPE !! tag); [| done].
    intros [= <-]. simpl. repeat split; try done. by rewrite lookup_insert_ne.
  - destruct (decide (lower format = "sparse_arff")); simpl;
      repeat case_decide; intros [= <-]; simpl; repeat split; try done;
      intros; rewrite ?lookup_insert_ne by done; done.
Qed.

Lemma infer_attributes_spec (format : string) (attrs : list (string * arff_type))
    (acc h : header_info) :
  infer_attributes format acc attrs = Ok h →
  categorical h = categorical acc ++ (is_nominal <$> attrs.*2)
  ∧ attribute_names h = attribute_names acc ++ attrs.*1
  ∧ (∀ other, other ∉ attrs.*1 →
       attribute_dtype h !! other = attribute_dtype acc !! other
       ∧ categories_names h !! other = categories_names acc !! other).
Proof.
  revert acc. induction attrs as [| [name type_] attrs IH]; intros acc; simpl.
  - intros [= <-]. rewrite !app_nil_r. done.
  - destruct (infer_attribute format acc (name, type_)) as [acc' |] eqn:Hstep;
      simpl; [| done].
    intros Hrest.
    destruct (infer_attribute_step _ _ _ _ _ Hstep) as (Hc & Hn & Hother).
    destruct (IH _ Hrest) as (Hc' & Hn' & Hother').
    rewrite Hc', Hn', Hc, Hn, <- !app_assoc.
    split; [done |]. split; [done |].
    intros other Hnotin. apply not_elem_of_cons in Hnotin as [Hne Hnotin].
    destruct (Hother' other Hnotin) as [-> ->]. by apply Hother.
Qed.

Lemma infer_attributes_app (format : string) (pre post : list (string * arff_type))
    (acc : header_info) :
  infer_attributes format acc (pre ++ post)
  = (acc' ← infer_attributes format acc pre; infer_attributes format acc' post).
Proof.
  revert acc. induction pre as [| a pre IH]; intros acc; simpl; [done |].
  destruct (infer_attribute format acc a); simpl; [apply IH | done].
Qed.

(** The pass over a column declared with two labels that normalize to
    "true" and "false". *)
Lemma infer_attribute_boolean (format : string) (acc h : header_info) (name l1 l2 : string) :
  list_to_set [lower l1; lower l2] =@{gset string} list_to_set ["true"; "false"] →
  infer_attribute format acc (name, Nominal [l1; l2]) = Ok h →
  attribute_dtype h !! name = Some "boolean"
  ∧ categories_names h !! name
    = Some [LBool (bool_decide (lower l1 = "true")); LBool (bool_decide (lower l2 = "true"))].
Proof.
  intros Hset. unfold infer_attribute.
  assert (Hnorm : list_to_set ["True"; "False"]
                  =@{gset string} list_to_set [capitalize (lower l1); capitalize (lower l2)]).
  { symmetry in Hset. apply pair_set_eq in Hset; [| done].
    apply pair_set_eq; [done |].
    rewrite !capitalize_lower_True, !capitalize_lower_False. done. }
  assert (Hb : ∀ l, bool_decide (capitalize (lower l) = "True") = bool_decide (lower l = "true")).
  { intros l. apply bool_decide_ext, capitalize_lower_True. }
  destruct (decide (lower format = "sparse_arff")); simpl;
    rewrite decide_True by done; rewrite !Hb;
    intros [= <-]; simpl; rewrite !lookup_insert_eq; done.
Qed.

(** C4, as the code has it: a column declared with two labels that after
    case-normalization are "true" and "false" gets the boolean type, and its
    label list is the declared one mapped position by position: [True] where
    the label normalizes to "true", [False] where it normalizes to "false". *)
Theorem boolean_collapse_positional (format : string) (attrs : list (string * arff_type))
    (h : header_info) (i : nat) (name l1 l2 : string) :
  infer_attributes format empty_header attrs = Ok h →
  NoDup attrs.*1 →
  attrs !! i = Some (name, Nominal [l1; l2]) →
  list_to_set [lower l1; lower l2] =@{gset string} list_to_set ["true"; "false"] →
  attribute_dtype h !! name = Some "boolean"
  ∧ categories_names h !! name
    = Some [LBool (bool_decide (lower l1 = "true")); LBool (bool_decide (lower l2 = "true"))]
  ∧ categorical h !! i = Some true
  ∧ attribute_names h !! i = Some name.
Proof.
  intros Hloop Hnd Hi Hset.
  destruct (infer_attributes_spec _ _ _ _ Hloop) as (Hc & Hn & _). simpl in Hc, Hn.
  assert (Hci : categorical h !! i = Some true).
  { rewrite Hc, !list_lookup_fmap, Hi. done. }
  assert (Hni : attribute_names h !! i = Some name).
  { rewrite Hn, list_lookup_fmap, Hi. done. }
  apply list_elem_of_split_length in Hi as (pre & post & -> & Hlen).
  rewrite infer_attributes_app in Hloop.
  destruct (infer_attributes format empty_header pre) as [acc |]; simpl in Hloop; [| done].
  destruct (infer_attribute format acc (name, Nominal [l1; l2])) as [acc' |] eqn:Hstep;
    simpl in Hloop; [| done].
  destruct (infer_attribute_boolean _ _ _ _ _ _ Hset Hstep) as [Hd Hl].
  destruct (infer_attributes_spec _ _ _ _ Hloop) as (_ & _ & Hother).
  rewrite fmap_app, fmap_cons in Hnd. apply NoDup_app in Hnd as (_ & _ & Hnd).
  apply NoDup_cons in Hnd as [Hnotin _].
  destruct (Hother name Hnotin) as [-> ->]. done.
Qed.

(** C4 on a column declared as FALSE, true. *)
Lemma boolean_collapse_positional_witness :
  ∃ h, infer_attributes "arff" empty_header
         [("width", Primitive "REAL"); ("flag", Nominal ["FALSE"; "true"])] = Ok h
     ∧ attribute_dtype h !! "flag" = Some "boolean"
     ∧ categories_names h !! "flag" = Some [LBool false; LBool true]
     ∧ categorical h !! 1%nat = Some true
     ∧ attribute_names h !! 1%nat = Some "flag".
Proof.
  eexists. split; [reflexivity |].
  apply (boolean_collapse_positional "arff"
           [("width", Primitive "REAL"); ("flag", Nominal ["FALSE"; "true"])]
           _ 1 "flag" "FALSE" "true").
  - reflexivity.
  - apply (bool_decide_unpack (NoDup ["width"; "flag"])). reflexivity.
  - reflexivity.
  - apply (bool_decide_unpack
             (list_to_set ["false"; "true"] =@{gset string} list_to_set ["true"; "false"])).
    reflexivity.
Defined.

(** C4, against the claim as stated: declared in the order "True", "False"
    the column is boolean, but its label list is [True, False], not
    [False, True]. *)
Lemma boolean_collapse_true_first :
  ∃ h, infer_attributes "arff" empty_header [("flag", Nominal ["True"; "False"])] = Ok h
     ∧ attribute_dtype h !! "flag" = Some "boolean"
     ∧ categories_names h !! "flag" = Some [LBool true; LBool false]
     ∧ categories_names h !! "flag" ≠ Some [LBool false; LBool true].
Proof.
  eexists. split; [reflexivity |]. split; [reflexivity |].
  split; [reflexivity |]. vm_compute. discriminate.
Qed.

(** *** Computations that respect a relation on states *)

Section respects.
Context `{env : Environment}.

Context (R : relation state) `{!PreOrder R}.

Lemma respects_ret {A} (a : A) : respects R (mret a).
Proof. intros s. reflexivity. Qed.

Lemma respects_raise {A} (e : exn) : respects R (raise (A := A) e).
Proof. intros s. reflexivity. Qed.

Lemma respects_lift {A} (r : result A) : respects R (lift r).
Proof. intros s. reflexivity. Qed.

Lemma respects_get_self : respects R get_self.
Proof. intros s. reflexivity. Qed.

Lemma respects_os_path_exists (path : string) : respects R (os_path_exists path).
Proof. intros s. reflexivity. Qed.

Lemma respects_open_rb (path : option string) : respects R (open_rb path).
Proof. intros s. unfold open_rb. destruct path as [p |]; [destruct (disk s !! p) |]; reflexivity. Qed.

Lemma respects_bind {A B} (m : M A) (k : A → M B) :
  respects R m → (∀ a, respects R (k a)) → respects R (m ≫= k).
Proof.
  intros Hm Hk s. unfold mbind, M_bind, bind. specialize (Hm s).
  destruct (m s) as [[a | e] s']; simpl in *; [| done].
  etrans; [exact Hm | apply Hk].
Qed.

Lemma respects_try_except {A} (m : M A) (h : exn → option (M A)) :
  respects R m → (∀ e k, h e = Some k → respects R k) → respects R (try_except m h).
Proof.
  intros Hm Hh s. unfold try_except. specialize (Hm s).
  destruct (m s) as [[a | e] s']; simpl in *; [done |].
  destruct (h e) as [k |] eqn:He; [| done].
  etrans; [exact Hm | by eapply Hh].
Qed.

End respects.

(** One step of a proof that a computation respects a relation. *)
Ltac respects_step :=
  match goal with
  | |- respects _ (_ ≫= _) => apply respects_bind; [apply _ | | intros ?]
  | |- respects _ (mret _) => apply respects_ret; apply _
  | |- respects _ (raise _) => apply respects_raise; apply _
  | |- respects _ (lift _) => apply respects_lift; apply _
  | |- respects _ get_self => apply respects_get_self; apply _
  | |- respects _ (os_path_exists _) => apply respects_os_path_exists; apply _
  | |- respects _ (open_rb _) => apply respects_open_rb; apply _
  | |- respects _ (try_except _ _) =>
      apply respects_try_except; [apply _ | | intros [] ? [= <-]]
  | |- respects _ (if ?c then _ else _) => destruct c
  | |- respects _ (match ?x with _ => _ end) => destruct x
  | |- respects _ _ => progress case_match
  end.

(** ** Cache Manager *)

Section properties.
Context `{env : Environment}.

Lemma bind_Ok {A B} (m : M A) (k : A → M B) (s s' : state) (a : A) :
  m s = (Ok a, s') → (m ≫= k) s = k a s'.
Proof. intros Hm. unfold mbind, M_bind, bind. by rewrite Hm. Qed.

Global Instance unchanged_preorder : PreOrder unchanged.
Proof.
  split.
  - done.
  - intros s1 s2 s3 [? ?] [? ?]. split; congruence.
Qed.

Global Instance same_attributes_preorder : PreOrder same_attributes.
Proof.
  split.
  - done.
  - intros s1 s2 s3 [? ?] [? ?]. split; congruence.
Qed.

Lemma unchanged_same_attributes (s s' : state) : unchanged s s' → same_attributes s s'.
Proof. intros [Hself _]. unfold same_attributes. by rewrite Hself. Qed.

Lemma respects_unchanged_emit (e : event) : respects unchanged (emit e).
Proof. done. Qed.

Lemma respects_unchanged_logger (lvl : level) (template : string) (args : list log_arg) :
  respects unchanged (logger lvl template args).
Proof. done. Qed.

Lemma read_only_os_path_getsize (filename : option string) :
  respects unchanged (os_path_getsize filename).
Proof. unfold os_path_getsize. repeat respects_step. Qed.

Lemma read_only_decode_arff (return_type : return_type) (filename : string) (fh : file) :
  respects unchanged (decode_arff return_type filename fh).
Proof.
  unfold decode_arff. respects_step; [apply respects_unchanged_emit |]. respects_step.
Qed.

Lemma read_only_get_arff (format : string) : respects unchanged (_get_arff format).
Proof.
  unfold _get_arff, gzip_open, io_open.
  repeat first [apply read_only_os_path_getsize | apply read_only_decode_arff | respects_step].
Qed.

(** The Raw Format Decoder writes nothing: [_parse_data_from_arff] leaves the
    object and every file as they are. *)
Lemma read_only_parse_data_from_arff (arff_file_path : option string) :
  respects unchanged (_parse_data_from_arff arff_file_path).
Proof.
  unfold _parse_data_from_arff.
  repeat first [apply read_only_get_arff | apply respects_unchanged_logger | respects_step].
Qed.

Lemma read_only_feather_read_feather (path : option string) :
  respects unchanged (feather_read_feather path).
Proof. unfold feather_read_feather. repeat respects_step. Qed.

(** Reading the cache changes no file. *)
Lemma read_only_read_cache : respects unchanged read_cache.
Proof.
  unfold read_cache.
  repeat first [apply read_only_feather_read_feather | apply respects_unchanged_logger
               | respects_step].
Qed.

Lemma respects_weaken {A} (R R' : relation state) (m : M A) :
  (∀ s s', R s s' → R' s s') → respects R m → respects R' m.
Proof. intros HR Hm s. apply HR, Hm. Qed.

Lemma read_only_same_attributes {A} (m : M A) :
  respects unchanged m → respects same_attributes m.
Proof. apply respects_weaken, unchanged_same_attributes. Qed.

Lemma same_attributes_emit (e : event) : respects same_attributes (emit e).
Proof. done. Qed.

Lemma same_attributes_write_file (path : string) (f : file) :
  respects same_attributes (write_file path f).
Proof. done. Qed.

Lemma same_attributes_create_pickle_in_cache (data_file : string) :
  respects same_attributes (_create_pickle_in_cache data_file).
Proof.
  unfold _create_pickle_in_cache, existing_cache_returns, feather_write_feather,
    pickle_dump, logger.
  repeat first [ apply read_only_same_attributes, read_only_parse_data_from_arff
               | apply read_only_same_attributes, read_only_feather_read_feather
               | apply same_attributes_emit
               | apply same_attributes_write_file
               | done
               | respects_step ].
Qed.

Lemma same_attributes_ensure_cache : respects same_attributes ensure_cache.
Proof.
  unfold ensure_cache, _download_data.
  repeat first [ apply same_attributes_create_pickle_in_cache
               | done
               | respects_step ].
  intros s. simpl. by destruct (_get_dataset_arff (self s) (disk s)).
Qed.

(** Loading never touches the row-id and ignore attributes of the object. *)
Lemma same_attributes_load_data : respects same_attributes _load_data.
Proof.
  unfold _load_data.
  repeat first [ apply same_attributes_ensure_cache
               | apply read_only_same_attributes, read_only_read_cache
               | apply read_only_same_attributes, read_only_parse_data_from_arff
               | apply same_attributes_emit
               | respects_step ].
Qed.

(** The parse yields a sparse matrix under the sparse format and a frame under
    the dense one, never the array of an old cache. *)
Lemma parse_sparse_iff_format (arff_file_path : option string) (s s' : state)
    (X : pydata) (categorical : list bool) (attribute_names : list string) :
  _parse_data_from_arff arff_file_path s = (Ok (X, categorical, attribute_names), s') →
  match X with
  | Sparse _ => lower (format (self s)) = "sparse_arff"
  | Frame _ => lower (format (self s)) = "arff" ∧ lower (format (self s)) ≠ "sparse_arff"
  | NdArray _ => False
  end.
Proof.
  unfold _parse_data_from_arff. unfold_monad.
  destruct (_get_arff (format (self s)) s) as [[data | e] s1]; cbn beta iota.
  - destruct (infer_attributes _ _ _) as [h | e]; cbn beta iota; [| done].
    repeat case_decide; repeat case_match; intros; simplify_eq; done.
  - destruct (is_OSError e); cbn beta iota; intros; simplify_eq.
Qed.

(** C5: when no existing cache ends the call and the parse yields a sparse
    matrix, [_create_pickle_in_cache] sets the cache format to "pickle",
    whatever was requested, and its only write is the blob
    [(X, categorical, attribute_names)] at the pickle path; no feather file is
    written. *)
Theorem sparse_forces_pickle (data_file : string) (s s0 s1 : state)
    (m : csr_matrix) (categorical : list bool) (attribute_names : list string) :
  let data_pickle_file := replace ".arff" ".pkl.py3" data_file in
  let data_feather_file := replace ".arff" ".feather" data_file in
  existing_cache_returns data_pickle_file data_feather_file s = (Ok false, s0) →
  _parse_data_from_arff (Some data_file) s0
  = (Ok (Sparse m, categorical, attribute_names), s1) →
  _create_pickle_in_cache data_file s
  = (Ok (data_pickle_file, data_feather_file),
     {| self := with_cache_format "pickle" (self s1);
        disk := <[data_pickle_file := PickleFile (Triple (Sparse m) categorical attribute_names)]>
                  (disk s1);
        events := events s1 ++
                  [Logged INFO "pickle write" [];
                   FileWritten data_pickle_file;
                   Logged DEBUG "Saved dataset {did}: {name} to file {path}"
                     [ArgInt (dataset_id_or_minus_1 (self s1)); ArgStr (name (self s1));
                      ArgStr data_pickle_file]] |}).
Proof.
  intros data_pickle_file data_feather_file Hcheck Hparse.
  unfold _create_pickle_in_cache.
  rewrite (bind_Ok _ _ _ _ _ Hcheck).
  rewrite (bind_Ok _ _ _ _ _ Hparse).
  destruct s1 as [this d evs]. simpl.
  run. rewrite andb_false_r. simpl. rewrite <- !app_assoc. reflexivity.
Qed.


Lemma os_path_exists_Some (s : state) (path : string) (f : file) :
  disk s !! path = Some f → os_path_exists path s = (Ok true, s).
Proof. intros Hp. unfold os_path_exists. by rewrite Hp. Qed.

Lemma open_rb_Some (s : state) (path : string) (f : file) :
  disk s !! path = Some f → open_rb (Some path) s = (Ok f, s).
Proof. intros Hp. unfold open_rb. by rewrite Hp. Qed.

Lemma feather_read_feather_Ok (s : state) (path : string) (df : list Series) :
  disk s !! path = Some (FeatherFile df) →
  feather_read_feather (Some path) s = (Ok (Frame df), s).
Proof.
  intros Hp. unfold feather_read_feather.
  by rewrite (bind_Ok _ _ _ _ _ (open_rb_Some _ _ _ Hp)).
Qed.

Lemma get_self_eq (s : state) : get_self s = (Ok (self s), s).
Proof. done. Qed.

(** The true half of C1: with the metadata file of a feather cache cut short,
    the check of the existing cache ends the call and changes nothing. *)
Lemma corrupt_metadata_returns (data_pickle_file data_feather_file : string)
    (s : state) (df : list Series) :
  cache_format (self s) = "feather" →
  disk s !! data_feather_file = Some (FeatherFile df) →
  disk s !! data_pickle_file = Some Truncated →
  existing_cache_returns data_pickle_file data_feather_file s = (Ok true, s).
Proof.
  intros Hfmt Hfth Hpkl. unfold existing_cache_returns.
  rewrite (bind_Ok _ _ _ _ _ (get_self_eq s)), decide_True by done.
  rewrite (bind_Ok _ _ _ _ _ (os_path_exists_Some _ _ _ Hfth)).
  rewrite (bind_Ok _ _ _ _ _ (feather_read_feather_Ok _ _ _ Hfth)).
  rewrite (bind_Ok _ _ _ _ _ (open_rb_Some _ _ _ Hpkl)).
  reflexivity.
Qed.

(** So [_create_pickle_in_cache] returns the two paths; the raw file is not
    parsed and nothing is written. *)
Lemma corrupt_metadata_is_deferred (data_file : string) (s : state) (df : list Series) :
  cache_format (self s) = "feather" →
  disk s !! replace ".arff" ".feather" data_file = Some (FeatherFile df) →
  disk s !! replace ".arff" ".pkl.py3" data_file = Some Truncated →
  _create_pickle_in_cache data_file s
  = (Ok (replace ".arff" ".pkl.py3" data_file, replace ".arff" ".feather" data_file), s).
Proof.
  intros Hfmt Hfth Hpkl. unfold _create_pickle_in_cache.
  by rewrite (bind_Ok _ _ _ _ _ (corrupt_metadata_returns _ _ _ _ Hfmt Hfth Hpkl)).
Qed.

(** The other half fails in general: a feather cache whose two files are both
    readable ends no call; control reaches the parse. *)
Lemma valid_feather_pair_falls_through (data_pickle_file data_feather_file : string)
    (s : state) (df : list Series) (categorical : list bool) (attribute_names : list string) :
  cache_format (self s) = "feather" →
  disk s !! data_feather_file = Some (FeatherFile df) →
  disk s !! data_pickle_file = Some (PickleFile (Pair categorical attribute_names)) →
  existing_cache_returns data_pickle_file data_feather_file s = (Ok false, s).
Proof.
  intros Hfmt Hfth Hpkl. unfold existing_cache_returns.
  rewrite (bind_Ok _ _ _ _ _ (get_self_eq s)), decide_True by done.
  rewrite (bind_Ok _ _ _ _ _ (os_path_exists_Some _ _ _ Hfth)).
  rewrite (bind_Ok _ _ _ _ _ (feather_read_feather_Ok _ _ _ Hfth)).
  rewrite (bind_Ok _ _ _ _ _ (open_rb_Some _ _ _ Hpkl)).
  reflexivity.
Qed.

(** C2 for a dataset that has an id: an end-of-data error while the cache is
    read makes [_load_data] log the warning and return whatever
    [_parse_data_from_arff] returns on the raw file, and no file is changed. *)
Lemma corrupt_cache_falls_back_to_parse (s s1 s2 : state) (did : Z) :
  ensure_cache s = (Ok tt, s1) →
  read_cache s1 = (Err EOFError, s2) →
  dataset_id (self s1) = Some did →
  _load_data s = _parse_data_from_arff (data_file (self s1)) (after_warning s2 did)
  ∧ disk (_load_data s).2 = disk s1
  ∧ self (_load_data s).2 = self s1.
Proof.
  intros Hensure Hread Hid.
  destruct (read_only_read_cache s1) as [Hself Hdisk]. rewrite Hread in Hself, Hdisk.
  simpl in Hself, Hdisk.
  assert (Hload : _load_data s
                  = _parse_data_from_arff (data_file (self s1)) (after_warning s2 did)).
  { unfold _load_data. rewrite (bind_Ok _ _ _ _ _ Hensure).
    unfold try_except. rewrite Hread. run. unfold after_warning.
    destruct s2 as [this2 disk2 events2]. simpl in *. subst this2.
    rewrite Hid. reflexivity. }
  split; [done |]. rewrite Hload.
  destruct (read_only_parse_data_from_arff (data_file (self s1)) (after_warning s2 did))
    as [Hself' Hdisk'].
  rewrite Hself', Hdisk'. simpl. done.
Qed.

(** Without an id the warning cannot be formatted: ["%d" % None] raises
    [TypeError] inside the handler, and nothing is parsed. *)
Lemma corrupt_cache_without_id_raises (s s1 s2 : state) :
  ensure_cache s = (Ok tt, s1) →
  read_cache s1 = (Err EOFError, s2) →
  dataset_id (self s1) = None →
  _load_data s = (Err TypeError, s2).
Proof.
  intros Hensure Hread Hid.
  destruct (read_only_read_cache s1) as [Hself _]. rewrite Hread in Hself. simpl in Hself.
  unfold _load_data. rewrite (bind_Ok _ _ _ _ _ Hensure).
  unfold try_except. rewrite Hread. run. rewrite Hself, Hid. reflexivity.
Qed.

(** The check of a nominal attribute under sparse ARFF rejects nothing: the
    pass over a nominal attribute always succeeds, whatever its labels. *)
Lemma nominal_attribute_never_rejected (format : string) (acc : header_info)
    (name : string) (labels : list string) :
  is_Ok (infer_attribute format acc (name, Nominal labels)) = true.
Proof. unfold infer_attribute. repeat case_decide; done. Qed.

End properties.

(** C5 on the sparse example, requested format feather. *)
Lemma sparse_forces_pickle_witness :
  _create_pickle_in_cache (env := offline) "s.arff" ex_sparse_state
  = (Ok ("s.pkl.py3", "s.feather"),
     {| self := with_cache_format "pickle" ex_sparse_dataset;
        disk := <["s.pkl.py3" := PickleFile (Triple (Sparse ex_sparse_matrix)
                                               [false; true] ["x"; "c"])]>
                  (disk ex_sparse_state);
        events := [ArffDecoded "s.arff";
                   Logged INFO "pickle write" [];
                   FileWritten "s.pkl.py3";
                   Logged DEBUG "Saved dataset {did}: {name} to file {path}"
                     [ArgInt 7; ArgStr "sparse"; ArgStr "s.pkl.py3"]] |}).
Proof.
  apply (sparse_forces_pickle (env := offline) "s.arff" ex_sparse_state ex_sparse_state
           {| self := ex_sparse_dataset; disk := disk ex_sparse_state;
              events := [ArffDecoded "s.arff"] |}
           ex_sparse_matrix [false; true] ["x"; "c"]).
  - reflexivity.
  - reflexivity.
Defined.

(** C1, against the code: the dataset has a feather cache whose two files
    are both readable, and [_create_pickle_in_cache] still decodes the raw
    file and writes both cache files again.  The feather branch has a [return]
    for the corrupt case only; the pickle branch returns on a valid cache. *)
Theorem valid_feather_cache_is_rebuilt :
  ∃ s', _create_pickle_in_cache (env := offline) "iris.arff" ex_cached_state
        = (Ok ("iris.pkl.py3", "iris.feather"), s')
      ∧ events s'
        = [ArffDecoded "iris.arff";
           Logged INFO "feather write" [];
           FileWritten "iris.feather";
           FileWritten "iris.pkl.py3";
           Logged DEBUG "Saved dataset {did}: {name} to file {path}"
             [ArgInt 61; ArgStr "iris"; ArgStr "iris.pkl.py3"]].
Proof. eexists. split; reflexivity. Qed.

(** The same cache under the pickle format ends the call at once. *)
Lemma valid_pickle_cache_is_kept :
  let s := {| self := with_cache_format "pickle" ex_dataset;
              disk := {[ "iris.arff" := ex_arff;
                         "iris.pkl.py3" :=
                           PickleFile (Triple (Frame ex_frame) ex_categorical ex_names) ]};
              events := [] |} in
  ∃ s', _create_pickle_in_cache (env := offline) "iris.arff" s
        = (Ok ("iris.pkl.py3", "iris.feather"), s')
      ∧ events s' = [Logged DEBUG "Data pickle file already exists and is up to date." []]
      ∧ disk s' = disk s.
Proof. eexists. split; [reflexivity |]. split; reflexivity. Qed.

(** C2, against the code: the metadata file of the cache is empty and the
    dataset has no id.  The read raises [EOFError], and formatting the warning
    with ["%d" % None] raises [TypeError] in the handler: the call is fatal and
    the raw file is never parsed. *)
Theorem corrupt_cache_without_id_is_fatal :
  _load_data (env := offline) ex_corrupt_state
  = (Err TypeError,
     {| self := ex_unpublished; disk := disk ex_corrupt_state;
        events := [Logged INFO "feather load data" []] |}).
Proof. reflexivity. Qed.

(** With an id the same corrupt cache is recovered from: the data of the raw
    file is returned, the warning is logged, the files are as they were. *)
Lemma corrupt_cache_with_id_recovers :
  ∃ s', _load_data (env := offline) ex_corrupt_published_state
        = (Ok (Frame ex_frame, ex_categorical, ex_names), s')
      ∧ events s'
        = [Logged INFO "feather load data" [];
           Logged WARNING corrupt_cache_warning [ArgInt 61; ArgStr "iris.pkl.py3"];
           ArffDecoded "iris.arff"]
      ∧ disk s' = disk ex_corrupt_published_state
      ∧ (_parse_data_from_arff (env := offline) (Some "iris.arff") ex_state).1
        = Ok (Frame ex_frame, ex_categorical, ex_names).
Proof. eexists. repeat split; reflexivity. Qed.

(** C6, against the code: the format is sparse ARFF and the column [c] has the
    labels "a" and "b".  [pd.factorize] encodes them without complaint, the
    [ValueError] is never raised, and the parse returns the sparse matrix. *)
Theorem sparse_non_numeric_categories_accepted :
  (_parse_data_from_arff (env := offline) (Some "s.arff") ex_sparse_state).1
  = Ok (Sparse ex_sparse_matrix, [false; true], ["x"; "c"]).
Proof. reflexivity. Qed.

(** A string column under the same format is rejected, as the sibling check
    intends. *)
Lemma sparse_string_column_rejected :
  infer_attribute "sparse_arff" empty_header ("s", Primitive "STRING")
  = Err (ValueError "Dataset containing strings is not supported with sparse ARFF.").
Proof. reflexivity. Qed.

(** ** Dataset Accessor *)

Section accessor.
Context `{env : Environment}.

Lemma mask_filter_bool_decide {A} (P : A → Prop) `{∀ x, Decision (P x)} (l : list A) :
  mask_filter ((λ x, bool_decide (P x)) <$> l) l = filter P l.
Proof.
  induction l as [| a l IH]; [done |].
  rewrite fmap_cons, filter_cons. cbn [mask_filter]. rewrite IH.
  destruct (decide (P a)).
  - by rewrite bool_decide_eq_true_2.
  - by rewrite bool_decide_eq_false_2.
Qed.

Lemma count_true_bool_decide {A} (P : A → Prop) `{∀ x, Decision (P x)} (l : list A) :
  count_true ((λ x, bool_decide (P x)) <$> l) = length (filter P l).
Proof.
  unfold count_true. induction l as [| a l IH]; [done |].
  rewrite fmap_cons, !filter_cons. destruct (decide (P a)).
  - rewrite bool_decide_eq_true_2 by done. rewrite decide_True by done.
    cbn [length]. by rewrite IH.
  - rewrite bool_decide_eq_false_2 by done. rewrite decide_False by done. done.
Qed.

Lemma length_mask_filter {A} (mask : list bool) (l : list A) :
  length mask = length l → length (mask_filter mask l) = count_true mask.
Proof.
  unfold count_true. revert l. induction mask as [| k mask IH]; intros [| a l] Hlen;
    simpl in *; try done.
  rewrite filter_cons. destruct k.
  - rewrite decide_True by done. cbn [length]. f_equal. apply IH. lia.
  - rewrite decide_False by done. apply IH. lia.
Qed.

(** With one mask entry per column the selection succeeds and leaves the
    columns whose entry is [True]. *)
Lemma select_columns_ok (data : pydata) (keep : list bool) :
  width data = Some (length keep) →
  ∃ data', select_columns data keep = Ok data'
         ∧ width data' = Some (count_true keep)
         ∧ (∀ df, data = Frame df → data' = Frame (mask_filter keep df))
         ∧ (∀ m, data = Sparse m →
                 data' = Sparse {| sp_nrows := sp_nrows m;
                                   sp_cols := mask_filter keep (sp_cols m) |}).
Proof.
  unfold select_columns. destruct data as [df | m | a]; simpl.
  - intros [= Hw]. rewrite decide_True by done. eexists. split; [done |].
    simpl. rewrite length_mask_filter by done. split; [done |].
    split; [by intros ? [= <-] | done].
  - intros [= Hw]. rewrite decide_True by done. eexists. split; [done |].
    simpl. rewrite length_mask_filter by done. split; [done |].
    split; [done | by intros ? [= <-]].
  - destruct (nd_shape a) as [| r [| c [| ? ?]]]; try done.
    intros [= ->]. rewrite decide_True by done. eexists. split; [done |].
    simpl. done.
Qed.

Lemma filter_not_elem_of_nil (l : list string) : filter (λ x, x ∉ []) l = l.
Proof.
  induction l as [| a l IH]; [done |].
  rewrite filter_cons, decide_True by apply not_elem_of_nil. by rewrite IH.
Qed.

Lemma excluded_attributes_eq (this : OpenMLDataset) (include_row_id include_ignore_attribute : bool) :
  (match row_id_attribute this with
   | Some a => if negb include_row_id then attribute_list a else []
   | None => []
   end) ++
  (match ignore_attribute this with
   | Some a => if negb include_ignore_attribute then attribute_list a else []
   | None => []
   end)
  = excluded_attributes this include_row_id include_ignore_attribute.
Proof. unfold excluded_attributes. by destruct include_row_id, include_ignore_attribute. Qed.

(** What lines 614-638 do to a loaded triple whose table has one column per
    attribute name. *)
Lemma exclude_columns_spec (include_row_id include_ignore_attribute : bool)
    (data : pydata) (categorical : list bool) (attribute_names : list string) (s : state) :
  width data = Some (length attribute_names) →
  let to_exclude := excluded_attributes (self s) include_row_id include_ignore_attribute in
  let keep := (λ column, bool_decide (column ∉ to_exclude)) <$> attribute_names in
  ∃ data' categorical' s',
    exclude_columns include_row_id include_ignore_attribute
      (data, categorical, attribute_names) s
    = (Ok (data', categorical', filter (λ column, column ∉ to_exclude) attribute_names), s')
    ∧ self s' = self s ∧ disk s' = disk s
    ∧ (to_exclude ≠ [] →
         categorical' = mask_filter keep categorical
         ∧ select_columns data keep = Ok data'
         ∧ width data' = Some (count_true keep)).
Proof.
  intros Hw to_exclude keep. unfold exclude_columns. run.
  rewrite excluded_attributes_eq. fold to_exclude.
  destruct (decide (0 < length to_exclude)%nat) as [Hlen | Hlen].
  - destruct (select_columns_ok data keep) as (data' & Hsel & Hw' & _).
    { unfold keep. by rewrite length_fmap. }
    fold keep. unfold select_columns in Hsel. rewrite Hsel. simpl.
    unfold keep at 2. rewrite (mask_filter_bool_decide (λ column, column ∉ to_exclude)).
    eexists _, _, _. split; [reflexivity |]. simpl. done.
  - assert (to_exclude = []) as ->. { destruct to_exclude; simpl in *; [done | lia]. }
    rewrite filter_not_elem_of_nil. eexists _, _, _. done.
Qed.

Lemma load_data_attributes (s s1 : state) (loaded : result (pydata * list bool * list string)) :
  _load_data s = (loaded, s1) → same_attributes s s1.
Proof. intros Hload. pose proof (same_attributes_load_data s) as Hs. by rewrite Hload in Hs. Qed.

Lemma excluded_attributes_same (s s1 : state) (include_row_id include_ignore_attribute : bool) :
  same_attributes s s1 →
  excluded_attributes (self s1) include_row_id include_ignore_attribute
  = excluded_attributes (self s) include_row_id include_ignore_attribute.
Proof. intros [Hrow Hign]. unfold excluded_attributes. by rewrite Hrow, Hign. Qed.

Lemma get_data_steps (target : option target_spec) (include_row_id include_ignore_attribute : bool)
    (dataset_format : string) (s s1 s2 : state)
    (loaded kept : pydata * list bool * list string) :
  _load_data s = (Ok loaded, s1) →
  exclude_columns include_row_id include_ignore_attribute loaded s1 = (Ok kept, s2) →
  get_data target include_row_id include_ignore_attribute dataset_format s
  = split_target target dataset_format kept s2.
Proof.
  intros Hload Hexcl. unfold get_data.
  rewrite (bind_Ok _ _ _ _ _ Hload). by rewrite (bind_Ok _ _ _ _ _ Hexcl).
Qed.

(** The exclusion that C7 describes, on a loaded table that has one column
    per attribute name: a call without target in the default format drops the
    excluded columns from the table, the categorical mask and the attribute
    names with one and the same mask, so the remaining columns keep their
    order.  By default the exclusion set is the row-id attribute (a name, or
    the names of a list) and the ignore attributes; with [include_row_id] it
    is the ignore attributes alone, so every other column, the row-id column
    among them, is retained. *)
Lemma exclusion_in_lockstep (include_row_id : bool) (s s1 : state)
    (data : pydata) (categorical : list bool) (attribute_names : list string)
    (row_id ignore : attribute_spec) :
  _load_data s = (Ok (data, categorical, attribute_names), s1) →
  attribute_names ≠ [] →
  width data = Some (length attribute_names) →
  row_id_attribute (self s) = Some row_id →
  ignore_attribute (self s) = Some ignore →
  let row_id_names :=
    match row_id with AttrStr column => [column] | AttrList columns => columns end in
  let ignore_names :=
    match ignore with AttrStr column => [column] | AttrList columns => columns end in
  ignore_names ≠ [] →
  let to_exclude := (if include_row_id then [] else row_id_names) ++ ignore_names in
  let keep := (λ column, bool_decide (column ∉ to_exclude)) <$> attribute_names in
  let remaining := filter (λ column, column ∉ to_exclude) attribute_names in
  ∃ data' s2,
    get_data None include_row_id false "dataframe" s
    = (Ok (match data' with
           | Sparse m => SparseFrame m remaining
           | _ => Data data'
           end,
           None, mask_filter keep categorical, remaining), s2)
    ∧ select_columns data keep = Ok data'
    ∧ (∀ df, data = Frame df → data' = Frame (mask_filter keep df))
    ∧ (∀ m, data = Sparse m →
            data' = Sparse {| sp_nrows := sp_nrows m;
                              sp_cols := mask_filter keep (sp_cols m) |})
    ∧ remaining = mask_filter keep attribute_names
    ∧ remaining `sublist_of` attribute_names
    ∧ (∀ column, column ∈ ignore_names → column ∉ remaining)
    ∧ (include_row_id = false →
       ∀ column, column ∈ row_id_names → column ∉ remaining)
    ∧ (include_row_id = true →
       ∀ column, column ∈ attribute_names → column ∉ ignore_names →
                 column ∈ remaining).
Proof.
  intros Hload _ Hw Hrow Hign row_id_names ignore_names Hne to_exclude keep remaining.
  destruct (exclude_columns_spec include_row_id false data categorical attribute_names s1 Hw)
    as (data' & categorical' & s2 & Hexcl & _ & _ & Hspec).
  assert (Hto : excluded_attributes (self s1) include_row_id false = to_exclude).
  { rewrite (excluded_attributes_same s s1) by (by eapply load_data_attributes).
    unfold excluded_attributes. rewrite Hrow, Hign.
    unfold to_exclude, row_id_names, ignore_names. by destruct row_id, ignore. }
  rewrite Hto in Hexcl, Hspec. fold keep in Hspec. fold remaining in Hexcl.
  destruct Hspec as (-> & Hsel & Hw').
  { unfold to_exclude. intros [_ Hnil]%app_eq_nil. done. }
  destruct (select_columns_ok data keep) as (data'' & Hsel' & _ & Hframe & Hsparse).
  { unfold keep. by rewrite length_fmap. }
  rewrite Hsel in Hsel'. injection Hsel' as <-.
  assert (Hlen : length remaining = count_true keep).
  { unfold remaining, keep.
    by rewrite (count_true_bool_decide (λ column, column ∉ to_exclude)). }
  exists data', s2. split.
  { rewrite (get_data_steps _ _ _ _ _ _ _ _ _ Hload Hexcl).
    unfold split_target, _convert_array_format. run.
    destruct data' as [df | m | a]; simpl; try done.
    simpl in Hw'. rewrite decide_True; [done |]. rewrite Hlen. by injection Hw'. }
  split; [done |]. split; [done |]. split; [done |].
  split. { unfold remaining, keep.
           by rewrite (mask_filter_bool_decide (λ column, column ∉ to_exclude)). }
  split. { apply sublist_filter. }
  split. { intros column Hin [Hnot _]%list_elem_of_filter. apply Hnot.
           unfold to_exclude. apply elem_of_app. by right. }
  split.
  - intros -> column Hin [Hnot _]%list_elem_of_filter. apply Hnot.
    unfold to_exclude. apply elem_of_app. by left.
  - intros -> column Hin Hnot. apply list_elem_of_filter. split; [| done].
    unfold to_exclude. simpl. done.
Qed.

Lemma exclude_columns_nothing (include_row_id include_ignore_attribute : bool)
    (loaded : pydata * list bool * list string) (s : state) :
  excluded_attributes (self s) include_row_id include_ignore_attribute = [] →
  exclude_columns include_row_id include_ignore_attribute loaded s = (Ok loaded, s).
Proof.
  intros Hnone. destruct loaded as [[data categorical] attribute_names].
  unfold exclude_columns. run. rewrite excluded_attributes_eq, Hnone. reflexivity.
Qed.

(** The rejection that C8 describes, on a loaded table that has one column
    per attribute name, or in a call that excludes nothing: when the names
    given as target match more than one of the columns that remain after the
    exclusion, the call raises [NotImplementedError] and the message carries
    the number of matched columns. *)
Lemma multiple_targets_rejected (target : target_spec)
    (include_row_id include_ignore_attribute : bool) (dataset_format : string)
    (s s1 : state) (data : pydata) (categorical : list bool) (attribute_names : list string) :
  _load_data s = (Ok (data, categorical, attribute_names), s1) →
  let to_exclude := excluded_attributes (self s) include_row_id include_ignore_attribute in
  width data = Some (length attribute_names) ∨ to_exclude = [] →
  let remaining := filter (λ column, column ∉ to_exclude) attribute_names in
  let matched := length (filter (λ column, column ∈ target_names target) remaining) in
  (1 < matched)%nat →
  ∃ s2,
    get_data (Some target) include_row_id include_ignore_attribute dataset_format s
    = (Err (NotImplementedError
              ("Number of requested targets " +:+ pretty matched +:+ " is not implemented.")),
       s2).
Proof.
  intros Hload to_exclude Hshape remaining matched Hmany.
  assert (Hexcl : ∃ data' categorical' s2,
            exclude_columns include_row_id include_ignore_attribute
              (data, categorical, attribute_names) s1
            = (Ok (data', categorical', remaining), s2)).
  { destruct Hshape as [Hw | Hnone].
    - destruct (exclude_columns_spec include_row_id include_ignore_attribute
                  data categorical attribute_names s1 Hw)
        as (data' & categorical' & s2 & Hexcl & _).
      rewrite (excluded_attributes_same s s1) in Hexcl by (by eapply load_data_attributes).
      eauto.
    - exists data, categorical, s1. rewrite exclude_columns_nothing.
      + unfold remaining. by rewrite Hnone, filter_not_elem_of_nil.
      + by rewrite (excluded_attributes_same s s1) by (by eapply load_data_attributes). }
  destruct Hexcl as (data' & categorical' & s2 & Hexcl).
  exists s2. rewrite (get_data_steps _ _ _ _ _ _ _ _ _ Hload Hexcl).
  unfold split_target. fold (target_names target).
  rewrite (count_true_bool_decide (λ column, column ∈ target_names target)).
  fold matched. rewrite decide_True by done. reflexivity.
Qed.

(** C10: when the names given as target match none of the columns that remain
    after the exclusion, [target_categorical] is empty and
    [target_categorical[0]] raises [IndexError]. *)
Theorem no_target_raises_IndexError (target : target_spec)
    (include_row_id include_ignore_attribute : bool) (dataset_format : string)
    (s s1 : state) (data : pydata) (categorical : list bool) (attribute_names : list string) :
  _load_data s = (Ok (data, categorical, attribute_names), s1) →
  attribute_names ≠ [] →
  width data = Some (length attribute_names) →
  let to_exclude := excluded_attributes (self s) include_row_id include_ignore_attribute in
  let remaining := filter (λ column, column ∉ to_exclude) attribute_names in
  filter (λ column, column ∈ target_names target) remaining = [] →
  ∃ s2,
    get_data (Some target) include_row_id include_ignore_attribute dataset_format s
    = (Err IndexError, s2).
Proof.
  intros Hload _ Hw to_exclude remaining Hnone.
  destruct (exclude_columns_spec include_row_id include_ignore_attribute
              data categorical attribute_names s1 Hw)
    as (data' & categorical' & s2 & Hexcl & _).
  rewrite (excluded_attributes_same s s1) in Hexcl by (by eapply load_data_attributes).
  fold to_exclude in Hexcl. fold remaining in Hexcl.
  exists s2. rewrite (get_data_steps _ _ _ _ _ _ _ _ _ Hload Hexcl).
  unfold split_target. fold (target_names target).
  rewrite (count_true_bool_decide (λ column, column ∈ target_names target)).
  rewrite Hnone. rewrite decide_False by (simpl; lia).
  assert (Hcat : filter (λ p : bool * string, p.2 ∈ target_names target)
                   (zip categorical' remaining) = []).
  { apply elem_of_nil_inv. intros [c column] [Hin Hzip]%list_elem_of_filter.
    apply elem_of_zip_r in Hzip. simpl in Hin.
    by apply (filter_nil_not_elem_of _ _ column Hnone). }
  rewrite Hcat. reflexivity.
Qed.







End accessor.

(** The exclusion on the example: with [include_row_id] the column "id" stays and the
    ignore attribute "foo" goes. *)
Lemma exclusion_in_lockstep_witness :
  ∃ s2,
    get_data (env := offline) None true false "dataframe" ex_state
    = (Ok (Data (Frame (mask_filter [true; false; true; true; true] ex_frame)),
           None, [false; false; true; true], ["id"; "width"; "flag"; "class"]), s2).
Proof.
  destruct (exclusion_in_lockstep (env := offline) true ex_state
              (_load_data (env := offline) ex_state).2
              (Frame ex_frame) ex_categorical ex_names (AttrStr "id") (AttrList ["foo"]))
    as (data' & s2 & Hget & _ & Hframe & _).
  - reflexivity.
  - discriminate.
  - reflexivity.
  - reflexivity.
  - reflexivity.
  - discriminate.
  - exists s2. rewrite Hget, (Hframe ex_frame eq_refl). reflexivity.
Defined.

(** The rejection on the example: two target names, both present. *)
Lemma multiple_targets_rejected_witness :
  ∃ s2,
    get_data (env := offline) (Some (TargetStr "class,width")) false false "array" ex_state
    = (Err (NotImplementedError "Number of requested targets 2 is not implemented."), s2).
Proof.
  apply (multiple_targets_rejected (env := offline) (TargetStr "class,width") false false "array"
           ex_state (_load_data (env := offline) ex_state).2
           (Frame ex_frame) ex_categorical ex_names).
  - reflexivity.
  - left. reflexivity.
  - vm_compute. lia.
Defined.

(** C10 on the example: the target "foo" is an ignore attribute, so it is
    gone when the targets are matched. *)
Lemma no_target_raises_IndexError_witness :
  ∃ s2,
    get_data (env := offline) (Some (TargetStr "foo")) false false "dataframe" ex_state
    = (Err IndexError, s2).
Proof.
  apply (no_target_raises_IndexError (env := offline) (TargetStr "foo") false false "dataframe"
           ex_state (_load_data (env := offline) ex_state).2
           (Frame ex_frame) ex_categorical ex_names).
  - reflexivity.
  - discriminate.
  - reflexivity.
  - reflexivity.
Defined.

(** The exclusion on the example with the default flags: "id" and "foo" both
    go. *)
Lemma exclusion_in_lockstep_default :
  ∃ s2,
    get_data (env := offline) None false false "dataframe" ex_state
    = (Ok (Data (Frame (mask_filter [false; false; true; true; true] ex_frame)),
           None, [false; true; true], ["width"; "flag"; "class"]), s2).
Proof.
  destruct (exclusion_in_lockstep (env := offline) false ex_state
              (_load_data (env := offline) ex_state).2
              (Frame ex_frame) ex_categorical ex_names (AttrStr "id") (AttrList ["foo"]))
    as (data' & s2 & Hget & _ & Hframe & _).
  - reflexivity.
  - discriminate.
  - reflexivity.
  - reflexivity.
  - reflexivity.
  - discriminate.
  - exists s2. rewrite Hget, (Hframe ex_frame eq_refl). reflexivity.
Defined.

(** C7, against the code: the sparse file declares four attributes and stores
    entries in the columns 0 and 2 only, so the parse makes a matrix of three
    columns (its width is the largest stored column index plus one) beside
    four attribute names.  The mask of the exclusion has one entry per name;
    with it the column selection raises [IndexError], for the default flags
    and with [include_row_id] alike, and nothing is returned. *)
Theorem narrow_sparse_table_breaks_exclusion :
  (_load_data (env := offline) ex_narrow_state).1
  = Ok (Sparse ex_narrow_matrix, [false; false; false; false], ["id"; "foo"; "w"; "c"])
  ∧ width (Sparse ex_narrow_matrix) = Some 3%nat
  ∧ (get_data (env := offline) None false false "dataframe" ex_narrow_state).1
    = Err IndexError
  ∧ (get_data (env := offline) None true false "dataframe" ex_narrow_state).1
    = Err IndexError.
Proof. repeat split; reflexivity. Qed.




(** ** Parser and decoder: further properties *)

Section parser_properties.
Context `{env : Environment}.

Lemma result_map_Forall2 {A B} (f : A → result B) (l : list A) (l' : list B) :
  result_map f l = Ok l' → Forall2 (λ a b, f a = Ok b) l l'.
Proof.
  revert l'. induction l as [| a l IH]; intros l'; simpl.
  - intros [= <-]. constructor.
  - destruct (f a) as [b |] eqn:Hb; simpl; [| done].
    destruct (result_map f l) as [bs |]; simpl; [| done].
    intros [= <-]. constructor; [done | by apply IH].
Qed.

Lemma get_arff_NoDup (fmt : string) (s s' : state) (data : arff_dict) :
  _get_arff fmt s = (Ok data, s') → NoDup (attributes data).*1.
Proof.
  unfold _get_arff, os_path_getsize, gzip_open, io_open, decode_arff, arff_decode.
  unfold_monad.
  repeat (case_decide || case_match); intros; simplify_eq; simpl; try done;
    unfold result_bind, rbind in *; repeat case_match; simplify_eq; done.
Qed.

Lemma frame_getitem_Ok (X : list Series) (column_name : string) (series : Series) :
  frame_getitem X column_name = Ok series → series ∈ X ∧ s_name series = column_name.
Proof.
  induction X as [| c X IH]; simpl; [done |].
  case_decide.
  - intros [= <-]. split; [left | done].
  - intros [Hin Hn]%IH. split; [by right | done].
Qed.

Lemma unpack_loop_length (xs : list pyval) (categories : list label) (col : list (option label)) :
  unpack_loop xs categories = Ok col → length col = length xs.
Proof.
  revert col. induction xs as [| x xs IH]; intros col; simpl.
  - by intros [= <-].
  - unfold mbind, result_bind, rbind.
    destruct (unpack_loop xs categories) as [col' |]; repeat case_match; intros; simplify_eq;
      simpl; f_equal; by apply IH.
Qed.

Lemma unpack_categories_Ok (series out : Series) (categories : list label) :
  _unpack_categories series categories = Ok out →
  s_name out = s_name series ∧ column_length out = length (series_iter series).
Proof.
  unfold _unpack_categories, pd_Categorical.
  destruct (unpack_loop _ _) as [col |] eqn:Hcol; simpl; [| done].
  case_decide; simpl; [| done].
  intros [= <-]. simpl. split; [done |].
  unfold column_length. simpl. rewrite length_map. by apply (unpack_loop_length _ categories).
Qed.

Lemma Forall2_fmap_eq {A B} (f : B → A) (l : list A) (k : list B) :
  Forall2 (λ a b, f b = a) l k → f <$> k = l.
Proof. induction 1 as [| a b l k Hab _ IH]; [done |]. rewrite fmap_cons. by f_equal. Qed.

Lemma Forall2_right {A B} (P : B → Prop) (l : list A) (k : list B) :
  Forall2 (λ _ b, P b) l k → Forall P k.
Proof. induction 1; constructor; done. Qed.

(** X1: the table that the parse of a dense file returns is well formed: one
    column per attribute of the header, named after it and in its order, the
    names pairwise distinct, one entry of the categorical mask per column,
    and all columns of the same length. *)
Theorem dense_parse_well_formed (arff_file_path : option string) (s s' : state)
    (df : list Series) (mask : list bool) (names : list string) :
  _parse_data_from_arff arff_file_path s = (Ok (Frame df, mask, names), s') →
  s_name <$> df = names
  ∧ NoDup names
  ∧ names ≠ []
  ∧ length mask = length names
  ∧ width (Frame df) = Some (length names)
  ∧ Forall (λ column, column_length column = frame_nrows df) df.
Proof.
  unfold _parse_data_from_arff. unfold_monad.
  destruct (_get_arff (format (self s)) s) as [[data | e] s1] eqn:Harff; cbn beta iota.
  2: { destruct (is_OSError e); cbn beta iota; intros; simplify_eq. }
  destruct (infer_attributes _ _ _) as [h | e] eqn:Hinfer; cbn beta iota; [| done].
  destruct (infer_attributes_spec _ _ _ _ Hinfer) as (Hc & Hn & _). simpl in Hc, Hn.
  pose proof (get_arff_NoDup _ _ _ _ Harff) as Hnd.
  case_decide.
  { destruct (arff_rows data); [done |].
    destruct (coo_to_csr _ _ _); cbn; intros; simplify_eq. }
  case_decide; [| done].
  destruct (arff_rows data) as [rows | ? ? ?]; [| done].
  unfold pd_DataFrame. destruct (forallb _ rows); cbn beta iota; [| done].
  set (X := imap _ (attribute_names h)).
  destruct (result_map _ (s_name <$> X)) as [col |] eqn:Hcol; cbn beta iota; [| done].
  destruct col as [| c col]; [done |]. cbn.
  intros [= <- <- <- <-].
  assert (HX : ∀ series, series ∈ X →
                 length (series_iter series) = length rows
                 ∧ column_length series = length rows).
  { intros series (i & column_name & -> & _)%elem_of_lookup_imap.
    unfold series_iter, column_length. simpl. by rewrite length_fmap. }
  assert (HXn : s_name <$> X = attribute_names h).
  { apply list_eq. intros i. unfold X. rewrite list_lookup_fmap, list_lookup_imap.
    by destruct (attribute_names h !! i). }
  apply result_map_Forall2 in Hcol.
  assert (Hcols : Forall2 (λ column_name column,
                             s_name column = column_name
                             ∧ column_length column = length rows)
                    (s_name <$> X) (c :: col)).
  { eapply Forall2_impl; [exact Hcol |]. intros column_name column. simpl.
    unfold mbind, result_bind, rbind, dict_getitem.
    destruct (attribute_dtype h !! column_name) as [dtype |]; [| done].
    case_decide.
    - destruct (frame_getitem X column_name) as [series |] eqn:Hget; [| done].
      destruct (categories_names h !! column_name) as [categories |]; [| done].
      intros [Hname Hlen]%unpack_categories_Ok.
      apply frame_getitem_Ok in Hget as [Hin <-].
      split; [done |]. rewrite Hlen. by apply HX.
    - intros [Hin <-]%frame_getitem_Ok. split; [done |]. by apply HX. }
  assert (Hnames : s_name <$> (c :: col) = attribute_names h).
  { rewrite <- HXn. apply Forall2_fmap_eq.
    eapply Forall2_impl; [exact Hcols |]. by intros ? ? [? ?]. }
  split; [done |].
  split; [by rewrite Hn |].
  split. { rewrite <- Hnames. done. }
  split. { rewrite Hc, Hn, !length_fmap. done. }
  split. { simpl. rewrite <- Hnames. by rewrite length_fmap. }
  assert (Hall : Forall (λ column, column_length column = length rows) (c :: col)).
  { eapply (Forall2_right _ (s_name <$> X)).
    eapply Forall2_impl; [exact Hcols |]. by intros ? ? [? ?]. }
  simpl. rewrite (Forall_inv Hall). exact Hall.
Qed.

End parser_properties.

(** X1 on the example file. *)
Lemma dense_parse_well_formed_witness :
  s_name <$> ex_frame = ex_names
  ∧ NoDup ex_names
  ∧ ex_names ≠ []
  ∧ length ex_categorical = length ex_names
  ∧ width (np := exact_numpy) (Frame ex_frame) = Some (length ex_names)
  ∧ Forall (λ column, column_length column = frame_nrows ex_frame) ex_frame.
Proof.
  apply (dense_parse_well_formed (env := offline) (Some "iris.arff") ex_state
           (_parse_data_from_arff (env := offline) (Some "iris.arff") ex_state).2
           ex_frame ex_categorical ex_names).
  reflexivity.
Defined.

Section decoder_properties.
Context `{env : Environment}.

(** X2: a categorical column goes through the unpacker and the array
    conversion unharmed. *)
Theorem categorical_codes_roundtrip (series : Series) (categories : list label) :
  NoDup categories →
  Forall (code_or_missing categories) (series_iter series) →
  ∃ column,
    _unpack_categories series categories = Ok column
    ∧ s_name column = s_name series
    ∧ _encode_if_category column
      = Ok ((λ x, match py_int x with
                  | Ok z => np_float32_of_code z
                  | Err _ => np_nan
                  end) <$> series_iter series).
Proof.
  intros Hnd Hxs. unfold _unpack_categories.
  rewrite (unpack_loop_ok (series_iter series) categories).
  2: { eapply Forall_impl; [exact Hxs |]. intros x.
       unfold code_or_missing, maps_or_missing.
       destruct (py_int x) as [z | e]; [lia | done]. }
  simpl. unfold pd_Categorical. rewrite decide_True by done. simpl.
  eexists. split; [reflexivity |]. split; [done |].
  unfold _encode_if_category. simpl. f_equal.
  rewrite <- !list_fmap_compose. apply Forall_fmap_ext.
  eapply Forall_impl; [exact Hxs |]. intros x Hx. simpl.
  unfold unpacked_value, code_or_missing in *.
  destruct (py_int x) as [z | e].
  - unfold py_index. rewrite !(decide_True (P := 0 ≤ z)) by lia.
    destruct (lookup_lt_is_Some_2 categories (Z.to_nat z)) as [l Hl]; [lia |].
    rewrite Hl, (index_of_lookup _ _ _ 0 Hnd Hl), decide_False by lia.
    f_equal. lia.
  - by rewrite decide_True.
Qed.


Lemma parse_after_get_arff (arff_file_path : option string) (s s1 : state) (data : arff_dict)
    (e : exn) :
  _get_arff (format (self s)) s = (Ok data, s1) →
  infer_attributes (format (self s)) empty_header (attributes data) = Err e →
  _parse_data_from_arff arff_file_path s = (Err e, s1).
Proof.
  intros Harff Hinfer. unfold _parse_data_from_arff. unfold_monad.
  by rewrite Harff, Hinfer.
Qed.


Lemma read_only_existing_cache_returns (data_pickle_file data_feather_file : string) :
  respects unchanged (existing_cache_returns data_pickle_file data_feather_file).
Proof.
  unfold existing_cache_returns.
  repeat first [apply read_only_feather_read_feather | apply respects_unchanged_logger
               | respects_step].
Qed.

(** X4: under the sparse format a STRING attribute is refused before anything
    is cached: [_create_pickle_in_cache] raises [ValueError] and leaves every
    file and the object as they were. *)
Theorem sparse_string_attribute_is_refused (data_file : string) (s s0 s1 : state)
    (data : arff_dict) (pre post : list (string * arff_type)) (acc : header_info)
    (column_name : string) :
  existing_cache_returns (replace ".arff" ".pkl.py3" data_file)
    (replace ".arff" ".feather" data_file) s = (Ok false, s0) →
  lower (format (self s0)) = "sparse_arff" →
  _get_arff (format (self s0)) s0 = (Ok data, s1) →
  attributes data = pre ++ (column_name, Primitive "STRING") :: post →
  infer_attributes (format (self s0)) empty_header pre = Ok acc →
  _create_pickle_in_cache data_file s
  = (Err (ValueError "Dataset containing strings is not supported with sparse ARFF."), s1)
  ∧ disk s1 = disk s ∧ self s1 = self s.
Proof.
  intros Hcheck Hfmt Harff Hattrs Hpre.
  assert (Hparse : _parse_data_from_arff (Some data_file) s0
                   = (Err (ValueError
                             "Dataset containing strings is not supported with sparse ARFF."),
                      s1)).
  { apply (parse_after_get_arff _ _ _ data); [done |].
    rewrite Hattrs, infer_attributes_app, Hpre. simpl.
    unfold infer_attribute. by rewrite decide_True. }
  split.
  - unfold _create_pickle_in_cache. rewrite (bind_Ok _ _ _ _ _ Hcheck).
    unfold mbind, M_bind, bind. by rewrite Hparse.
  - pose proof (read_only_existing_cache_returns
                  (replace ".arff" ".pkl.py3" data_file)
                  (replace ".arff" ".feather" data_file) s) as [Hself Hdisk].
    rewrite Hcheck in Hself, Hdisk. simpl in Hself, Hdisk.
    pose proof (read_only_get_arff (format (self s0)) s0) as [Hself' Hdisk'].
    rewrite Harff in Hself', Hdisk'. simpl in Hself', Hdisk'.
    split; congruence.
Qed.

(** X5: on a system that is not a 64-bit one a raw file of more than
    120000000 bytes is refused before it is opened for decoding. *)
Theorem large_file_is_refused (arff_file_path : option string) (s : state)
    (filename : string) (fh : file) :
  bits ≠ 64 →
  data_file (self s) = Some filename →
  disk s !! filename = Some fh →
  120000000 < getsize fh →
  _parse_data_from_arff arff_file_path s
  = (Err (NotImplementedError
            ("File " +:+ filename +:+ " too big for " +:+ pretty (getsize fh)
             +:+ "-bit system (" +:+ pretty bits +:+ " bytes).")),
     s).
Proof.
  intros Hbits Hfile Hdisk Hsize.
  unfold _parse_data_from_arff, _get_arff, os_path_getsize. unfold_monad.
  rewrite Hfile, decide_True by done. rewrite Hdisk, decide_True by done.
  reflexivity.
Qed.

End decoder_properties.

(** X2 on a column with codes and a missing marker. *)
Lemma categorical_codes_roundtrip_witness :
  ∃ column,
    _unpack_categories {| s_name := "class"; s_body := Plain [VInt 1; VNone; VInt 0] |}
      [LStr "a"; LStr "b"] = Ok column
    ∧ s_name column = "class"
    ∧ _encode_if_category (np := exact_numpy) column
      = Ok [Some (inject_Z 1); None; Some (inject_Z 0)].
Proof.
  apply (categorical_codes_roundtrip (np := exact_numpy)
           {| s_name := "class"; s_body := Plain [VInt 1; VNone; VInt 0] |}
           [LStr "a"; LStr "b"]).
  - apply (bool_decide_unpack (NoDup [LStr "a"; LStr "b"])). reflexivity.
  - repeat (apply Forall_cons; split; [unfold code_or_missing; simpl; first [exact I | lia] |]).
    apply Forall_nil_2.
Defined.


(** X4 on the example. *)
Lemma sparse_string_attribute_is_refused_witness :
  _create_pickle_in_cache (env := offline) "s.arff" ex_sparse_string_state
  = (Err (ValueError "Dataset containing strings is not supported with sparse ARFF."),
     {| self := ex_sparse_dataset; disk := disk ex_sparse_string_state;
        events := [ArffDecoded "s.arff"] |})
  ∧ disk ex_sparse_string_state = disk ex_sparse_string_state
  ∧ ex_sparse_dataset = ex_sparse_dataset.
Proof.
  eapply (sparse_string_attribute_is_refused (env := offline) "s.arff" ex_sparse_string_state
           ex_sparse_string_state
           {| self := ex_sparse_dataset; disk := disk ex_sparse_string_state;
              events := [ArffDecoded "s.arff"] |}
           {| attributes := [("x", Primitive "NUMERIC"); ("s", Primitive "STRING")];
              arff_rows := CooData [VFloat (Ffin 1.5)] [0%nat] [0%nat] |}
           [("x", Primitive "NUMERIC")] [] _ "s").
  - reflexivity.
  - reflexivity.
  - reflexivity.
  - reflexivity.
  - reflexivity.
Defined.

(** X5 on the example. *)
Lemma large_file_is_refused_witness :
  _parse_data_from_arff (env := small_system) (Some "iris.arff") ex_state
  = (Err (NotImplementedError
            "File iris.arff too big for 200000000-bit system (32 bytes)."),
     ex_state).
Proof.
  apply (large_file_is_refused (env := small_system) (Some "iris.arff") ex_state
           "iris.arff" ex_arff).
  - discriminate.
  - reflexivity.
  - reflexivity.
  - reflexivity.
Defined.

(** ** Cache *)

Section cache_properties.
Context `{env : Environment}.

Lemma create_writes_blob (data_file : string) (s s0 s1 : state)
    (X : pydata) (mask : list bool) (names : list string) :
  let data_pickle_file := replace ".arff" ".pkl.py3" data_file in
  let data_feather_file := replace ".arff" ".feather" data_file in
  existing_cache_returns data_pickle_file data_feather_file s = (Ok false, s0) →
  _parse_data_from_arff (Some data_file) s0 = (Ok (X, mask, names), s1) →
  bool_decide (cache_format (self s1) = "feather") && negb (is_csr X) = false →
  _create_pickle_in_cache data_file s
  = (Ok (data_pickle_file, data_feather_file),
     {| self := with_cache_format "pickle" (self s1);
        disk := <[data_pickle_file := PickleFile (Triple X mask names)]> (disk s1);
        events := events s1 ++
                  [Logged INFO "pickle write" [];
                   FileWritten data_pickle_file;
                   Logged DEBUG "Saved dataset {did}: {name} to file {path}"
                     [ArgInt (dataset_id_or_minus_1 (self s1)); ArgStr (name (self s1));
                      ArgStr data_pickle_file]] |}).
Proof.
  intros data_pickle_file data_feather_file Hcheck Hparse Hblob.
  unfold _create_pickle_in_cache.
  rewrite (bind_Ok _ _ _ _ _ Hcheck).
  rewrite (bind_Ok _ _ _ _ _ Hparse).
  destruct s1 as [this d evs]. simpl in *.
  run. rewrite Hblob. simpl. rewrite <- !app_assoc. reflexivity.
Qed.

Lemma valid_pickle_returns (data_pickle_file data_feather_file : string) (s : state)
    (d : pydata) (mask : list bool) (names : list string) :
  cache_format (self s) ≠ "feather" →
  disk s !! data_pickle_file = Some (PickleFile (Triple d mask names)) →
  existing_cache_returns data_pickle_file data_feather_file s
  = (if is_frame_or_sparse d
     then (Ok true,
           {| self := self s; disk := disk s;
              events := events s ++
                        [Logged DEBUG "Data pickle file already exists and is up to date." []] |})
     else (Ok false, s)).
Proof.
  intros Hfmt Hpkl. unfold existing_cache_returns.
  rewrite (bind_Ok _ _ _ _ _ (get_self_eq s)), decide_False by done.
  rewrite (bind_Ok _ _ _ _ _ (os_path_exists_Some _ _ _ Hpkl)).
  rewrite (bind_Ok _ _ _ _ _ (open_rb_Some _ _ _ Hpkl)).
  run. by destruct (is_frame_or_sparse d).
Qed.

(** X6: under the pickle format a cache that holds a frame or a sparse
    matrix ends [_create_pickle_in_cache] at once: the paths are returned, the
    raw file is not read (it need not exist) and nothing is written. *)
Theorem valid_pickle_cache_ends_call (data_file : string) (s : state)
    (d : pydata) (mask : list bool) (names : list string) :
  cache_format (self s) ≠ "feather" →
  disk s !! replace ".arff" ".pkl.py3" data_file = Some (PickleFile (Triple d mask names)) →
  is_frame_or_sparse d = true →
  _create_pickle_in_cache data_file s
  = (Ok (replace ".arff" ".pkl.py3" data_file, replace ".arff" ".feather" data_file),
     {| self := self s; disk := disk s;
        events := events s ++
                  [Logged DEBUG "Data pickle file already exists and is up to date." []] |}).
Proof.
  intros Hfmt Hpkl Hnew. unfold _create_pickle_in_cache.
  pose proof (valid_pickle_returns _ (replace ".arff" ".feather" data_file) _ _ _ _ Hfmt Hpkl)
    as Hcheck.
  rewrite Hnew in Hcheck. by rewrite (bind_Ok _ _ _ _ _ Hcheck).
Qed.

(** X7: a cache written before version 0.9 (the blob holds an array) is
    replaced: the raw file is parsed and the blob is overwritten with the
    parsed table, which is a frame or a sparse matrix. *)
Theorem legacy_array_cache_is_replaced (data_file : string) (s s1 : state)
    (a : ndarray) (mask mask' : list bool) (names names' : list string) (X : pydata) :
  cache_format (self s) ≠ "feather" →
  disk s !! replace ".arff" ".pkl.py3" data_file
  = Some (PickleFile (Triple (NdArray a) mask names)) →
  _parse_data_from_arff (Some data_file) s = (Ok (X, mask', names'), s1) →
  ∃ s', _create_pickle_in_cache data_file s
        = (Ok (replace ".arff" ".pkl.py3" data_file, replace ".arff" ".feather" data_file), s')
      ∧ disk s' = <[replace ".arff" ".pkl.py3" data_file := PickleFile (Triple X mask' names')]>
                    (disk s)
      ∧ is_frame_or_sparse X = true
      ∧ cache_format (self s') = "pickle".
Proof.
  intros Hfmt Hpkl Hparse.
  pose proof (valid_pickle_returns _ (replace ".arff" ".feather" data_file) _ _ _ _ Hfmt Hpkl)
    as Hcheck. simpl in Hcheck.
  pose proof (read_only_parse_data_from_arff (Some data_file) s) as [Hself Hdisk].
  rewrite Hparse in Hself, Hdisk. simpl in Hself, Hdisk.
  eexists. split.
  - apply (create_writes_blob data_file s s s1 X mask' names' Hcheck Hparse).
    rewrite Hself, bool_decide_eq_false_2 by done. done.
  - simpl. rewrite Hdisk. split; [done |]. split; [| done].
    pose proof (parse_sparse_iff_format _ _ _ _ _ _ Hparse) as HX.
    by destruct X.
Qed.

(** X8: with the cache paths set and the two files of a feather cache
    readable, [_load_data] returns the cached table and metadata; the raw
    file is not read and nothing is written. *)
Theorem feather_cache_is_loaded (s : state) (pickle_file feather_file : string)
    (df : list Series) (mask : list bool) (names : list string) :
  data_pickle_file (self s) = Some pickle_file →
  data_feather_file (self s) = Some feather_file →
  cache_format (self s) = "feather" →
  disk s !! feather_file = Some (FeatherFile df) →
  disk s !! pickle_file = Some (PickleFile (Pair mask names)) →
  _load_data s
  = (Ok (Frame df, mask, names),
     {| self := self s; disk := disk s;
        events := events s ++ [Logged INFO "feather load data" []] |}).
Proof.
  intros Hp Hf Hfmt Hfth Hpkl.
  unfold _load_data, ensure_cache, read_cache, feather_read_feather. run.
  rewrite Hp. simpl. rewrite decide_True by done. simpl.
  rewrite Hf, Hfth. simpl. rewrite Hp, Hpkl. reflexivity.
Qed.

(** X9: with the cache path set under the pickle format, [_load_data]
    returns the content of the blob as it is. *)
Theorem pickle_cache_is_loaded (s : state) (pickle_file : string)
    (d : pydata) (mask : list bool) (names : list string) :
  data_pickle_file (self s) = Some pickle_file →
  cache_format (self s) ≠ "feather" →
  disk s !! pickle_file = Some (PickleFile (Triple d mask names)) →
  _load_data s
  = (Ok (d, mask, names),
     {| self := self s; disk := disk s;
        events := events s ++ [Logged INFO "pickle load data" []] |}).
Proof.
  intros Hp Hfmt Hpkl.
  unfold _load_data, ensure_cache, read_cache. run.
  rewrite Hp. simpl. rewrite decide_False by done. simpl.
  rewrite Hp, Hpkl. reflexivity.
Qed.

(** X10: when the cache path is set and the file is gone, [_load_data]
    raises [ValueError] with the name of the dataset and the path; the raw
    file is not parsed. *)
Theorem missing_cache_file_is_ValueError (s : state) (pickle_file : string) :
  data_pickle_file (self s) = Some pickle_file →
  disk s !! pickle_file = None →
  (cache_format (self s) = "feather" →
   ∃ feather_file df, data_feather_file (self s) = Some feather_file
                      ∧ disk s !! feather_file = Some (FeatherFile df)) →
  _load_data s
  = (Err (ValueError ("Cannot find a pickle file for dataset " +:+ name (self s)
                      +:+ " at location " +:+ pickle_file +:+ " ")),
     {| self := self s; disk := disk s;
        events := events s ++
                  [Logged INFO (if decide (cache_format (self s) = "feather")
                                then "feather load data" else "pickle load data") []] |}).
Proof.
  intros Hp Hpkl Hfeather.
  unfold _load_data, ensure_cache, read_cache, feather_read_feather. run.
  rewrite Hp. simpl. destruct (decide (cache_format (self s) = "feather")) as [Hfmt | Hfmt].
  - destruct (Hfeather Hfmt) as (feather_file & df & Hf & Hfth).
    simpl. rewrite Hf, Hfth. simpl. rewrite Hp, Hpkl. simpl. rewrite Hp. reflexivity.
  - simpl. rewrite Hp, Hpkl. simpl. rewrite Hp. reflexivity.
Qed.


End cache_properties.

(** X6 on the example. *)
Lemma valid_pickle_cache_ends_call_witness :
  _create_pickle_in_cache (env := offline) "iris.arff" ex_pickle_state
  = (Ok ("iris.pkl.py3", "iris.feather"),
     {| self := self ex_pickle_state; disk := disk ex_pickle_state;
        events := [Logged DEBUG "Data pickle file already exists and is up to date." []] |}).
Proof.
  apply (valid_pickle_cache_ends_call (env := offline) "iris.arff" ex_pickle_state
           (Frame ex_frame) ex_categorical ex_names).
  - discriminate.
  - reflexivity.
  - reflexivity.
Defined.

(** X7 on the example. *)
Lemma legacy_array_cache_is_replaced_witness :
  ∃ s', _create_pickle_in_cache (env := offline) "iris.arff" ex_legacy_state
        = (Ok ("iris.pkl.py3", "iris.feather"), s')
      ∧ disk s' = <["iris.pkl.py3" := PickleFile (Triple (Frame ex_frame) ex_categorical ex_names)]>
                    (disk ex_legacy_state)
      ∧ is_frame_or_sparse (np := exact_numpy) (Frame ex_frame) = true
      ∧ cache_format (self s') = "pickle".
Proof.
  apply (legacy_array_cache_is_replaced (env := offline) "iris.arff" ex_legacy_state
           (_parse_data_from_arff (env := offline) (Some "iris.arff") ex_legacy_state).2
           ex_legacy_array [false] ex_categorical ["id"] ex_names (Frame ex_frame)).
  - discriminate.
  - reflexivity.
  - reflexivity.
Defined.

(** X8 on the example. *)
Lemma feather_cache_is_loaded_witness :
  _load_data (env := offline) ex_loaded_state
  = (Ok (Frame ex_frame, ex_categorical, ex_names),
     {| self := ex_published; disk := disk ex_loaded_state;
        events := [Logged INFO "feather load data" []] |}).
Proof.
  apply (feather_cache_is_loaded (env := offline) ex_loaded_state "iris.pkl.py3" "iris.feather"
           ex_frame ex_categorical ex_names); reflexivity.
Defined.

(** X9 on the example. *)
Lemma pickle_cache_is_loaded_witness :
  _load_data (env := offline) ex_pickle_state
  = (Ok (Frame ex_frame, ex_categorical, ex_names),
     {| self := self ex_pickle_state; disk := disk ex_pickle_state;
        events := [Logged INFO "pickle load data" []] |}).
Proof.
  apply (pickle_cache_is_loaded (env := offline) ex_pickle_state "iris.pkl.py3"
           (Frame ex_frame) ex_categorical ex_names).
  - reflexivity.
  - discriminate.
  - reflexivity.
Defined.

(** X10 on the example. *)
Lemma missing_cache_file_is_ValueError_witness :
  _load_data (env := offline) ex_missing_state
  = (Err (ValueError "Cannot find a pickle file for dataset iris at location iris.pkl.py3 "),
     {| self := ex_published; disk := disk ex_missing_state;
        events := [Logged INFO "feather load data" []] |}).
Proof.
  apply (missing_cache_file_is_ValueError (env := offline) ex_missing_state "iris.pkl.py3").
  - reflexivity.
  - reflexivity.
  - intros _. exists "iris.feather", ex_frame. split; reflexivity.
Defined.


(** ** Conversion, target and paths *)

Section converter_properties.
Context `{env : Environment}.






(** X13: a conversion that the converter does not perform returns its input
    and logs one warning: any format other than "array" and "dataframe", and
    the format "array" on a sparse matrix.  It never raises. *)
Theorem unconverted_data_is_returned (data : pyobj) (array_format : string)
    (names : list string) (s : state) :
  array_format ≠ "dataframe" →
  array_format ≠ "array" ∨ issparse data = true →
  _convert_array_format data array_format names s
  = (Ok data,
     {| self := self s; disk := disk s;
        events := events s ++
                  [Logged WARNING "Cannot convert %s (%s) to '%s'. Returning input data."
                     [ArgStr (if issparse data then "sparse-data" else "non-sparse data");
                      ArgStr "type(data)"; ArgStr array_format]] |}).
Proof.
  intros Hdf Harr. unfold _convert_array_format.
  assert (bool_decide (array_format = "array") && negb (issparse data) = false) as ->.
  { destruct Harr as [Hne | ->]; [by rewrite bool_decide_eq_false_2 | apply andb_false_r]. }
  by rewrite decide_False.
Qed.

End converter_properties.

Section target_properties.
Context `{env : Environment}.

Lemma negb_targets (target : list string) (names : list string) :
  negb <$> ((λ column, bool_decide (column ∈ target)) <$> names)
  = (λ column, bool_decide (column ∉ target)) <$> names.
Proof.
  rewrite <- list_fmap_compose. apply list_fmap_ext. intros _ column _. simpl.
  by rewrite bool_decide_not.
Qed.

Lemma filter_fmap_compose {A B} (P : B → Prop) `{∀ x, Decision (P x)} (f : A → B) (l : list A) :
  filter P (f <$> l) = f <$> filter (λ a, P (f a)) l.
Proof.
  induction l as [| a l IH]; [done |].
  rewrite fmap_cons, !filter_cons, IH. by destruct (decide (P (f a))).
Qed.

Lemma mask_filter_by_name (P : string → Prop) `{∀ x, Decision (P x)} (df : list Series) :
  mask_filter ((λ column, bool_decide (P column)) <$> (s_name <$> df)) df
  = filter (λ column, P (s_name column)) df.
Proof.
  rewrite <- list_fmap_compose.
  apply (mask_filter_bool_decide (λ column, P (s_name column))).
Qed.

(** X14: the split of a frame at a target that names exactly one of its
    columns.  [x] is the frame without that column, [y] the column itself (or
    its only cell when the frame has one row), and the categorical mask and
    the attribute names lose the entry of the target; nothing is logged. *)
Theorem single_target_is_split_off (target : target_spec) (df : list Series)
    (mask : list bool) (names : list string) (column : Series) (s : state) :
  s_name <$> df = names →
  length mask = length names →
  filter (λ column, s_name column ∈ target_names target) df = [column] →
  split_target (Some target) "dataframe" (Frame df, mask, names) s
  = (Ok (Data (Frame (filter (λ column, s_name column ∉ target_names target) df)),
         Some (match series_iter column with
               | [c] => single_cell column c
               | _ => Ser column
               end),
         mask_filter ((λ column, bool_decide (column ∉ target_names target)) <$> names) mask,
         filter (λ column, column ∉ target_names target) names),
     s).
Proof.
  intros Hnames Hlen Hone. unfold split_target. fold (target_names target).
  set (T := target_names target) in *.
  assert (Hmatched : filter (λ column, column ∈ T) names = [s_name column]).
  { by rewrite <- Hnames, (filter_fmap_compose (λ column, column ∈ T)), Hone. }
  rewrite (count_true_bool_decide (λ column, column ∈ T)), Hmatched.
  rewrite decide_False by (simpl; lia).
  assert (Hcat : ∃ cat rest, fst <$> filter (λ p : bool * string, p.2 ∈ T) (zip mask names)
                             = cat :: rest).
  { assert (Hin : s_name column ∈ filter (λ column, column ∈ T) names)
      by (rewrite Hmatched; left).
    apply list_elem_of_filter in Hin as [HT [i Hi]%list_elem_of_lookup].
    destruct (lookup_lt_is_Some_2 mask i) as [cat Hc].
    { rewrite Hlen. by eapply lookup_lt_Some. }
    assert (Hz : (cat, s_name column) ∈ filter (λ p : bool * string, p.2 ∈ T) (zip mask names)).
    { apply list_elem_of_filter. split; [done |].
      apply list_elem_of_lookup. exists i. rewrite lookup_zip_with, Hc. simpl. by rewrite Hi. }
    destruct (filter _ (zip mask names)) as [| p rest]; [by apply elem_of_nil in Hz |].
    simpl. eauto. }
  destruct Hcat as (cat & rest & ->).
  run. rewrite !length_fmap, <- Hnames, length_fmap.
  rewrite !decide_True by done. simpl.
  rewrite negb_targets.
  rewrite (mask_filter_by_name (λ column, column ∉ T)).
  rewrite (mask_filter_by_name (λ column, column ∈ T)), Hone.
  rewrite (mask_filter_bool_decide (λ column, column ∉ T) (s_name <$> df)).
  simpl. destruct (series_iter column) as [| c [| c' cells]]; try reflexivity.
  unfold single_cell. destruct (s_body column), c; reflexivity.
Qed.

End target_properties.

Section path_properties.

Lemma append_empty (s : string) : s +:+ "" = s.
Proof.
  induction s as [| c s IH]; [done |].
  change (String c s +:+ "") with (String c (s +:+ "")). by rewrite IH.
Qed.

Lemma append_inv_head (stem a b : string) : stem +:+ a = stem +:+ b → a = b.
Proof. apply String.app_inj. Qed.

Lemma no_early_occurrence (c : ascii) (stem : string) :
  is_prefix ".arff" (String c stem) = false →
  is_prefix ".arff" (String c (stem +:+ ".arff")) = false.
Proof.
  destruct stem as [| c1 [| c2 [| c3 [| c4 rest]]]]; cbv [append]; simpl;
    repeat case_decide; subst; done.
Qed.

Lemma replace_extension (new stem : string) :
  occurs ".arff" stem = false →
  replace ".arff" new (stem +:+ ".arff") = stem +:+ new.
Proof.
  unfold replace. induction stem as [| c stem IH]; intros Hocc.
  - cbv [append]. simpl. by rewrite append_empty.
  - cbn [occurs] in Hocc. apply orb_false_iff in Hocc as [Hhere Hlater].
    change (String c stem +:+ ".arff") with (String c (stem +:+ ".arff")).
    cbn [replace_go]. rewrite (no_early_occurrence _ _ Hhere).
    rewrite (IH Hlater). done.
Qed.

(** X15: for a raw file [stem.arff] whose stem holds no further ".arff", the
    two cache files are [stem.pkl.py3] and [stem.feather]: whenever
    [_create_pickle_in_cache] returns it returns these two paths, and they
    differ from each other and from the raw file. *)
Theorem cache_files_are_beside_raw_file `{env : Environment} (stem : string) (s s' : state)
    (paths : string * string) :
  occurs ".arff" stem = false →
  _create_pickle_in_cache (stem +:+ ".arff") s = (Ok paths, s') →
  paths = (stem +:+ ".pkl.py3", stem +:+ ".feather")
  ∧ paths.1 ≠ paths.2
  ∧ paths.1 ≠ stem +:+ ".arff"
  ∧ paths.2 ≠ stem +:+ ".arff".
Proof.
  intros Hocc Hcreate.
  assert (Hpaths : paths = (stem +:+ ".pkl.py3", stem +:+ ".feather")).
  { revert Hcreate. unfold _create_pickle_in_cache.
    rewrite !(replace_extension _ _ Hocc). unfold mbind, M_bind, bind, mret, M_ret, ret.
    repeat case_match; intros; simplify_eq; done. }
  subst paths. simpl.
  repeat split; try done; intros Heq%append_inv_head; discriminate.
Qed.

End path_properties.


(** X13 on the example. *)
Lemma unconverted_data_is_returned_witness :
  _convert_array_format (np := exact_numpy) (Data (Sparse ex_sparse_matrix)) "array"
    ["x"; "c"] ex_sparse_state
  = (Ok (Data (Sparse ex_sparse_matrix)),
     {| self := ex_sparse_dataset; disk := disk ex_sparse_state;
        events := [Logged WARNING "Cannot convert %s (%s) to '%s'. Returning input data."
                     [ArgStr "sparse-data"; ArgStr "type(data)"; ArgStr "array"]] |}).
Proof.
  apply (unconverted_data_is_returned (np := exact_numpy) (Data (Sparse ex_sparse_matrix))
           "array" ["x"; "c"] ex_sparse_state).
  - discriminate.
  - right. reflexivity.
Defined.

(** X14 on the example. *)
Lemma single_target_is_split_off_witness :
  split_target (np := exact_numpy) (Some (TargetStr "class")) "dataframe"
    (Frame ex_frame, ex_categorical, ex_names) ex_state
  = (Ok (Data (Frame (take 4 ex_frame)), Some (Ser ex_class_column),
         [false; false; false; true], ["id"; "foo"; "width"; "flag"]),
     ex_state).
Proof.
  rewrite (single_target_is_split_off (np := exact_numpy) (TargetStr "class") ex_frame
             ex_categorical ex_names ex_class_column ex_state); reflexivity.
Defined.

(** X15 on the example. *)
Lemma cache_files_are_beside_raw_file_witness :
  ("iris.pkl.py3", "iris.feather") = ("iris" +:+ ".pkl.py3", "iris" +:+ ".feather")
  ∧ "iris.pkl.py3" ≠ "iris.feather"
  ∧ "iris.pkl.py3" ≠ "iris" +:+ ".arff"
  ∧ "iris.feather" ≠ "iris" +:+ ".arff".
Proof.
  apply (cache_files_are_beside_raw_file (env := offline) "iris" ex_state
           (_create_pickle_in_cache (env := offline) "iris.arff" ex_state).2
           ("iris.pkl.py3", "iris.feather")); reflexivity.
Defined.

(** ** Features *)

Section feature_properties.
Context `{surroundings : Surroundings}.

Lemma pydict_get_set {K V} `{EqDecision K} (d : list (K * V)) (key key' : K) (value : V) :
  pydict_get (pydict_set d key value) key'
  = if decide (key = key') then Some value else pydict_get d key'.
Proof.
  induction d as [| [k v] d IH]; simpl.
  - done.
  - destruct (decide (k = key)) as [-> | Hk]; simpl.
    + by destruct (decide (key = key')).
    + rewrite IH. destruct (decide (k = key')) as [-> | ?]; [| done].
      by rewrite decide_False.
Qed.

Lemma pydict_set_fresh {K V} `{EqDecision K} (d : list (K * V)) (key : K) (value : V) :
  key ∉ d.*1 → pydict_set d key value = d ++ [(key, value)].
Proof.
  induction d as [| [k v] d IH]; simpl; [done |].
  intros [Hk Hd]%not_elem_of_cons. rewrite decide_False by done. by rewrite IH.
Qed.

Lemma features_loop_step (idx : Z) (xmlfeature : gmap string xmlvalue)
    (rest : list (gmap string xmlvalue)) (acc features : list (Z * OpenMLDataFeature)) :
  features_loop idx (xmlfeature :: rest) acc = Ok features →
  ∃ feature, feature_index feature = idx
             ∧ features_loop (idx + 1) rest (pydict_set acc idx feature) = Ok features.
Proof.
  simpl. unfold mbind, result_bind, rbind. repeat case_match; try done; intros Hloop.
  all: match goal with
       | n : ¬ _ ≠ feature_index ?f |- _ =>
           exists f; assert (idx = feature_index f) as Hfi by (by apply dec_stable);
           rewrite <- Hfi in Hloop
       end; done.
Qed.

Lemma features_loop_in_order (xmlfeatures : list (gmap string xmlvalue)) (k : nat)
    (acc features : list (Z * OpenMLDataFeature)) :
  features_loop (Z.of_nat k) xmlfeatures acc = Ok features →
  length acc = k →
  in_order acc →
  length features = (k + length xmlfeatures)%nat ∧ in_order features.
Proof.
  revert k acc. induction xmlfeatures as [| xmlfeature rest IH]; intros k acc.
  - simpl. intros [= <-] Hlen Hacc. split; [lia | done].
  - intros (feature & Hfi & Hloop)%features_loop_step Hlen [Hkeys Hidx].
    replace (Z.of_nat k + 1) with (Z.of_nat (S k)) in Hloop by lia.
    rewrite pydict_set_fresh in Hloop.
    2: { rewrite Hkeys, Hlen. intros (i & Hi & Hin%elem_of_seq)%list_elem_of_fmap. lia. }
    apply IH in Hloop as [Hlen' Hord].
    + split; [simpl; lia | done].
    + rewrite length_app. simpl. lia.
    + split.
      * rewrite fmap_app, length_app, Hkeys, Hlen. simpl.
        replace (k + 1)%nat with (S k) by lia. by rewrite seq_S, fmap_app.
      * apply Forall_app. split; [done |]. by repeat constructor.
Qed.

Lemma by_type_loop_positions (to_exclude : list pyval) (data_type : string)
    (items : list (Z * OpenMLDataFeature)) (k : nat) (offset i : Z) :
  items.*1 = Z.of_nat <$> seq k (length items) →
  Z.of_nat k - offset = i →
  by_type_loop to_exclude data_type items offset
  = positions (λ feature, bool_decide (feature_data_type feature = data_type))
      (filter (λ feature, name_in (feature_name feature) to_exclude = false) items.*2) i.
Proof.
  revert k offset i. induction items as [| [idx feature] items IH]; intros k offset i; [done |].
  rewrite !fmap_cons. cbn [length seq]. rewrite fmap_cons. intros [= Hidx Hkeys] Hi.
  cbn [by_type_loop]. rewrite filter_cons. simpl in *.
  destruct (name_in (feature_name feature) to_exclude) eqn:Hname.
  - rewrite decide_False by done. apply (IH (S k)); [done | lia].
  - rewrite (decide_True (P := false = false)) by done. cbn [positions].
    destruct (decide (feature_data_type feature = data_type)) as [Ht | Ht].
    + rewrite bool_decide_eq_true_2 by done. f_equal; [lia |].
      apply (IH (S k)); [done | lia].
    + rewrite bool_decide_eq_false_2 by done. apply (IH (S k)); [done | lia].
Qed.

(** X16: on a dataset whose feature dict was made by the constructor, the
    indices that [get_features_by_type] returns are the positions of the
    features of the given type in the list of the features whose name is not
    excluded, that is, in the table after the exclusion. *)
Theorem features_by_type_are_positions (this : OpenMLDataset) (meta : Metadata)
    (items : list (Z * OpenMLDataFeature)) (data_type : string) (exclude : list pyval)
    (exclude_ignore_attribute exclude_row_id_attribute : bool) :
  features meta = Some items →
  in_order items →
  data_type ∈ LEGAL_DATA_TYPES →
  (∀ s, ignore_attribute this ≠ Some (AttrStr s)) →
  (∀ l, row_id_attribute this ≠ Some (AttrList l)) →
  let to_exclude :=
    feature_exclusion this exclude exclude_ignore_attribute exclude_row_id_attribute in
  get_features_by_type this meta data_type (Some (ExcludeList exclude))
    exclude_ignore_attribute exclude_row_id_attribute
  = Ok (positions (λ feature, bool_decide (feature_data_type feature = data_type))
          (filter (λ feature, name_in (feature_name feature) to_exclude = false) items.*2) 0).
Proof.
  intros Hfeatures [Hkeys _] Hlegal Hignore Hrow to_exclude.
  unfold get_features_by_type. rewrite decide_False by (intros Hn; by apply Hn).
  rewrite Hfeatures.
  destruct (ignore_attribute this) as [[s | l] |] eqn:Hign; [by destruct (Hignore s) | |];
    (destruct (row_id_attribute this) as [[s' | l'] |] eqn:Hrid; [| by destruct (Hrow l') |]);
    f_equal; unfold to_exclude, feature_exclusion; rewrite Hign, Hrid;
    by apply (by_type_loop_positions _ _ _ 0%nat).
Qed.

Lemma by_type_loop_ext (ex1 ex2 : list pyval) (data_type : string)
    (items : list (Z * OpenMLDataFeature)) (offset : Z) :
  (∀ name, name_in name ex1 = name_in name ex2) →
  by_type_loop ex1 data_type items offset = by_type_loop ex2 data_type items offset.
Proof.
  intros Hext. revert offset. induction items as [| [idx feature] items IH]; intros offset;
    [done |].
  simpl. rewrite Hext, !IH. done.
Qed.

Lemma name_in_integers (name : string) (indices : list Z) (rest : list pyval) :
  name_in name ((VInt <$> indices) ++ rest) = name_in name rest.
Proof.
  unfold name_in. rewrite existsb_app. induction indices as [| z indices IH]; [done |].
  exact IH.
Qed.

(** X17: the indices that the docstring asks for in [exclude] exclude
    nothing: a list of integers has the effect of no list at all, since the
    entries are compared with the names of the features. *)
Theorem integer_exclusions_have_no_effect (this : OpenMLDataset) (meta : Metadata)
    (data_type : string) (indices : list Z)
    (exclude_ignore_attribute exclude_row_id_attribute : bool) :
  get_features_by_type this meta data_type (Some (ExcludeList (VInt <$> indices)))
    exclude_ignore_attribute exclude_row_id_attribute
  = get_features_by_type this meta data_type None
      exclude_ignore_attribute exclude_row_id_attribute.
Proof.
  unfold get_features_by_type. repeat case_match; try done.
  all: f_equal; apply by_type_loop_ext; intros name; apply name_in_integers.
Qed.

End feature_properties.

(** ** Constructor *)

Section constructor_properties.
Context `{env : Environment} `{surroundings : Surroundings}.

Lemma check_local_dataset_Ok (a : init_args) (s s0 : state) :
  check_local_dataset a s = (Ok tt, s0) →
  s0 = s
  ∧ (arg_dataset_id a = None →
     matches_name (arg_name a) = true
     ∧ (∀ text, arg_description a = Some text → matches_basic_latin text = true)
     ∧ (∀ text, arg_citation a = Some text → matches_basic_latin text = true)).
Proof.
  assert (Hempty : ∀ text, bool_decide (text = "") = true → matches_basic_latin text = true).
  { by intros text ->%bool_decide_eq_true_1. }
  unfold check_local_dataset, check_basic_latin. unfold_monad.
  destruct (arg_dataset_id a); [by intros [= <-] |].
  destruct (arg_description a) as [d |], (arg_citation a) as [c |];
    repeat (case_match; simpl in *); intros; simplify_eq; (split; [done |]); intros _;
    (split; [done |]); split; intros text [= <-];
    repeat match goal with
           | H : _ && _ = false |- _ => apply andb_false_iff in H as [H | H]
           | H : negb _ = false |- _ => apply negb_false_iff in H
           end; auto.
Qed.

Lemma init_format_unchanged (a : init_args) : respects unchanged (init_format a).
Proof.
  unfold init_format. repeat first [apply respects_unchanged_logger | respects_step].
Qed.

Lemma create_pickle_in_cache_paths (data_file : string) (s s' : state)
    (paths : string * string) :
  _create_pickle_in_cache data_file s = (Ok paths, s') →
  paths = (replace ".arff" ".pkl.py3" data_file, replace ".arff" ".feather" data_file).
Proof.
  unfold _create_pickle_in_cache. unfold mbind, M_bind, bind, mret, M_ret, ret.
  repeat case_match; intros; simplify_eq; done.
Qed.

Lemma init_cache_files_Ok (data_file : option string) (s s' : state) :
  init_cache_files data_file s = (Ok tt, s') →
  data_pickle_file (self s') = replace ".arff" ".pkl.py3" <$> data_file
  ∧ data_feather_file (self s') = replace ".arff" ".feather" <$> data_file
  ∧ same_attributes s s'
  ∧ (data_file = None → disk s' = disk s ∧ events s' = events s).
Proof.
  unfold init_cache_files. destruct data_file as [data_file |].
  - unfold mbind, M_bind, bind.
    destruct (_create_pickle_in_cache data_file s) as [[[p f] | e] s1] eqn:Hcreate; [| done].
    pose proof (same_attributes_create_pickle_in_cache data_file s) as Hsame.
    rewrite Hcreate in Hsame. simpl in Hsame.
    apply create_pickle_in_cache_paths in Hcreate as [= -> ->].
    intros [= <-]. simpl. done.
  - intros [= <-]. simpl. done.
Qed.

(** What a constructor call that returns has done. *)
Lemma init_Ok (a : init_args) (s s' : state) (meta : Metadata) :
  __init__ a s = (Ok meta, s') →
  (arg_dataset_id a = None →
   matches_name (arg_name a) = true
   ∧ (∀ text, arg_description a = Some text → matches_basic_latin text = true)
   ∧ (∀ text, arg_citation a = Some text → matches_basic_latin text = true))
  ∧ init_ignore_attribute (arg_ignore_attribute a) = Ok (ignore_attribute (self s'))
  ∧ row_id_attribute (self s') = arg_row_id_attribute a
  ∧ init_features (arg_features a) = Ok (features meta)
  ∧ _check_qualities (arg_qualities a) = Ok (qualities meta)
  ∧ data_pickle_file (self s') = replace ".arff" ".pkl.py3" <$> arg_data_file a
  ∧ data_feather_file (self s') = replace ".arff" ".feather" <$> arg_data_file a
  ∧ (arg_data_file a = None → disk s' = disk s).
Proof.
  unfold __init__. unfold mbind at 1, M_bind at 1, bind at 1.
  destruct (check_local_dataset a s) as [[[] | e] s0] eqn:Hcheck; [| done].
  apply check_local_dataset_Ok in Hcheck as [-> Hvalid].
  unfold lift, mbind, M_bind, bind.
  destruct (optional_int (arg_dataset_id a)) as [did |]; [| done].
  destruct (optional_int (arg_version a)) as [ver |]; [| done].
  pose proof (init_format_unchanged a s) as [_ Hdisk0].
  destruct (init_format a s) as [[fmt | e] s0]; [| done]. simpl in Hdisk0.
  destruct (init_ignore_attribute (arg_ignore_attribute a)) as [ign |] eqn:Hign; [| done].
  unfold set_self. cbv beta iota.
  destruct (init_features (arg_features a)) as [fs |] eqn:Hfs; [| done].
  destruct (_check_qualities (arg_qualities a)) as [qs |] eqn:Hqs; [| done].
  match goal with
  | |- context [init_cache_files ?f ?st] =>
      destruct (init_cache_files f st) as [[[] | e] s1] eqn:Hcache; [| done]
  end.
  apply init_cache_files_Ok in Hcache as (Hp & Hf & [Hrow Hignore] & Hnone).
  simpl in Hrow, Hignore. unfold mret, M_ret, ret.
  intros [= <- <-]. simpl.
  rewrite Hignore, Hrow, Hp, Hf. split; [exact Hvalid |]. repeat split; try done.
  intros Hfile. destruct (Hnone Hfile) as [-> _]. done.
Qed.

(** X18: the feature dict of a constructed dataset has the keys 0, 1, 2, ...
    in this order, one per feature of the description, and every feature
    sits under its own index. *)
Theorem constructed_features_are_in_order (a : init_args) (s s' : state) (meta : Metadata)
    (xmlfeatures : list (gmap string xmlvalue)) :
  __init__ a s = (Ok meta, s') →
  arg_features a = Some xmlfeatures →
  ∃ items, features meta = Some items
           ∧ length items = length xmlfeatures
           ∧ items.*1 = Z.of_nat <$> seq 0 (length xmlfeatures)
           ∧ Forall (λ item, feature_index item.2 = item.1) items.
Proof.
  intros (_ & _ & _ & Hfs & _)%init_Ok Hxml. rewrite Hxml in Hfs. simpl in Hfs.
  destruct (features_loop 0 xmlfeatures []) as [items |] eqn:Hloop; [| done].
  injection Hfs as <-. exists items. split; [done |].
  apply (features_loop_in_order _ 0%nat) in Hloop as [Hlen [Hkeys Hidx]]; [| done | done].
  simpl in Hlen. rewrite <- Hlen. done.
Qed.

(** X19: the constructor sets the two cache paths beside the raw file when it
    is given one, after the cache is built or found; without a raw file both
    paths are [None] and the disk is not touched.  The ignore attribute is
    stored as a list or [None], never as a string. *)
Theorem constructor_sets_cache_paths (a : init_args) (s s' : state) (meta : Metadata) :
  __init__ a s = (Ok meta, s') →
  data_pickle_file (self s') = replace ".arff" ".pkl.py3" <$> arg_data_file a
  ∧ data_feather_file (self s') = replace ".arff" ".feather" <$> arg_data_file a
  ∧ (arg_data_file a = None → disk s' = disk s)
  ∧ (∀ text, ignore_attribute (self s') ≠ Some (AttrStr text))
  ∧ (∀ text, arg_ignore_attribute a = Some (IgnoreStr text) →
             ignore_attribute (self s') = Some (AttrList [text])).
Proof.
  intros (_ & Hign & _ & _ & _ & Hp & Hf & Hdisk)%init_Ok.
  repeat split; try done.
  - intros text Heq. rewrite Heq in Hign.
    by destruct (arg_ignore_attribute a) as [[] |].
  - intros text Harg. rewrite Harg in Hign. by injection Hign.
Qed.

Lemma all_chars_append (p : ascii → bool) (s t : string) :
  all_chars p (s +:+ t) = all_chars p s && all_chars p t.
Proof.
  induction s as [| c s IH]; [done |].
  change (String c s +:+ t) with (String c (s +:+ t)). simpl. by rewrite IH, andb_assoc.
Qed.

Lemma without_final_newline_append (body : string) :
  body ≠ "" → all_chars is_name_char body = true →
  without_final_newline (body +:+ String "010" "") = body.
Proof.
  induction body as [| c body IH]; [done |]. intros _ Hall.
  simpl in Hall. apply andb_true_iff in Hall as [Hc Hall].
  change (String c body +:+ String "010" "") with (String c (body +:+ String "010" "")).
  destruct body as [| c' body].
  - reflexivity.
  - change (String c' body +:+ String "010" "")
      with (String c' (body +:+ String "010" "")) in *.
    cbn [without_final_newline]. f_equal. by apply IH.
Qed.

(** X20: the check of the name of a local dataset lets a newline at the end
    of the name pass: the pattern ends in [$], which also matches before a
    final newline.  The constructor returns and the object has that name. *)
Theorem name_with_final_newline_is_accepted (a : init_args) (s : state) (body : string) :
  arg_dataset_id a = None →
  arg_name a = body +:+ String "010" "" →
  body ≠ "" →
  all_chars is_name_char body = true →
  arg_description a = None → arg_citation a = None →
  arg_version a = None → arg_format a = None →
  arg_ignore_attribute a = None → arg_features a = None →
  arg_qualities a = None → arg_data_file a = None →
  ∃ meta s', __init__ a s = (Ok meta, s')
             ∧ name (self s') = body +:+ String "010" ""
             ∧ disk s' = disk s ∧ events s' = events s.
Proof.
  intros Hid Hname Hbody Hall Hd Hc Hv Hf Hi Hfs Hq Hfile.
  assert (Hmatch : matches_name (arg_name a) = true).
  { unfold matches_name. rewrite Hname, without_final_newline_append by done.
    rewrite Hall, bool_decide_eq_false_2 by done. done. }
  unfold __init__, check_local_dataset, check_basic_latin, init_format, init_cache_files.
  rewrite Hid, Hd, Hc, Hv, Hf, Hi, Hfs, Hq, Hfile, Hmatch. simpl.
  eexists _, _. split; [reflexivity |]. simpl. rewrite Hname. done.
Qed.

End constructor_properties.

(** ** Qualities and the printed summary *)

Section report_properties.
Context `{surroundings : Surroundings}.

Lemma qualities_loop_step (x : gmap string xmlvalue) (xs : list (gmap string xmlvalue))
    (acc q : list (xmlvalue * pyfloat)) :
  qualities_loop (x :: xs) acc = Ok q →
  ∃ key value, x !! "oml:name" = Some key ∧ quality_value x = Ok value
               ∧ qualities_loop xs (pydict_set acc key value) = Ok q.
Proof.
  simpl. unfold mbind, result_bind, rbind, dict_getitem.
  destruct (x !! "oml:name") as [key |]; [| done].
  destruct (quality_value x) as [value |]; [| done].
  destruct key; try done; eauto.
Qed.

Lemma qualities_loop_other (xs : list (gmap string xmlvalue))
    (acc q : list (xmlvalue * pyfloat)) (key : xmlvalue) :
  qualities_loop xs acc = Ok q →
  (∀ y, y ∈ xs → y !! "oml:name" ≠ Some key) →
  pydict_get q key = pydict_get acc key.
Proof.
  revert acc. induction xs as [| x xs IH]; intros acc.
  - by intros [= <-].
  - intros (key' & value & Hname & _ & Hloop)%qualities_loop_step Hother.
    rewrite (IH _ Hloop) by (intros y Hy; apply Hother; by right).
    rewrite pydict_get_set, decide_False; [done |].
    intros ->. by apply (Hother x); [left |].
Qed.

Lemma qualities_loop_last (pre post : list (gmap string xmlvalue)) (x : gmap string xmlvalue)
    (acc q : list (xmlvalue * pyfloat)) (key : xmlvalue) :
  qualities_loop (pre ++ x :: post) acc = Ok q →
  x !! "oml:name" = Some key →
  (∀ y, y ∈ post → y !! "oml:name" ≠ Some key) →
  ∃ value, quality_value x = Ok value ∧ pydict_get q key = Some value.
Proof.
  revert acc. induction pre as [| p pre IH]; intros acc.
  - intros (key' & value & Hname & Hvalue & Hloop)%qualities_loop_step Hkey Hother.
    rewrite Hkey in Hname. injection Hname as <-.
    exists value. split; [done |].
    rewrite (qualities_loop_other _ _ _ _ Hloop Hother), pydict_get_set.
    by rewrite decide_True.
  - rewrite <- app_comm_cons.
    intros (key' & value & _ & _ & Hloop)%qualities_loop_step. by apply (IH _ Hloop).
Qed.

Lemma quality_value_null (x : gmap string xmlvalue) :
  x !! "oml:value" = None ∨ x !! "oml:value" = Some XNone
  ∨ x !! "oml:value" = Some (XStr "null") →
  quality_value x = Ok Fnan.
Proof. unfold quality_value. by intros [-> | [-> | ->]]. Qed.

(** X21: when a quality is listed more than once the last entry decides;
    an entry without value, or with the value 'null', gives NaN. *)
Theorem last_quality_entry_wins (pre post : list (gmap string xmlvalue))
    (x : gmap string xmlvalue) (q : list (xmlvalue * pyfloat)) (key : xmlvalue) :
  _check_qualities (Some (pre ++ x :: post)) = Ok (Some q) →
  x !! "oml:name" = Some key →
  (∀ y, y ∈ post → y !! "oml:name" ≠ Some key) →
  ∃ value, quality_value x = Ok value
           ∧ pydict_get q key = Some value
           ∧ (x !! "oml:value" = None ∨ x !! "oml:value" = Some XNone
              ∨ x !! "oml:value" = Some (XStr "null") → value = Fnan).
Proof.
  unfold _check_qualities.
  destruct (qualities_loop (pre ++ x :: post) []) as [q' |] eqn:Hloop; [| done].
  intros [= <-] Hkey Hother.
  destruct (qualities_loop_last _ _ _ _ _ _ Hloop Hkey Hother) as (value & Hvalue & Hget).
  exists value. split; [done |]. split; [done |].
  intros Hnull%quality_value_null. congruence.
Qed.

(** X22: the summary of a dataset whose quality NumberOfInstances is null on
    the server cannot be made: the NaN that stands for the null reaches
    [int()], which raises [ValueError]. *)
Theorem repr_fails_on_null_instances (this : OpenMLDataset) (meta : Metadata)
    (pre post : list (gmap string xmlvalue)) (x : gmap string xmlvalue) :
  _check_qualities (Some (pre ++ x :: post)) = Ok (qualities meta) →
  x !! "oml:name" = Some (XStr "NumberOfInstances") →
  x !! "oml:value" = None ∨ x !! "oml:value" = Some XNone
  ∨ x !! "oml:value" = Some (XStr "null") →
  (∀ y, y ∈ post → y !! "oml:name" ≠ Some (XStr "NumberOfInstances")) →
  _get_repr_body_fields this meta
  = Err (ValueError "cannot convert float NaN to integer").
Proof.
  unfold _check_qualities.
  destruct (qualities_loop (pre ++ x :: post) []) as [q |] eqn:Hloop; [| done].
  intros [= Hq] Hkey Hnull%quality_value_null Hother.
  destruct (qualities_loop_last _ _ _ _ _ _ Hloop Hkey Hother) as (value & Hvalue & Hget).
  assert (value = Fnan) as -> by congruence.
  unfold _get_repr_body_fields. by rewrite <- Hq, Hget.
Qed.

(** X23: the summary of a dataset that has qualities, none of them
    NumberOfInstances, cannot be made either: the lookup raises [KeyError]. *)
Theorem repr_fails_without_instances (this : OpenMLDataset) (meta : Metadata)
    (xmlqualities : list (gmap string xmlvalue)) :
  _check_qualities (Some xmlqualities) = Ok (qualities meta) →
  (∀ y, y ∈ xmlqualities → y !! "oml:name" ≠ Some (XStr "NumberOfInstances")) →
  _get_repr_body_fields this meta = Err (KeyError "NumberOfInstances").
Proof.
  unfold _check_qualities.
  destruct (qualities_loop xmlqualities []) as [q |] eqn:Hloop; [| done].
  intros [= Hq] Hother.
  unfold _get_repr_body_fields.
  by rewrite <- Hq, (qualities_loop_other _ _ _ _ Hloop Hother).
Qed.

End report_properties.

Section summary_properties.
Context `{surroundings : Surroundings}.

Lemma Ok_inv {A : Type} (x y : A) : Ok x = Ok y → x = y.
Proof. congruence. Qed.

Lemma shown_keys (fields : gmap string pyval) (order present : list string) :
  (∀ key, key ∈ order → is_Some (fields !! key) ↔ key ∈ present) →
  (omap (λ key, (λ value, (key, value)) <$> fields !! key) order).*1
  = filter (λ key, key ∈ present) order.
Proof.
  intros Hkeys.
  induction order as [| key order IH]; [done |].
  rewrite filter_cons. cbn [omap list_omap].
  assert (Hkey := Hkeys key (list_elem_of_here _ _)).
  rewrite <- IH by (intros k Hk; apply Hkeys; by right).
  destruct (fields !! key) as [value |].
  - rewrite decide_True by (apply Hkey; eauto). done.
  - rewrite decide_False; [done |]. intros Hin. apply Hkey in Hin. by destruct Hin.
Qed.

(** Which of the keys of [order] the dict [fields] holds before the number of
    instances is added. *)
Lemma repr_fields_keys (this : OpenMLDataset) (meta : Metadata) (key : string) :
  key ∈ repr_order →
  is_Some (repr_fields this meta !! key)
  ↔ key ∈ ["Name"; "Version"; "Format"; "Licence"; "Download URL"; "# of features"]
          ++ (match upload_date meta with Some _ => ["Upload Date"] | None => [] end)
          ++ (match dataset_id this with Some _ => ["OpenML URL"] | None => [] end).
Proof.
  unfold repr_fields, repr_order.
  destruct (upload_date meta), (dataset_id this); intros Hkey.
  all: repeat (apply elem_of_cons in Hkey as [-> | Hkey]); [.. | by apply elem_of_nil in Hkey].
  all: rewrite ?lookup_insert_ne by done.
  all: rewrite ?lookup_insert.
  all: (split; [intros [value Hvalue] | intros Hin]).
  all: try (eexists; reflexivity).
  all: try (apply list_elem_of_In; simpl; tauto).
  all: try discriminate Hvalue.
  all: apply list_elem_of_In in Hin; simpl in Hin; intuition discriminate.
Qed.

(** X24: the summary never shows the data file and the pickle file: they are
    put into [fields] as "Data file" and "Pickle file", and [order] asks for
    "Data File" and "Pickle File".  The keys shown are these, in this order. *)
Theorem repr_never_shows_files (this : OpenMLDataset) (meta : Metadata)
    (shown : list (string * pyval)) :
  _get_repr_body_fields this meta = Ok shown →
  shown.*1
  = ["Name"; "Version"; "Format"]
    ++ (match upload_date meta with Some _ => ["Upload Date"] | None => [] end)
    ++ ["Licence"; "Download URL"]
    ++ (match dataset_id this with Some _ => ["OpenML URL"] | None => [] end)
    ++ ["# of features"]
    ++ (match qualities meta with Some _ => ["# of instances"] | None => [] end)
  ∧ (∀ key, key ∈ ["Data file"; "Pickle file"; "Data File"; "Pickle File"] →
            key ∉ shown.*1).
Proof.
  intros Hshown.
  assert (Hkeys : shown.*1
    = filter (λ key, key ∈ (["Name"; "Version"; "Format"; "Licence"; "Download URL";
                             "# of features"]
                            ++ (match upload_date meta with
                                | Some _ => ["Upload Date"] | None => [] end)
                            ++ (match dataset_id this with
                                | Some _ => ["OpenML URL"] | None => [] end))
                           ++ match qualities meta with
                              | Some _ => ["# of instances"] | None => [] end)
        repr_order).
  { unfold _get_repr_body_fields in Hshown.
    destruct (qualities meta) as [q |].
    - destruct (pydict_get q (XStr "NumberOfInstances")) as [instances |];
        [| discriminate Hshown].
      destruct (py_int (VFloat instances)) as [n | e]; [| discriminate Hshown].
      cbn [mbind result_bind rbind] in Hshown.
      apply Ok_inv in Hshown. rewrite <- Hshown.
      apply shown_keys. intros key Hkey.
      pose proof (repr_fields_keys this meta key Hkey) as Hbase.
      revert Hbase. generalize (repr_fields this meta). intros fields Hbase.
      rewrite lookup_insert_is_Some.
      rewrite elem_of_app, list_elem_of_singleton, <- Hbase.
      clear Hkey. destruct (decide ("# of instances" = key)); intuition congruence.
    - cbn [mbind result_bind rbind] in Hshown.
      apply Ok_inv in Hshown. rewrite <- Hshown.
      apply shown_keys. intros key Hkey.
      rewrite app_nil_r. by apply repr_fields_keys. }
  rewrite Hkeys.
  destruct (upload_date meta), (dataset_id this), (qualities meta).
  all: split; [reflexivity |].
  all: intros key Hkey Hin.
  all: repeat (apply elem_of_cons in Hkey as [-> | Hkey]); [.. | by apply elem_of_nil in Hkey].
  all: apply list_elem_of_In in Hin; vm_compute in Hin; intuition discriminate.
Qed.

End summary_properties.

(** X16 on the example, excluding the row id and the ignored attribute. *)
Lemma features_by_type_are_positions_witness :
  get_features_by_type (surroundings := ex_surroundings) ex_dataset ex_metadata "nominal"
    (Some (ExcludeList [])) true true
  = Ok [1; 2].
Proof.
  apply (features_by_type_are_positions (surroundings := ex_surroundings) ex_dataset
           ex_metadata ex_features "nominal" [] true true).
  - reflexivity.
  - split; [reflexivity | repeat constructor].
  - apply list_elem_of_In. simpl. tauto.
  - discriminate.
  - discriminate.
Defined.

(** X18 on the example. *)
Lemma constructed_features_are_in_order_witness :
  ∃ items, features ex_init_metadata = Some items
           ∧ length items = 5%nat
           ∧ items.*1 = [0; 1; 2; 3; 4]
           ∧ Forall (λ item, feature_index item.2 = item.1) items.
Proof.
  apply (constructed_features_are_in_order (env := offline) (surroundings := ex_surroundings)
           ex_init_args ex_state
           (__init__ (env := offline) (surroundings := ex_surroundings)
              ex_init_args ex_state).2
           ex_init_metadata ex_xmlfeatures).
  - reflexivity.
  - reflexivity.
Defined.

(** X19 on the example. *)
Lemma constructor_sets_cache_paths_witness :
  let s' := (__init__ (env := offline) (surroundings := ex_surroundings)
               ex_init_args ex_state).2 in
  data_pickle_file (self s') = Some "iris.pkl.py3"
  ∧ data_feather_file (self s') = Some "iris.feather"
  ∧ (Some "iris.arff" = None → disk s' = disk ex_state)
  ∧ (∀ text, ignore_attribute (self s') ≠ Some (AttrStr text))
  ∧ (∀ text, Some (IgnoreStr "foo") = Some (IgnoreStr text) →
             ignore_attribute (self s') = Some (AttrList [text])).
Proof.
  apply (constructor_sets_cache_paths (env := offline) (surroundings := ex_surroundings)
           ex_init_args ex_state
           (__init__ (env := offline) (surroundings := ex_surroundings)
              ex_init_args ex_state).2
           ex_init_metadata).
  reflexivity.
Defined.

(** X20 on the example. *)
Lemma name_with_final_newline_is_accepted_witness :
  ∃ meta s', __init__ (env := offline) (surroundings := ex_surroundings)
               ex_newline_args ex_state = (Ok meta, s')
             ∧ name (self s') = "iris" +:+ String "010" ""
             ∧ disk s' = disk ex_state ∧ events s' = events ex_state.
Proof.
  apply (name_with_final_newline_is_accepted (env := offline)
           (surroundings := ex_surroundings) ex_newline_args ex_state "iris");
    first [reflexivity | discriminate].
Defined.

(** X21 on the example. *)
Lemma last_quality_entry_wins_witness :
  ∃ value, quality_value (surroundings := ex_surroundings)
             (ex_xmlquality "NumberOfInstances" "null") = Ok value
           ∧ pydict_get [(XStr "NumberOfInstances", Fnan);
                         (XStr "NumberOfFeatures", Ffin (inject_Z 5))]
               (XStr "NumberOfInstances") = Some value
           ∧ (ex_xmlquality "NumberOfInstances" "null" !! "oml:value" = None
              ∨ ex_xmlquality "NumberOfInstances" "null" !! "oml:value" = Some XNone
              ∨ ex_xmlquality "NumberOfInstances" "null" !! "oml:value"
                = Some (XStr "null") → value = Fnan).
Proof.
  apply (last_quality_entry_wins (surroundings := ex_surroundings)
           (take 2 ex_xmlqualities) [] (ex_xmlquality "NumberOfInstances" "null")
           [(XStr "NumberOfInstances", Fnan); (XStr "NumberOfFeatures", Ffin (inject_Z 5))]
           (XStr "NumberOfInstances")).
  - reflexivity.
  - reflexivity.
  - intros y Hy. by apply elem_of_nil in Hy.
Defined.

(** X22 on the example. *)
Lemma repr_fails_on_null_instances_witness :
  _get_repr_body_fields (surroundings := ex_surroundings) ex_dataset ex_metadata
  = Err (ValueError "cannot convert float NaN to integer").
Proof.
  apply (repr_fails_on_null_instances (surroundings := ex_surroundings) ex_dataset ex_metadata
           (take 2 ex_xmlqualities) [] (ex_xmlquality "NumberOfInstances" "null")).
  - reflexivity.
  - reflexivity.
  - right. right. reflexivity.
  - intros y Hy. by apply elem_of_nil in Hy.
Defined.

(** X23 on the example. *)
Lemma repr_fails_without_instances_witness :
  _get_repr_body_fields (surroundings := ex_surroundings) ex_dataset
    (ex_metadata_with (Some [(XStr "NumberOfFeatures", Ffin (inject_Z 5))]))
  = Err (KeyError "NumberOfInstances").
Proof.
  apply (repr_fails_without_instances (surroundings := ex_surroundings) ex_dataset
           (ex_metadata_with (Some [(XStr "NumberOfFeatures", Ffin (inject_Z 5))]))
           [ex_xmlquality "NumberOfFeatures" "5"]).
  - reflexivity.
  - intros y ->%list_elem_of_singleton. discriminate.
Defined.

(** X24 on the example. *)
Lemma repr_never_shows_files_witness :
  ex_shown.*1
  = ["Name"; "Version"; "Format"; "Upload Date"; "Licence"; "Download URL"; "OpenML URL";
     "# of features"; "# of instances"]
  ∧ (∀ key, key ∈ ["Data file"; "Pickle file"; "Data File"; "Pickle File"] →
            key ∉ ex_shown.*1).
Proof.
  apply (repr_never_shows_files (surroundings := ex_surroundings) ex_dataset
           (ex_metadata_with (Some [(XStr "NumberOfInstances", Ffin (inject_Z 150))]))
           ex_shown).
  reflexivity.
Defined.
